(** * Wellness dashboard: data loading, normalisation and derived metrics

    A shallow embedding of [utils/data_loader.py] (and of the contracts of
    the metric components that [app.py] calls), with the properties of the
    specification stated and proved over it.

    Layout:
    - [Py]        : exceptions and the result monad;
    - [Pandas]    : the fragment of the dataframe library the loader uses;
    - [Loader]    : [normalize_dataframe], [get_athletes], [load_google_sheet]
                    and the module-level code of [data_loader.py];
    - [Readiness] : the readiness contract (section 4.2 of the specification);
    - [ZScores]   : the z-score contract (section 4.4 of the specification);
    - [App]       : the configuration check, the loading phase and the date
                    filter of [app.py];
    - [Samples]   : an instance of the parsers of the library, and literal
                    tables.

    The conversions of the dataframe library ([pd.to_datetime],
    [pd.to_numeric]) are parameters: they work on a column as a whole and
    can refuse one.  What the loader does around them is embedded as it is
    written. *)

From Stdlib Require Import String Ascii Bool Arith ZArith QArith Qcanon.
From Stdlib Require Import List Lia Lqa Permutation Sorted.
From Stdlib Require OrderedTypeEx.
Import ListNotations.

Local Open Scope string_scope.
Local Open Scope list_scope.

(* ===================================================================== *)
(** * Python exceptions and results *)
(* ===================================================================== *)

Module Py.

(** The exception classes the loader can meet.  All of them derive from
    [Exception], so an [except Exception] clause catches every one. *)
Inductive exn : Type :=
| ValueError (msg : string)
| TypeError (msg : string)
| KeyError (key : string)
| AttributeError (msg : string)
| NameError (name : string)
| FileNotFoundError (msg : string)
| ExternalError (msg : string).   (* raised inside gspread, oauth2client, json, streamlit, the OS *)

Inductive result (A : Type) : Type :=
| Ok (a : A)
| Raise (e : exn).
Arguments Ok {A} a.
Arguments Raise {A} e.

Definition bind {A B : Type} (r : result A) (k : A -> result B) : result B :=
  match r with
  | Ok a => k a
  | Raise e => Raise e
  end.


(** A [dict] literal with string keys, in source order. *)
Definition dict (V : Type) : Type := list (string * V).

(** [d.get(k)]. *)
Fixpoint dict_get {V : Type} (d : dict V) (k : string) : option V :=
  match d with
  | [] => None
  | (k', v) :: d' => if String.eqb k' k then Some v else dict_get d' k
  end.

Definition dict_keys {V : Type} (d : dict V) : list string := map fst d.
Definition dict_values {V : Type} (d : dict V) : list V := map snd d.

(** [x in xs] for a list (or an index) of strings. *)
Definition contains (xs : list string) (x : string) : bool :=
  existsb (String.eqb x) xs.

End Py.
Export Py.

Declare Scope py_scope.
Delimit Scope py_scope with py.
Notation "x <- c ;; k" := (Py.bind c (fun x => k))
  (at level 61, c at next level, right associativity) : py_scope.
Local Open Scope py_scope.

(* ===================================================================== *)
(** * The dataframe fragment *)
(* ===================================================================== *)

Module Pandas.

(** A cell of a frame: missing ([NaN], [None], [NaT]), a string, a number
    (an [int] or a [float], by its value), or a timestamp.  A timestamp is
    held by its wall-clock reading: the nanoseconds from 1970-01-01 00:00 to
    the date and time it shows in its own time zone.  That is the reading
    [.dt.date] takes the day of; the UTC offset of a zone-aware timestamp is
    not kept, the loader never reads it.  A [datetime.date] is represented
    by the timestamp of its midnight. *)
Inductive cell : Type :=
| NA
| Str (s : string)
| Num (q : Qc)
| Time (t : Z).

(** A column of values. *)
Abbreviation Series := (list cell).

(** A frame: the row labels and the columns in order.  Column labels may
    repeat, as they may in pandas. *)
Record DataFrame : Type := mkDataFrame {
  index : list nat;
  data : list (string * Series)
}.

Definition columns (df : DataFrame) : list string := map fst (data df).

(** [len(df)]. *)
Definition nrows (df : DataFrame) : nat := length (index df).

(** [df.empty]: some axis has length zero. *)
Definition empty (df : DataFrame) : bool :=
  (nrows df =? 0)%nat || (length (data df) =? 0)%nat.

(** Every column is as long as the index. *)
Definition well_formed (df : DataFrame) : Prop :=
  Forall (fun c => length (snd c) = nrows df) (data df).

Definition cell_eq_dec (a b : cell) : {a = b} + {a <> b}.
Proof.
  decide equality.
  - apply string_dec.
  - apply Qc_eq_dec.
  - apply Z.eq_dec.
Defined.

Definition cell_eqb (a b : cell) : bool :=
  if cell_eq_dec a b then true else false.

Definition isna (c : cell) : bool :=
  match c with NA => true | _ => false end.

(** ** Selection and assignment *)

(** [df.rename(columns=mapping)]: a label that is a key of the mapping is
    replaced by its value, every other label is kept. *)
Definition rename_label (mapping : dict string) (l : string) : string :=
  match dict_get mapping l with
  | Some l' => l'
  | None => l
  end.

Definition rename (df : DataFrame) (mapping : dict string) : DataFrame :=
  {| index := index df;
     data := map (fun c => (rename_label mapping (fst c), snd c)) (data df) |}.

(** [df[label]]: a series when one column carries the label, a frame of
    all the columns that carry it when several do. *)
Inductive selection : Type :=
| OneSeries (s : Series)
| SubFrame (cols : list (string * Series)).

Definition getitem (df : DataFrame) (label : string) : result selection :=
  match filter (fun c => String.eqb (fst c) label) (data df) with
  | [] => Raise (KeyError label)
  | [c] => Ok (OneSeries (snd c))
  | cs => Ok (SubFrame cs)
  end.

(** [df[label] = s]: overwrite the column(s) named [label], or append a
    new last column. *)
Definition setitem (df : DataFrame) (label : string) (s : Series) : DataFrame :=
  {| index := index df;
     data :=
       if contains (columns df) label
       then map (fun c => if String.eqb (fst c) label then (fst c, s) else c) (data df)
       else data df ++ [(label, s)] |}.

(** ** Ordering of sort keys *)

(** The order [sort_values] puts on the values of a key column: numbers
    before strings, missing values last ([na_position='last']). *)
Definition cell_compare (a b : cell) : comparison :=
  match a, b with
  | NA, NA => Eq
  | NA, _ => Gt
  | _, NA => Lt
  | Str s, Str t => String.compare s t
  | Str _, _ => Gt
  | _, Str _ => Lt
  | Num p, Num q => (p ?= q)%Qc
  | Time s, Time t => (s ?= t)%Z
  | Num _, Time _ => Lt
  | Time _, Num _ => Gt
  end.

Definition cell_leb (a b : cell) : bool :=
  match cell_compare a b with Gt => false | _ => true end.

Definition is_num (c : cell) : bool := match c with Num _ => true | _ => false end.
Definition is_time (c : cell) : bool := match c with Time _ => true | _ => false end.

(** Numbers and timestamps cannot be compared with each other: a key
    column that holds both cannot be ordered. *)
Definition orderable (s : Series) : bool :=
  negb (existsb is_num s && existsb is_time s).

(** Stable insertion sort of a list under a boolean order. *)
Section StableSort.
Context {A : Type} (leb : A -> A -> bool).

Fixpoint insert (x : A) (l : list A) : list A :=
  match l with
  | [] => [x]
  | y :: l' => if leb x y then x :: y :: l' else y :: insert x l'
  end.

Fixpoint stable_sort (l : list A) : list A :=
  match l with
  | [] => []
  | x :: l' => insert x (stable_sort l')
  end.
End StableSort.

(** Lexicographic order on pairs of keys. *)
Definition key_leb (a b : cell * cell) : bool :=
  match cell_compare (fst a) (fst b) with
  | Lt => true
  | Gt => false
  | Eq => cell_leb (snd a) (snd b)
  end.

(** The pair of keys of row [i]. *)
Definition key_at (k1 k2 : Series) (i : nat) : cell * cell :=
  (nth i k1 NA, nth i k2 NA).

(** [lexsort_indexer]: the positions [0 .. n-1] in the order of their keys. *)
Definition lexsort_indexer (n : nat) (k1 k2 : Series) : list nat :=
  stable_sort (fun i j => key_leb (key_at k1 k2 i) (key_at k1 k2 j)) (seq 0 n).

(** [df.take(indexer)]. *)
Definition take_series (ix : list nat) (s : Series) : Series :=
  map (fun i => nth i s NA) ix.

Definition take (df : DataFrame) (ix : list nat) : DataFrame :=
  {| index := map (fun i => nth i (index df) 0%nat) ix;
     data := map (fun c => (fst c, take_series ix (snd c))) (data df) |}.

(** A sort key must name exactly one column. *)
Definition key_column (df : DataFrame) (label : string) : result Series :=
  sel <- getitem df label ;;
  match sel with
  | OneSeries s => Ok s
  | SubFrame _ => Raise (ValueError ("The column label '" ++ label ++ "' is not unique.")%string)
  end.

(** [df.sort_values([by1, by2])]: ascending, stable, missing last. *)
Definition sort_values (df : DataFrame) (by1 by2 : string) : result DataFrame :=
  k1 <- key_column df by1 ;;
  k2 <- key_column df by2 ;;
  if orderable k1 && orderable k2
  then Ok (take df (lexsort_indexer (nrows df) k1 k2))
  else Raise (TypeError "'<' not supported between instances").

(** ** Series helpers used by [get_athletes] *)

Definition dropna (s : Series) : Series := filter (fun c => negb (isna c)) s.

(** [Series.unique()]: the distinct values in order of first appearance. *)
Fixpoint unique (s : Series) : Series :=
  match s with
  | [] => []
  | x :: s' => x :: filter (fun y => negb (cell_eqb y x)) (unique s')
  end.

Definition same_kind (a b : cell) : bool :=
  match a, b with
  | NA, NA | Str _, Str _ | Num _, Num _ | Time _, Time _ => true
  | _, _ => false
  end.

(** All values are of the kind of the first one. *)
Definition homogeneous (l : list cell) : bool :=
  match l with
  | [] => true
  | x :: l' => forallb (same_kind x) l'
  end.

(** The builtin [sorted]: values of different kinds do not compare. *)
Definition sorted (l : list cell) : result (list cell) :=
  if homogeneous l
  then Ok (stable_sort cell_leb l)
  else Raise (TypeError "'<' not supported between instances").

(** ** Coercions *)

Definition ns_per_day : Z := 86400 * 1000000000.

(** Midnight of the day of [t]. *)
Definition day_floor (t : Z) : Z := (t / ns_per_day) * ns_per_day.

(** A [datetime.date] holds the years 1 to 9999: the days from 0001-01-01,
    which is 719162 days before 1970-01-01, to 9999-12-31, the day before
    day 2932897. *)
Definition first_day : Z := -719162 * ns_per_day.
Definition end_of_days : Z := 2932897 * ns_per_day.

Definition has_date (t : Z) : bool := (first_day <=? t)%Z && (t <? end_of_days)%Z.

(** A timestamp or a missing value: what a column of timestamps holds. *)
Definition parsed_time (c : cell) : bool :=
  match c with NA | Time _ => true | _ => false end.

(** A number or a missing value: what a numeric column holds. *)
Definition parsed_number (c : cell) : bool :=
  match c with NA | Num _ => true | _ => false end.

(** The timestamp of the cell, if it is one, has a calendar date. *)
Definition dated (c : cell) : bool :=
  match c with Time t => has_date t | _ => true end.

(** The day of a timestamp cell. *)
Definition date_of_cell (c : cell) : cell :=
  match c with
  | Time t => Time (day_floor t)
  | _ => NA
  end.

(** The parsers of the library are taken as given.  They convert a
    column as a whole: the format of its dates is guessed from its first
    value, its time zone and its numeric type are those of all its values,
    so what a cell becomes depends on the column it stands in.
    - [datetime_refusal s]: the exception with which the conversion
      [pd.to_datetime(s, errors='coerce')] of the column [s] ends, if it
      does: timestamps of different UTC offsets do not make one column.
      (It is raised by the call or, where the call answers with a column
      that is not of timestamps, by the [.dt] accessor that follows it.)
    - [datetime_in s c]: the wall-clock reading of the timestamp that the
      value [c] becomes in the column [s], if it becomes one;
    - [date_in_bounds d]: the timestamp type reaches the midnight [d];
    - [numeric_in s c]: the number that the value [c] becomes in the column
      [s], if it becomes one: the value it denotes, rounded to the numeric
      type the column gets. *)
Record parsers : Type := mkParsers {
  datetime_refusal : Series -> option exn;
  datetime_in : Series -> cell -> option Z;
  date_in_bounds : Z -> bool;
  numeric_in : Series -> cell -> option Qc
}.

Definition out_of_bounds : exn := ValueError "Out of bounds nanosecond timestamp".

Definition no_calendar_date : exn := ValueError "year is out of range".

Section Coercions.
Variable P : parsers.

(** [errors='coerce']: a missing value stays missing, and a value that does
    not convert becomes missing. *)
Definition to_datetime_cell (s : Series) (c : cell) : cell :=
  match c with
  | NA => NA
  | _ => match datetime_in P s c with
         | Some t => Time t
         | None => NA
         end
  end.

Definition to_numeric_cell (s : Series) (c : cell) : cell :=
  match c with
  | NA => NA
  | _ => match numeric_in P s c with
         | Some q => Num q
         | None => NA
         end
  end.

(** The values of a converted column. *)
Definition to_datetime_values (s : Series) : Series := map (to_datetime_cell s) s.

Definition to_numeric_values (s : Series) : Series := map (to_numeric_cell s) s.

(** A column without a value has nothing that can be refused. *)
Definition refused (s : Series) : option exn :=
  if forallb isna s then None else datetime_refusal P s.

(** [pd.to_datetime(x, errors='coerce')].  Given a frame it assembles
    dates from columns and refuses repeated column labels. *)
Definition to_datetime_coerce (x : selection) : result Series :=
  match x with
  | OneSeries s =>
      match refused s with
      | Some e => Raise e
      | None => Ok (to_datetime_values s)
      end
  | SubFrame _ => Raise (ValueError "cannot assemble with duplicate keys")
  end.

(** [pd.to_datetime(x)] with the default [errors='raise'], on the values of
    the column [ctx]: a date becomes the timestamp of its midnight, which
    the timestamp type has to reach. *)
Fixpoint to_datetime_strict (ctx s : Series) : result Series :=
  match s with
  | [] => Ok []
  | c :: s' =>
      match c with
      | NA => r <- to_datetime_strict ctx s' ;; Ok (NA :: r)
      | Time d =>
          if date_in_bounds P d
          then r <- to_datetime_strict ctx s' ;; Ok (Time d :: r)
          else Raise out_of_bounds
      | _ =>
          match datetime_in P ctx c with
          | Some t => r <- to_datetime_strict ctx s' ;; Ok (Time t :: r)
          | None => Raise (ValueError "Unknown datetime string format")
          end
      end
  end.

Definition to_datetime (x : selection) : result Series :=
  match x with
  | OneSeries s => to_datetime_strict s s
  | SubFrame _ => Raise (ValueError "cannot assemble with duplicate keys")
  end.

(** [s.dt.date]: the accessor is there for a column of timestamps only, and
    every timestamp must have a date that [datetime.date] holds. *)
Definition dt_date_series (s : Series) : result Series :=
  if forallb parsed_time s
  then if forallb dated s
       then Ok (map date_of_cell s)
       else Raise no_calendar_date
  else Raise (AttributeError "Can only use .dt accessor with datetimelike values").

Definition dt_date (x : selection) : result Series :=
  match x with
  | OneSeries s => dt_date_series s
  | SubFrame _ => Raise (AttributeError "'DataFrame' object has no attribute 'dt'")
  end.

(** [pd.to_numeric(x, errors='coerce')]: never raises on a column. *)
Definition to_numeric_coerce (x : selection) : result Series :=
  match x with
  | OneSeries s => Ok (to_numeric_values s)
  | SubFrame _ => Raise (TypeError "arg must be a list, tuple, 1-d array, or Series")
  end.

End Coercions.

(** ** Reductions and boolean indexing *)

(** The greater of two values under the order of the library. *)
Definition greater (a b : cell) : cell := if cell_leb a b then b else a.

(** [Series.max()]: the greatest non-missing value, the missing value when
    there is none.  Values of different kinds do not compare. *)
Definition series_max (s : Series) : result cell :=
  match dropna s with
  | [] => Ok NA
  | x :: l =>
      if homogeneous (x :: l)
      then Ok (fold_left greater l x)
      else Raise (TypeError "'>=' not supported between instances")
  end.

(** The positions at which a mask holds, in order. *)
Fixpoint positions_from (i : nat) (mask : list bool) : list nat :=
  match mask with
  | [] => []
  | b :: mask' => if b then i :: positions_from (S i) mask' else positions_from (S i) mask'
  end.

(** [df[mask]] for a boolean mask: the rows at which the mask holds. *)
Definition select_rows (df : DataFrame) (mask : list bool) : DataFrame :=
  take df (positions_from 0 mask).

End Pandas.
Export Pandas.

(* ===================================================================== *)
(** * The loader: [utils/data_loader.py] *)
(* ===================================================================== *)

Module Loader.

(** ** [normalize_dataframe] *)

Definition column_mapping : dict string :=
  [ ("Timestamp", "Timestamp");
    ("timestamp", "Timestamp");
    ("Date", "Timestamp");
    ("Athlete", "Athlete");
    ("Name", "Athlete");
    ("SleepText", "SleepText");
    ("Sleep Text", "SleepText");
    ("Sleep Duration", "SleepText");
    ("How did you sleep?", "Sleep");
    ("Sleep Quality", "Sleep");
    ("How is your mood?", "Mood");
    ("Mood", "Mood");
    ("What is your overall energy level?", "Energy");
    ("Energy Level", "Energy");
    ("Energy", "Energy");
    ("What is your overall stress level?", "Stress");
    ("Stress Level", "Stress");
    ("Stress", "Stress");
    ("What is your general soreness?", "Soreness");
    ("Soreness", "Soreness");
    ("What is your overall fatigue?", "Fatigue");
    ("Fatigue", "Fatigue") ].

Definition numeric_columns : list string :=
  ["Sleep"; "Mood"; "Energy"; "Stress"; "Soreness"; "Fatigue"].

Section Normalize.
Variable P : parsers.

(** The body of the loop over [numeric_columns]. *)
Definition convert_numeric (df : DataFrame) (col : string) : result DataFrame :=
  if contains (columns df) col
  then x <- getitem df col ;;
       s <- to_numeric_coerce P x ;;
       Ok (setitem df col s)
  else Ok df.

Fixpoint convert_numeric_columns (cols : list string) (df : DataFrame)
  : result DataFrame :=
  match cols with
  | [] => Ok df
  | col :: cols' => df' <- convert_numeric df col ;; convert_numeric_columns cols' df'
  end.

(** The block guarded by ['Timestamp' in df.columns]. *)
Definition convert_timestamp (df : DataFrame) : result DataFrame :=
  if contains (columns df) "Timestamp"
  then x <- getitem df "Timestamp" ;;
       ts <- to_datetime_coerce P x ;;
       let df := setitem df "Timestamp" ts in
       x <- getitem df "Timestamp" ;;
       d <- dt_date x ;;
       let df := setitem df "Date" d in
       x <- getitem df "Date" ;;
       d' <- to_datetime P x ;;
       Ok (setitem df "Date" d')
  else Ok df.

Definition normalize_dataframe (df : DataFrame) : result DataFrame :=
  let df := rename df column_mapping in
  df <- convert_timestamp df ;;
  df <- convert_numeric_columns numeric_columns df ;;
  if contains (columns df) "Date" && contains (columns df) "Athlete"
  then sort_values df "Date" "Athlete"
  else Ok df.

End Normalize.

(** ** [get_athletes] *)

Definition get_athletes (df : DataFrame) : result (list cell) :=
  if contains (columns df) "Athlete"
  then x <- getitem df "Athlete" ;;
       match x with
       | OneSeries s => sorted (unique (dropna s))
       | SubFrame _ => Raise (AttributeError "'DataFrame' object has no attribute 'unique'")
       end
  else Ok [].

(** ** [get_latest_date] *)

Definition get_latest_date (df : DataFrame) : result (option cell) :=
  if contains (columns df) "Date"
  then x <- getitem df "Date" ;;
       match x with
       | OneSeries s =>
           if forallb isna s
           then Ok None
           else latest <- series_max s ;; Ok (Some latest)
       | SubFrame _ => Raise (ValueError "The truth value of a Series is ambiguous")
       end
  else Ok None.

(** ** Effects: the outside world and the trace of calls *)

(** What the loader does to the outside world, in order. *)
Inductive event : Type :=
| SecretsLookup (key : string)            (* "key" in st.secrets *)
| SecretsRead (key : string)              (* st.secrets[key] *)
| PathExists (path : string)              (* os.path.exists *)
| ReadKeyfile (path : string)             (* from_json_keyfile_name *)
| ClassMethod (cls method : string)       (* cls.method(...) on a resolved class *)
| Authorize                               (* gspread.authorize *)
| OpenSheet (title : string)              (* client.open *)
| OpenWorksheet (name : string)           (* sheet.worksheet *)
| GetAllRecords                           (* worksheet.get_all_records *)
| ReadCsv (path : string)                 (* pd.read_csv *)
| StWarning (e : exn)                     (* st.warning *)
| StInfo (msg : string).                  (* st.info *)

Definition trace : Type := list event.

(** A computation that may raise and that appends to the trace. *)
Definition io (A : Type) : Type := trace -> result A * trace.

Definition io_ret {A : Type} (a : A) : io A := fun t => (Ok a, t).

Definition io_raise {A : Type} (e : exn) : io A := fun t => (Raise e, t).

Definition io_bind {A B : Type} (c : io A) (k : A -> io B) : io B :=
  fun t =>
    match c t with
    | (Ok a, t') => k a t'
    | (Raise e, t') => (Raise e, t')
    end.

(** [try: c  except Exception as e: handler(e)]. *)
Definition try_except {A : Type} (c : io A) (handler : exn -> io A) : io A :=
  fun t =>
    match c t with
    | (Ok a, t') => (Ok a, t')
    | (Raise e, t') => handler e t'
    end.

(** An external call: logged, then its outcome. *)
Definition call {A : Type} (ev : event) (outcome : result A) : io A :=
  fun t => (outcome, t ++ [ev]).

Notation "x <~ c ;; k" := (io_bind c (fun x => k))
  (at level 61, c at next level, right associativity) : py_scope.

(** The outcomes of the external calls.  Handles (credentials, clients,
    sheets) are opaque names; [get_all_records] gives the records as the
    frame [pd.DataFrame] builds from them. *)
Record World : Type := mkWorld {
  secrets_contains : string -> result bool;
  secrets_get : string -> result string;
  json_loads : string -> result string;
  path_exists : string -> bool;
  from_json_keyfile_name : string -> result string;
  class_method : string -> string -> string -> result string;
  authorize : string -> result string;
  open_sheet : string -> string -> result string;
  worksheet : string -> string -> result string;
  get_all_records : string -> result DataFrame;
  read_csv : string -> result DataFrame
}.

Definition ingestion_event (ev : event) : bool :=
  match ev with
  | GetAllRecords | ReadCsv _ => true
  | _ => false
  end.

Definition remote_event (ev : event) : bool :=
  match ev with GetAllRecords => true | _ => false end.

Definition fallback_event (ev : event) : bool :=
  match ev with ReadCsv _ => true | _ => false end.

Definition count (p : event -> bool) (t : trace) : nat := length (filter p t).

(** ** [load_google_sheet] *)

Definition fallback_path : string := "data/example_export.csv".

Definition fallback_notice : string := "Loading from local example data...".

Definition empty_source_error : exn := ValueError "No data found in sheet".

Section Load.
Variable P : parsers.
Variable W : World.

(** The [try] block up to [df = pd.DataFrame(data)]. *)
Definition fetch_remote (sheet_title worksheet_name credentials_file : string)
  : io DataFrame :=
  ex <~ call (PathExists credentials_file) (Ok (path_exists W credentials_file)) ;;
  if negb ex
  then io_raise (FileNotFoundError ("Credentials file not found: " ++ credentials_file)%string)
  else
    creds <~ call (ReadKeyfile credentials_file) (from_json_keyfile_name W credentials_file) ;;
    client <~ call Authorize (authorize W creds) ;;
    sheet <~ call (OpenSheet sheet_title) (open_sheet W client sheet_title) ;;
    ws <~ call (OpenWorksheet worksheet_name) (worksheet W sheet worksheet_name) ;;
    call GetAllRecords (get_all_records W ws).

(** The whole [try] block: an empty frame is an error. *)
Definition remote_ingest (sheet_title worksheet_name credentials_file : string)
  : io DataFrame :=
  df <~ fetch_remote sheet_title worksheet_name credentials_file ;;
  if empty df
  then io_raise empty_source_error
  else io_ret df.

(** The body of the [except] block. *)
Definition on_error (use_fallback : bool) (e : exn) : io DataFrame :=
  _ <~ call (StWarning e) (Ok tt) ;;
  if use_fallback
  then _ <~ call (StInfo fallback_notice) (Ok tt) ;;
       call (ReadCsv fallback_path) (read_csv W fallback_path)
  else io_raise e.

(** The body of the function, as it runs when the cache of
    [st.cache_data] does not answer. *)
Definition load_google_sheet
  (sheet_title worksheet_name credentials_file : string) (use_fallback : bool)
  : io DataFrame :=
  df <~ try_except (remote_ingest sheet_title worksheet_name credentials_file)
                   (on_error use_fallback) ;;
  fun t => (normalize_dataframe P df, t).

(** ** The module-level statements of [data_loader.py] *)

(** The names bound in the module's namespace when line 19 runs: the
    imports of lines 7-14 and [scope]. *)
Definition module_globals : dict string :=
  [ ("json", "json");
    ("pd", "pandas");
    ("gspread", "gspread");
    ("ServiceAccountCredentials", "oauth2client.service_account.ServiceAccountCredentials");
    ("st", "streamlit");
    ("Optional", "typing.Optional");
    ("Dict", "typing.Dict");
    ("Any", "typing.Any");
    ("os", "os");
    ("datetime", "datetime.datetime");
    ("timedelta", "datetime.timedelta");
    ("scope", "list") ].

(** Evaluation of a global name. *)
Definition resolve (globals : dict string) (name : string) : io string :=
  match dict_get globals name with
  | Some obj => io_ret obj
  | None => io_raise (NameError name)
  end.

(** Lines 19-27, run under a given namespace. *)
Definition run_module_level (globals : dict string) : io DataFrame :=
  has <~ call (SecretsLookup "GSPREAD_CREDENTIALS") (secrets_contains W "GSPREAD_CREDENTIALS") ;;
  creds <~ (if has : bool
            then s <~ call (SecretsRead "GSPREAD_CREDENTIALS") (secrets_get W "GSPREAD_CREDENTIALS") ;;
                 creds_dict <~ (fun t => (json_loads W s, t)) ;;
                 cls <~ resolve globals "Credentials" ;;
                 call (ClassMethod cls "from_service_account_info")
                      (class_method W cls "from_service_account_info" creds_dict)
            else cls <~ resolve globals "Credentials" ;;
                 call (ClassMethod cls "from_service_account_file")
                      (class_method W cls "from_service_account_file" "gspread_credentials.json")) ;;
  client <~ call Authorize (authorize W creds) ;;
  sheet <~ call (OpenSheet "Morning Wellness Tracker") (open_sheet W client "Morning Wellness Tracker") ;;
  ws <~ call (OpenWorksheet "Form Responses 1") (worksheet W sheet "Form Responses 1") ;;
  call GetAllRecords (get_all_records W ws).

(** What importing the module runs: lines 19-27 under the module's own
    namespace. *)
Definition import_data_loader : io DataFrame := run_module_level module_globals.

(** A caller that imports the module and then loads the sheet, as [app.py]
    does. *)
Definition import_then_load
  (sheet_title worksheet_name credentials_file : string) (use_fallback : bool)
  : io DataFrame :=
  _ <~ import_data_loader ;;
  load_google_sheet sheet_title worksheet_name credentials_file use_fallback.

End Load.

(** The outcome of the fallback branch: the normalized form of the local
    export, or the exception of reading or normalizing it. *)
Definition fallback_outcome (P : parsers) (W : World) : result DataFrame :=
  csv <- read_csv W fallback_path ;; normalize_dataframe P csv.

(** The events that a computation adds to the trace satisfy [bound]. *)
Definition emits {A : Type} (c : io A) (bound : list event -> Prop) : Prop :=
  forall t, exists evs, snd (c t) = t ++ evs /\ bound evs.

(** At most [r] remote fetches and [f] fallback reads. *)
Definition at_most (r f : nat) (evs : list event) : Prop :=
  (count remote_event evs <= r)%nat /\ (count fallback_event evs <= f)%nat.

(** The calls the import can reach: the two accesses to the secrets. *)
Definition secrets_only (evs : list event) : Prop :=
  forall ev, In ev evs ->
    ev = SecretsLookup "GSPREAD_CREDENTIALS" \/ ev = SecretsRead "GSPREAD_CREDENTIALS".

(** ** Vocabulary of the statements about the loader *)

(** How many columns carry a label. *)
Definition occurrences (label : string) (df : DataFrame) : nat :=
  length (filter (fun c => String.eqb (fst c) label) (data df)).

(** The values of the first column that carries a label. *)
Definition column (df : DataFrame) (label : string) : Series :=
  match filter (fun c => String.eqb (fst c) label) (data df) with
  | c :: _ => snd c
  | [] => []
  end.

(** A frame with [f] applied to the columns named [label]. *)
Definition on_label (label : string) (f : Series -> Series) (c : string * Series)
  : string * Series :=
  if String.eqb (fst c) label then (fst c, f (snd c)) else c.

Definition map_column (label : string) (f : Series -> Series) (df : DataFrame) : DataFrame :=
  {| index := index df; data := map (on_label label f) (data df) |}.

(** The coercion a column undergoes, by its label after renaming. *)
Definition coerce_series (P : parsers) (label : string) (s : Series) : Series :=
  if String.eqb label "Timestamp" then to_datetime_values P s
  else if contains numeric_columns label then to_numeric_values P s
  else s.

Definition coerce_column (P : parsers) (c : string * Series) : string * Series :=
  (fst c, coerce_series P (fst c) (snd c)).

(** The columns of the result before sorting: every renamed column with its
    coercion, then [Date] when there is a [Timestamp]. *)
Definition coerced_data (P : parsers) (df : DataFrame) : list (string * Series) :=
  let renamed := rename df column_mapping in
  map (coerce_column P) (data renamed)
  ++ (if contains (columns renamed) "Timestamp"
      then [("Date", map date_of_cell (to_datetime_values P (column renamed "Timestamp")))]
      else []).

(** The frame before sorting. *)
Definition coerced (P : parsers) (df : DataFrame) : DataFrame :=
  {| index := index df; data := coerced_data P df |}.

(** The result is sorted when it has both a [Date] and an [Athlete] column,
    that is, when the renamed frame has [Timestamp] and [Athlete]. *)
Definition sorts (df : DataFrame) : bool :=
  let renamed := rename df column_mapping in
  contains (columns renamed) "Timestamp" && contains (columns renamed) "Athlete".

(** The value [normalize_dataframe] returns when it returns. *)
Definition normalized (P : parsers) (df : DataFrame) : DataFrame :=
  let c := coerced P df in
  if sorts df
  then take c (lexsort_indexer (nrows c) (column c "Date") (column c "Athlete"))
  else c.

(** The errors of the coercions on a repeated label. *)
Definition numeric_error : exn :=
  TypeError "arg must be a list, tuple, 1-d array, or Series".

Definition duplicate_keys_error : exn :=
  ValueError "cannot assemble with duplicate keys".

(** The error of sorting on a repeated subject label. *)
Definition athlete_not_unique : exn :=
  ValueError "The column label 'Athlete' is not unique.".

(** The error of ordering values that do not compare. *)
Definition not_comparable : exn :=
  TypeError "'<' not supported between instances".

(** The date, if the cell is one, is within the bounds of the timestamp
    type. *)
Definition date_ok (P : parsers) (c : cell) : bool :=
  match c with Time d => date_in_bounds P d | _ => true end.

(** The exception with which the three conversions of the [Timestamp] block
    end on a column, if one does: the column is refused, one of its
    timestamps has no calendar date, or one of its dates is out of the
    bounds of the timestamp type. *)
Definition timestamp_failure (P : parsers) (s : Series) : option exn :=
  match refused P s with
  | Some e => Some e
  | None =>
      if forallb dated (to_datetime_values P s)
      then if forallb (date_ok P) (map date_of_cell (to_datetime_values P s))
           then None
           else Some out_of_bounds
      else Some no_calendar_date
  end.

(** The exception with which [normalize_dataframe] ends, if it raises, by
    the order in which the function meets the causes: two columns renamed
    to [Timestamp]; the conversions of the [Timestamp] column; two columns
    renamed to one numeric field; and, when the result is sorted, the
    [Athlete] column not being one orderable column. *)
Definition failure (P : parsers) (df : DataFrame) : option exn :=
  let renamed := rename df column_mapping in
  if (2 <=? occurrences "Timestamp" renamed)%nat then Some duplicate_keys_error
  else
    match timestamp_failure P (column renamed "Timestamp") with
    | Some e => Some e
    | None =>
        if forallb (fun col => (occurrences col renamed <=? 1)%nat) numeric_columns
        then if sorts df
             then match occurrences "Athlete" renamed with
                  | 1%nat => if orderable (column renamed "Athlete")
                             then None
                             else Some not_comparable
                  | _ => Some athlete_not_unique
                  end
             else None
        else Some numeric_error
    end.

(** The numeric coercion applied to the columns named in [cols], in turn. *)
Definition map_columns (P : parsers) (cols : list string) (df : DataFrame) : DataFrame :=
  fold_left (fun d col => map_column col (to_numeric_values P) d) cols df.

(** A frame with one more last column. *)
Definition append_column (df : DataFrame) (label : string) (s : Series) : DataFrame :=
  {| index := index df; data := data df ++ [(label, s)] |}.

(** What the labels of a frame must be for [normalize_dataframe] to go
    through: no two columns renamed to [Timestamp], no two renamed to one
    numeric field and, when the result is sorted, one column renamed to
    [Athlete]. *)
Definition admits_labels (df : DataFrame) : bool :=
  let renamed := rename df column_mapping in
  (occurrences "Timestamp" renamed <=? 1)%nat
  && forallb (fun col => (occurrences col renamed <=? 1)%nat) numeric_columns
  && (if sorts df then (occurrences "Athlete" renamed =? 1)%nat else true).





Definition is_coerced_field (l : string) : bool :=
  String.eqb l "Timestamp" || contains numeric_columns l.


(** A numeric column: a column that the numeric coercion returns as it is,
    as it does a column of a numeric type. *)
Definition numeric_column (P : parsers) (s : Series) : Prop :=
  to_numeric_values P s = s.

(** The numeric coercion returns its own results as they are: they are
    columns of a numeric type. *)
Definition numeric_stable (P : parsers) : Prop :=
  forall s, numeric_column P (to_numeric_values P s).



(** The non-missing values of a column are of one kind. *)
Definition one_kind (s : Series) : Prop :=
  forall x y, In x s -> In y s -> x <> NA -> y <> NA -> same_kind x y = true.

(** The rows of a frame are in the order of their (Date, Athlete) keys. *)
Definition key_le (a b : cell * cell) : Prop := key_leb a b = true.

Definition row_keys (df : DataFrame) : list (cell * cell) :=
  combine (column df "Date") (column df "Athlete").

(** The labels of the rows that carry a given (Date, Athlete) key, in the
    order of the frame. *)
Definition key_eqb (a b : cell * cell) : bool :=
  cell_eqb (fst a) (fst b) && cell_eqb (snd a) (snd b).

Definition rows_with_key (df : DataFrame) (k : cell * cell) : list nat :=
  map fst (filter (fun r => key_eqb (snd r) k) (combine (index df) (row_keys df))).

(** The values of a column have the type its label calls for: parsed
    timestamps under [Timestamp] and [Date], numbers under a numeric field,
    the missing value being allowed in both. *)
Definition typed_column (c : string * Series) : bool :=
  if String.eqb (fst c) "Timestamp" || String.eqb (fst c) "Date"
  then forallb parsed_time (snd c)
  else if contains numeric_columns (fst c) then forallb parsed_number (snd c)
  else true.

End Loader.

(* ===================================================================== *)
(** * Readiness: the contract of [add_readiness_column] *)
(* ===================================================================== *)

Module Readiness.

Local Open Scope Q_scope.

Inductive metric : Type := Sleep | Mood | Energy | Stress | Soreness | Fatigue.

Definition all_metrics : list metric := [Sleep; Mood; Energy; Stress; Soreness; Fatigue].

(** Higher is worse for these. *)
Definition inverted (m : metric) : bool :=
  match m with
  | Stress | Soreness | Fatigue => true
  | Sleep | Mood | Energy => false
  end.

(** The metric fields of one record; [None] is an unknown value. *)
Definition row : Type := metric -> option Q.

(** The pinned policy: the input scale, the weight of each metric and the
    inversion applied to the metrics for which higher is worse. *)
Record policy : Type := mkPolicy {
  scale_lo : Q;
  scale_hi : Q;
  weight : metric -> Q;
  invert : Q -> Q
}.

(** What a metric contributes: its value, inverted where higher is worse. *)
Definition contribution (p : policy) (r : row) (m : metric) : option Q :=
  match r m with
  | Some v => Some (if inverted m then invert p v else v)
  | None => None
  end.

Definition known_terms (p : policy) (r : row) : list (Q * Q) :=
  flat_map (fun m => match contribution p r m with
                     | Some c => [(weight p m, c)]
                     | None => []
                     end) all_metrics.

Definition weighted_sum (l : list (Q * Q)) : Q :=
  fold_right (fun wc acc => fst wc * snd wc + acc) 0 l.

Definition total_weight (l : list (Q * Q)) : Q :=
  fold_right (fun wc acc => fst wc + acc) 0 l.

(** Modelled from the spec: the function [add_readiness_column] of
    [components/readiness.py], which is not among the sources.  Section 4.2:
    readiness is a fixed-weight combination of the available metric fields,
    stress, soreness and fatigue being inverted before combination; it is
    unknown when all contributing metrics are unknown, and is computed from
    the known subset only otherwise. *)
Definition readiness (p : policy) (r : row) : option Q :=
  match known_terms p r with
  | [] => None
  | l => Some (weighted_sum l / total_weight l)
  end.

Definition add_readiness_column (p : policy) (rows : list row) : list (row * option Q) :=
  map (fun r => (r, readiness p r)) rows.

(** The same combination with every unknown metric replaced by zero: what
    the contract forbids. *)
Definition zero_filled (p : policy) (r : row) : Q :=
  let l := map (fun m => (weight p m, match contribution p r m with
                                      | Some c => c
                                      | None => 0
                                      end)) all_metrics in
  weighted_sum l / total_weight l.

(** The weight of the known metrics of a row, and the weighted sum of
    their contributions, as sums over all the metrics. *)
Definition known_weight (p : policy) (r : row) : Q :=
  fold_right (fun m acc => match r m with
                           | Some _ => weight p m + acc
                           | None => acc
                           end) 0 all_metrics.

Definition known_sum (p : policy) (r : row) : Q :=
  fold_right (fun m acc => match contribution p r m with
                           | Some c => weight p m * c + acc
                           | None => acc
                           end) 0 all_metrics.

Definition in_scale (p : policy) (v : Q) : Prop := scale_lo p <= v /\ v <= scale_hi p.

(** A policy is sound when its weights are positive and its inversion maps
    the scale into itself. *)
Definition sound (p : policy) : Prop :=
  (forall m, 0 < weight p m) /\ (forall v, in_scale p v -> in_scale p (invert p v)).

(** Unweighted average on the scale 1-10, inversion by reflection. *)
Definition unweighted_1_10 : policy :=
  {| scale_lo := 1; scale_hi := 10; weight := fun _ => 1; invert := fun v => 11 - v |}.

(** A row with sleep and stress only. *)
Definition sleep_and_stress : row :=
  fun m => match m with
           | Sleep => Some 8
           | Stress => Some 3
           | _ => None
           end.

(** A row without any metric. *)
Definition no_metric : row := fun _ => None.

End Readiness.

(* ===================================================================== *)
(** * Z-scores: the contract of [add_all_zscores] *)
(* ===================================================================== *)

Module ZScores.

Local Open Scope Q_scope.

Definition sum (l : list Q) : Q := fold_right Qplus 0 l.

Definition mean (l : list Q) : Q := sum l / inject_Z (Z.of_nat (length l)).

(** Sample variance (divisor [n - 1]). *)
Definition variance (l : list Q) : Q :=
  let m := mean l in
  sum (map (fun x => (x - m) * (x - m)) l) / inject_Z (Z.of_nat (length l) - 1).

(** Modelled from the spec: the function [add_all_zscores] of
    [components/zscores.py], which is not among the sources.  Section 4.4:
    the z-score of a value is [(value - mean) / stddev] over the subject's
    own full series of that metric; a standard deviation of zero yields
    unknown, and so do fewer than two historical points.  The square root
    is a parameter. *)
Definition zscore (sqrt : Q -> Q) (series : list Q) (value : Q) : option Q :=
  if (length series <? 2)%nat then None
  else
    let sd := sqrt (variance series) in
    if Qeq_bool sd 0 then None
    else Some ((value - mean series) / sd).

(** One observation: the subject and the value of the metric, if known. *)
Definition observation : Type := string * option Q.

(** The known values of one subject, in order. *)
Definition subject_series (obs : list observation) (subject : string) : list Q :=
  flat_map (fun o => if String.eqb (fst o) subject
                     then match snd o with Some v => [v] | None => [] end
                     else []) obs.

Definition zscore_of (sqrt : Q -> Q) (obs : list observation) (o : observation) : option Q :=
  match snd o with
  | Some v => zscore sqrt (subject_series obs (fst o)) v
  | None => None
  end.

(** The z-score column of one metric. *)
Definition add_zscores (sqrt : Q -> Q) (obs : list observation) : list (option Q) :=
  map (zscore_of sqrt obs) obs.

(** A rational square root by integer square root, exact on squares. *)
Definition sample_sqrt (q : Q) : Q :=
  Qmake (Z.sqrt (Qnum q * Zpos (Qden q))) (Qden q).

(** The square root sends zero to zero. *)
Definition sqrt_zero (sqrt : Q -> Q) : Prop := forall x, x == 0 -> sqrt x == 0.

(** Every value of the series equals [c]. *)
Definition constant (series : list Q) (c : Q) : Prop :=
  forall x, In x series -> x == c.

(** A subject with the constant series 5, 5, 5 and a subject with the
    series 4, 6, 8. *)
Definition sample_observations : list observation :=
  [ ("A", Some 5); ("B", Some 4); ("A", Some 5); ("B", Some 6);
    ("A", Some 5); ("B", Some 8); ("C", Some 7); ("B", None) ].

End ZScores.

(* ===================================================================== *)
(** * The application: [app.py] *)
(* ===================================================================== *)

Module App.
Import Loader.

(** ** Configuration *)

Definition SHEET_TITLE : string := "Wellness Dashboard Data".
Definition WORKSHEET_NAME : string := "Form Responses 1".

(** ** [check_openai_configured] *)

(** The process environment and the secrets store: [os.getenv] gives the
    value of a variable if it is set, [st.secrets.get] the value of a key if
    it has one, and raises when the store cannot be read. *)
Record Settings : Type := mkSettings {
  getenv : string -> option string;
  secrets_get_key : string -> result (option string)
}.

(** Truth value of an optional string: set and not empty. *)
Definition truthy (v : option string) : bool :=
  match v with
  | Some (String _ _) => true
  | _ => false
  end.

Definition check_openai_configured (S : Settings) : io bool :=
  if truthy (getenv S "OPENAI_API_KEY")
  then io_ret true
  else
    found <~ try_except
               (v <~ call (SecretsRead "OPENAI_API_KEY") (secrets_get_key S "OPENAI_API_KEY") ;;
                io_ret (truthy v))
               (fun _ => io_ret false) ;;
    if found : bool then io_ret true else io_ret false.

(** [ai_enabled = AI_AVAILABLE and check_openai_configured()]. *)
Definition ai_enabled (S : Settings) (AI_AVAILABLE : bool) : io bool :=
  if AI_AVAILABLE then check_openai_configured S else io_ret false.

(** ** The loading phase of [main] *)

(** How the loading phase ends: [main] shows a message and returns, or goes
    on with the frame and the list of athletes. *)
Inductive phase : Type :=
| ShowedLoadError (e : exn)      (* st.error("Error loading data: ...") *)
| ShowedNoData                   (* st.error("No data available. ...") *)
| ShowedNoAthletes               (* st.warning("No athletes found in the data") *)
| GoesOn (df : DataFrame) (athletes : list cell).

(** The body of the [try] block of lines 147-163, given the outcome of
    [load_google_sheet] and the three derived-column steps of the components
    (which are not among the sources) as one function [enrich]; [None] is
    the return after "No data available". *)
Definition load_and_enrich (loaded : result DataFrame)
                           (enrich : DataFrame -> result DataFrame)
  : result (option DataFrame) :=
  df <- loaded ;;
  if empty df
  then Ok None
  else df' <- enrich df ;; Ok (Some df').

(** Lines 147-173: the [try] block with its handler, then the athletes. *)
Definition loading_phase (loaded : result DataFrame)
                         (enrich : DataFrame -> result DataFrame)
  : result phase :=
  match load_and_enrich loaded enrich with
  | Raise e => Ok (ShowedLoadError e)
  | Ok None => Ok ShowedNoData
  | Ok (Some df) =>
      athletes <- get_athletes df ;;
      match athletes with
      | [] => Ok ShowedNoAthletes
      | _ :: _ => Ok (GoesOn df athletes)
      end
  end.

(** ** The date filter of the sidebar *)

(** [s >= lo] and [s <= hi] on a series of dates: a missing date compares
    false. *)
Definition ge_date (lo : Z) (c : cell) : bool :=
  match c with
  | Time d => (lo <=? d)%Z
  | _ => false
  end.

Definition le_date (hi : Z) (c : cell) : bool :=
  match c with
  | Time d => (d <=? hi)%Z
  | _ => false
  end.

(** [a & b] on two masks. *)
Definition mask_and (a b : list bool) : list bool :=
  map (fun p => fst p && snd p) (combine a b).

(** Lines 199-201: the filter is applied when the widget gives two dates
    (each the midnight of its day). *)
Definition apply_date_filter (df : DataFrame) (date_range : list Z) : result DataFrame :=
  match date_range with
  | [lo; hi] =>
      x <- getitem df "Date" ;;
      d <- dt_date x ;;
      x' <- getitem df "Date" ;;
      d' <- dt_date x' ;;
      Ok (select_rows df (mask_and (map (ge_date lo) d) (map (le_date hi) d')))
  | _ => Ok df
  end.

(** ** The default of the comparison selector *)

(** [[selected_athlete] + (athletes[:2] if len(athletes) > 1 else [])]. *)
Definition compare_default (selected : cell) (athletes : list cell) : list cell :=
  selected :: (if (1 <? length athletes)%nat then firstn 2 athletes else []).

(** ** Vocabulary of the statements about the application *)

(** A date cell whose day lies in the range. *)
Definition within (lo hi : Z) (c : cell) : bool :=
  match c with
  | Time t => (lo <=? day_floor t)%Z && (day_floor t <=? hi)%Z
  | _ => false
  end.

End App.

(* ===================================================================== *)
(** * Sample parsers and sample tables *)
(* ===================================================================== *)

(** A small instance of the parsers, used to run the loader on literal
    tables: decimal numerals, ISO dates [YYYY-MM-DD] and ISO timestamps with
    a UTC offset. *)
Module Samples.
Import Loader.

Definition digit_of_ascii (c : ascii) : option Z :=
  let n := Z.of_nat (nat_of_ascii c) in
  if (48 <=? n)%Z && (n <=? 57)%Z then Some (n - 48)%Z else None.

Fixpoint digits_value (acc : Z) (s : string) : option Z :=
  match s with
  | EmptyString => Some acc
  | String c s' =>
      match digit_of_ascii c with
      | Some d => digits_value (10 * acc + d)%Z s'
      | None => None
      end
  end.

Definition parse_decimal (s : string) : option Z :=
  match s with
  | EmptyString => None
  | _ => digits_value 0 s
  end.

(** Days since 1970-01-01 of a civil date. *)
Definition days_from_civil (y m d : Z) : Z :=
  let y' := (if m <=? 2 then y - 1 else y)%Z in
  let era := (y' / 400)%Z in
  let yoe := (y' - era * 400)%Z in
  let mp := (if m <=? 2 then m + 9 else m - 3)%Z in
  let doy := ((153 * mp + 2) / 5 + d - 1)%Z in
  let doe := (yoe * 365 + yoe / 4 - yoe / 100 + doy)%Z in
  (era * 146097 + doe - 719468)%Z.

Definition parse_iso_date (s : string) : option Z :=
  if (String.length s =? 10)%nat
     && String.eqb (substring 4 1 s) "-" && String.eqb (substring 7 1 s) "-"
  then
    match parse_decimal (substring 0 4 s),
          parse_decimal (substring 5 2 s),
          parse_decimal (substring 8 2 s) with
    | Some y, Some m, Some d =>
        if (1 <=? m)%Z && (m <=? 12)%Z && (1 <=? d)%Z && (d <=? 31)%Z
        then Some (days_from_civil y m d * ns_per_day)%Z
        else None
    | _, _, _ => None
    end
  else None.

(** [YYYY-MM-DDTHH:MM:SS+HH:MM]: the wall-clock reading and the UTC offset,
    in minutes. *)
Definition parse_iso_offset (s : string) : option (Z * Z) :=
  if (String.length s =? 25)%nat
     && String.eqb (substring 10 1 s) "T"
     && String.eqb (substring 13 1 s) ":" && String.eqb (substring 16 1 s) ":"
     && (String.eqb (substring 19 1 s) "+" || String.eqb (substring 19 1 s) "-")
     && String.eqb (substring 22 1 s) ":"
  then
    match parse_iso_date (substring 0 10 s),
          parse_decimal (substring 11 2 s), parse_decimal (substring 14 2 s),
          parse_decimal (substring 17 2 s),
          parse_decimal (substring 20 2 s), parse_decimal (substring 23 2 s) with
    | Some d, Some h, Some mi, Some se, Some oh, Some om =>
        if (h <? 24)%Z && (mi <? 60)%Z && (se <? 60)%Z && (oh <? 24)%Z && (om <? 60)%Z
        then Some ((d + ((h * 60 + mi) * 60 + se) * 1000000000)%Z,
                   (if String.eqb (substring 19 1 s) "-"
                    then - (oh * 60 + om) else oh * 60 + om)%Z)
        else None
    | _, _, _, _, _, _ => None
    end
  else None.

(** The two formats of the sample. *)
Inductive layout : Type := DateOnly | WithOffset.

Definition layout_of (c : cell) : option layout :=
  match c with
  | Str x =>
      match parse_iso_date x, parse_iso_offset x with
      | Some _, _ => Some DateOnly
      | None, Some _ => Some WithOffset
      | None, None => None
      end
  | _ => None
  end.

(** The format of a column is guessed from its first value. *)
Definition guessed_layout (s : Series) : option layout :=
  match dropna s with
  | c :: _ => layout_of c
  | [] => None
  end.

(** The timestamp a value becomes in a column: its reading and, when it has
    one, its offset.  A string is read in the format guessed for the column;
    when none is guessed, each string is read on its own.  A whole number
    counts nanoseconds. *)
Definition sample_timestamp (s : Series) (c : cell) : option (Z * option Z) :=
  match c with
  | NA => None
  | Str x =>
      let date := option_map (fun t => (t, @None Z)) (parse_iso_date x) in
      let zoned := option_map (fun r => (fst r, Some (snd r))) (parse_iso_offset x) in
      match guessed_layout s with
      | Some DateOnly => date
      | Some WithOffset => zoned
      | None => match date with Some r => Some r | None => zoned end
      end
  | Num q => if (Qden q =? 1)%positive then Some (Qnum q, None) else None
  | Time t => Some (t, None)
  end.

Definition same_offset (a b : option Z) : bool :=
  match a, b with
  | None, None => true
  | Some x, Some y => (x =? y)%Z
  | _, _ => false
  end.

(** The offsets of the values of a column that become timestamps. *)
Definition offsets (s : Series) : list (option Z) :=
  flat_map (fun c => match sample_timestamp s c with
                     | Some r => [snd r]
                     | None => []
                     end) s.

Definition mixed_zones : exn :=
  ValueError "Mixed timezones detected. Pass utc=True in to_datetime".

(** Timestamps of different offsets do not make one column. *)
Definition sample_refusal (s : Series) : option exn :=
  match offsets s with
  | [] => None
  | o :: l => if forallb (same_offset o) l then None else Some mixed_zones
  end.

(** Numerals of at most fifteen digits, which every numeric type holds
    exactly, and numbers as they are. *)
Definition sample_number (s : Series) (c : cell) : option Qc :=
  match c with
  | Str x =>
      if (String.length x <=? 15)%nat
      then option_map (fun z => Q2Qc (inject_Z z)) (parse_decimal x)
      else None
  | Num q => Some q
  | _ => None
  end.

Definition sample_parsers : parsers :=
  {| datetime_refusal := sample_refusal;
     datetime_in := fun s c => option_map fst (sample_timestamp s c);
     date_in_bounds := fun _ => true;
     numeric_in := sample_number |}.

(** The sample with the bounds of a timestamp type that counts nanoseconds
    in 64 bits, from 1677-09-21 00:12:43 to 2262-04-11 23:47:16. *)
Definition nanosecond_parsers : parsers :=
  {| datetime_refusal := sample_refusal;
     datetime_in := fun s c => option_map fst (sample_timestamp s c);
     date_in_bounds := fun d => (-9223372036854775807 <=? d)%Z && (d <=? 9223372036854775807)%Z;
     numeric_in := sample_number |}.







Definition num (z : Z) : cell := Num (Q2Qc (inject_Z z)).

(** The raw table of the end-to-end scenario of the specification, with one
    malformed date and one malformed number. *)
Definition raw_export : DataFrame :=
  {| index := [0; 1; 2; 3]%nat;
     data :=
       [ ("Name", [Str "B"; Str "A"; Str "A"; Str "A"]);
         ("Date", [Str "2024-01-02"; Str "2024-01-02"; Str "soon"; Str "2024-01-01"]);
         ("How did you sleep?", [Str "7"; Str "8"; Str "6"; Str "good"]);
         ("Energy Level", [num 5; num 6; num 7; NA]);
         ("Notes", [Str "x"; NA; NA; Str "y"]) ] |}.

(** A raw table with one synonym per field. *)
Definition raw_table : DataFrame :=
  {| index := [0; 1]%nat;
     data :=
       [ ("Timestamp", [Str "2024-01-01"; Str "2024-01-02"]);
         ("Name", [Str "A"; Str "A"]);
         ("Sleep Quality", [Str "7"; Str "8"]) ] |}.


(** A table in canonical form, as [normalize_dataframe] produces them. *)
Definition canonical_table : DataFrame :=
  {| index := [0; 1]%nat;
     data :=
       [ ("Timestamp", [Time 1704067200000000000; Time 1704153600000000000]);
         ("Athlete", [Str "A"; Str "A"]);
         ("Sleep", [num 7; num 8]);
         ("Date", [Time 1704067200000000000; Time 1704153600000000000]) ] |}.


(** A header-only export: no rows, the columns [Timestamp] and [Date]. *)
Definition header_only : DataFrame :=
  {| index := []; data := [("Timestamp", []); ("Date", [])] |}.

(** A subject column that holds a number and a string. *)
Definition mixed_subjects : DataFrame :=
  {| index := [0; 1]%nat; data := [("Athlete", [Str "Bob"; num 7])] |}.

(** A raw table in which two rows of one subject have no usable date. *)
Definition tied_rows : DataFrame :=
  {| index := [0; 1; 2; 3]%nat;
     data := [("Name", [Str "A"; Str "A"; Str "A"; Str "B"]);
              ("Date", [Str "later"; Str "2024-01-01"; Str ""; Str "2024-01-01"])] |}.

(** A raw table of metrics without time columns. *)
Definition two_metric_columns : DataFrame :=
  {| index := [0; 1]%nat;
     data := [("Name", [Str "B"; Str "A"]); ("Energy Level", [Str "5"; Str "high"]);
              ("Comments", [Str "ok"; NA])] |}.

(** A raw table with two synonyms of [Sleep]. *)
Definition two_sleep_columns : DataFrame :=
  {| index := [0%nat];
     data := [("How did you sleep?", [Str "7"]); ("Sleep Quality", [Str "8"])] |}.

(** A raw table with a timestamp and two synonyms of [Athlete]. *)
Definition two_subject_columns : DataFrame :=
  {| index := [0%nat];
     data := [("Timestamp", [Str "2024-01-01"]); ("Name", [Str "A"]);
              ("Athlete", [Str "A"])] |}.

(** A raw table whose two timestamps have different UTC offsets, and the
    same table with one offset. *)
Definition mixed_offsets : DataFrame :=
  {| index := [0; 1]%nat;
     data := [("Timestamp", [Str "2024-01-01T09:00:00+01:00"; Str "2024-01-02T09:00:00+02:00"]);
              ("Name", [Str "A"; Str "B"])] |}.



(** Two o'clock at night, five hours east of Greenwich: the day before, in
    Greenwich. *)
Definition zoned_night : DataFrame :=
  {| index := [0%nat]; data := [("Timestamp", [Str "2024-01-01T02:00:00+05:00"])] |}.

(** A timestamp in the year 0, and one in the first hour of the nanosecond
    range. *)
Definition year_zero : DataFrame :=
  {| index := [0%nat]; data := [("Timestamp", [Str "0000-06-01"])] |}.

Definition first_hour : DataFrame :=
  {| index := [0%nat]; data := [("Timestamp", [Str "1677-09-21T00:30:00+00:00"])] |}.

(** A frame whose one date is the day before 0001-01-01. *)
Definition before_calendar : DataFrame :=
  {| index := [0%nat]; data := [("Date", [Time (first_day - ns_per_day)])] |}.


(** A header-only export with two synonyms of [Athlete] and no timestamp. *)
Definition two_subjects_no_rows : DataFrame :=
  {| index := []; data := [("Name", []); ("Athlete", []); ("Mood", [])] |}.


(** A world in which the credentials file is missing and the local export
    holds [raw_table]. *)
Definition offline_world : World :=
  {| secrets_contains := fun _ => Ok false;
     secrets_get := fun k => Raise (KeyError k);
     json_loads := fun s => Ok s;
     path_exists := fun _ => false;
     from_json_keyfile_name := fun p => Raise (FileNotFoundError p);
     class_method := fun _ _ a => Ok a;
     authorize := fun c => Ok c;
     open_sheet := fun _ title => Ok title;
     worksheet := fun _ name => Ok name;
     get_all_records := fun _ => Raise (ExternalError "unreachable");
     read_csv := fun _ => Ok raw_table |}.

(** A world in which the sheet is reachable and has no records. *)
Definition empty_sheet_world : World :=
  {| secrets_contains := fun _ => Ok true;
     secrets_get := fun _ => Ok "{}";
     json_loads := fun s => Ok s;
     path_exists := fun _ => true;
     from_json_keyfile_name := fun p => Ok p;
     class_method := fun _ _ a => Ok a;
     authorize := fun c => Ok c;
     open_sheet := fun _ title => Ok title;
     worksheet := fun _ name => Ok name;
     get_all_records := fun _ => Ok {| index := []; data := [] |};
     read_csv := fun _ => Ok raw_table |}.

(** Settings with a key in the environment and an unreadable secrets store,
    and settings with an empty variable and the key in the store. *)
Definition key_in_environment : App.Settings :=
  {| App.getenv := fun _ => Some "sk-test";
     App.secrets_get_key := fun _ => Raise (FileNotFoundError "secrets.toml") |}.

Definition key_in_secrets : App.Settings :=
  {| App.getenv := fun _ => Some "";
     App.secrets_get_key := fun _ => Ok (Some "sk-test") |}.

Definition no_key : App.Settings :=
  {| App.getenv := fun _ => None;
     App.secrets_get_key := fun _ => Raise (FileNotFoundError "secrets.toml") |}.

(** A world in which every call succeeds and the sheet holds [raw_table]. *)
Definition bound_world : World :=
  {| secrets_contains := fun _ => Ok false;
     secrets_get := fun k => Raise (KeyError k);
     json_loads := fun s => Ok s;
     path_exists := fun _ => true;
     from_json_keyfile_name := fun p => Ok p;
     class_method := fun _ _ a => Ok a;
     authorize := fun c => Ok c;
     open_sheet := fun _ title => Ok title;
     worksheet := fun _ name => Ok name;
     get_all_records := fun _ => Ok raw_table;
     read_csv := fun _ => Ok raw_table |}.

End Samples.

(* ===================================================================== *)
(** * Facts about the dataframe fragment *)
(* ===================================================================== *)

Module PandasFacts.

(** ** Results *)

Lemma bind_ok {A B : Type} (r : result A) (k : A -> result B) (b : B) :
  Py.bind r k = Ok b -> exists a, r = Ok a /\ k a = Ok b.
Proof.
  destruct r as [a|e]; simpl; intros H; [eauto | discriminate].
Qed.

Lemma dict_get_some {V : Type} (d : dict V) (k : string) (v : V) :
  dict_get d k = Some v -> In v (dict_values d).
Proof.
  induction d as [|[k' v'] d IH]; simpl; [discriminate|].
  destruct (String.eqb k' k).
  - intros [= ->]. now left.
  - intros H. right. now apply IH.
Qed.

Lemma dict_get_none {V : Type} (d : dict V) (k : string) :
  dict_get d k = None -> ~ In k (dict_keys d).
Proof.
  induction d as [|[k' v'] d IH]; simpl; [tauto|].
  destruct (String.eqb_spec k' k); [discriminate|].
  intros H [Hk|Hk]; [congruence | now apply IH].
Qed.

Lemma contains_in (xs : list string) (x : string) :
  contains xs x = true <-> In x xs.
Proof.
  unfold contains. rewrite existsb_exists. split.
  - intros [y [Hy He]]. apply String.eqb_eq in He. now subst.
  - intros H. exists x. split; [assumption | apply String.eqb_refl].
Qed.

Lemma contains_false (xs : list string) (x : string) :
  contains xs x = false <-> ~ In x xs.
Proof.
  rewrite <- contains_in. destruct (contains xs x); split; congruence.
Qed.

Lemma forallb_pointwise {A : Type} (f g : A -> bool) (l : list A) :
  (forall x, f x = g x) -> forallb f l = forallb g l.
Proof.
  intros H. induction l as [|x l IH]; simpl; [reflexivity | now rewrite H, IH].
Qed.

(** ** The stable sort *)

Section SortFacts.
Context {A : Type} (leb : A -> A -> bool).
Hypothesis leb_total : forall a b, leb a b = false -> leb b a = true.

Let le (a b : A) : Prop := leb a b = true.

Lemma insert_perm (x : A) (l : list A) : Permutation (insert leb x l) (x :: l).
Proof.
  induction l as [|y l IH]; simpl; [reflexivity|].
  destruct (leb x y); [reflexivity|].
  rewrite IH. apply perm_swap.
Qed.

Lemma stable_sort_perm (l : list A) : Permutation (stable_sort leb l) l.
Proof.
  induction l as [|x l IH]; simpl; [reflexivity|].
  rewrite insert_perm. now constructor.
Qed.

Lemma insert_hdrel (a x : A) (l : list A) :
  le a x -> HdRel le a l -> HdRel le a (insert leb x l).
Proof.
  intros Hax Hl. destruct l as [|y l]; simpl; [now constructor|].
  destruct (leb x y); constructor; [assumption|].
  now inversion Hl.
Qed.

Lemma insert_sorted (x : A) (l : list A) :
  Sorted le l -> Sorted le (insert leb x l).
Proof.
  induction 1 as [|y l Hs IH Hhd]; simpl.
  - repeat constructor.
  - destruct (leb x y) eqn:E.
    + constructor; [now constructor | now constructor].
    + constructor; [assumption|].
      apply insert_hdrel; [now apply leb_total | assumption].
Qed.

Lemma stable_sort_sorted (l : list A) : Sorted le (stable_sort leb l).
Proof.
  induction l as [|x l IH]; simpl; [constructor | now apply insert_sorted].
Qed.

End SortFacts.

Lemma stable_sort_length {A : Type} (leb : A -> A -> bool) (l : list A) :
  length (stable_sort leb l) = length l.
Proof. apply Permutation_length, stable_sort_perm. Qed.

(** ** The order on keys *)

Lemma cell_compare_antisym (a b : cell) :
  cell_compare a b = CompOpp (cell_compare b a).
Proof.
  destruct a, b; simpl; try reflexivity.
  - apply String.compare_antisym.
  - unfold Qccompare. now rewrite <- Qcompare_antisym.
  - apply Z.compare_antisym.
Qed.

Lemma cell_leb_total (a b : cell) : cell_leb a b = false -> cell_leb b a = true.
Proof.
  unfold cell_leb. rewrite (cell_compare_antisym b a).
  destruct (cell_compare a b); simpl; congruence.
Qed.

Lemma key_leb_total (a b : cell * cell) : key_leb a b = false -> key_leb b a = true.
Proof.
  unfold key_leb. rewrite (cell_compare_antisym (fst b) (fst a)).
  destruct (cell_compare (fst a) (fst b)); simpl; try congruence.
  apply cell_leb_total.
Qed.

Lemma lexsort_indexer_perm (n : nat) (k1 k2 : Series) :
  Permutation (lexsort_indexer n k1 k2) (seq 0 n).
Proof. apply stable_sort_perm. Qed.

Lemma lexsort_indexer_sorted (n : nat) (k1 k2 : Series) :
  Sorted (fun i j => key_leb (key_at k1 k2 i) (key_at k1 k2 j) = true)
         (lexsort_indexer n k1 k2).
Proof.
  unfold lexsort_indexer.
  apply (stable_sort_sorted (fun i j => key_leb (key_at k1 k2 i) (key_at k1 k2 j))).
  intros a b. apply key_leb_total.
Qed.

End PandasFacts.

(* ===================================================================== *)
(** * Facts about the loader *)
(* ===================================================================== *)

Module LoaderFacts.
Import PandasFacts Loader.

(** ** Selection and assignment *)

Lemma contains_occurrences (df : DataFrame) (label : string) :
  contains (columns df) label = negb (occurrences label df =? 0)%nat.
Proof.
  unfold contains, columns, occurrences.
  induction (data df) as [|c l IH]; simpl; [reflexivity|].
  rewrite (String.eqb_sym label (fst c)).
  destruct (String.eqb (fst c) label); simpl; [reflexivity | exact IH].
Qed.

Lemma getitem_spec (df : DataFrame) (label : string) :
  getitem df label =
  match occurrences label df with
  | 0%nat => Raise (KeyError label)
  | 1%nat => Ok (OneSeries (column df label))
  | _ => Ok (SubFrame (filter (fun c => String.eqb (fst c) label) (data df)))
  end.
Proof.
  unfold getitem, occurrences, column.
  destruct (filter _ (data df)) as [|c [|c' r]]; reflexivity.
Qed.

Lemma column_of_unique (df : DataFrame) (label : string) (c : string * Series) :
  occurrences label df = 1%nat -> In c (data df) ->
  String.eqb (fst c) label = true -> snd c = column df label.
Proof.
  unfold occurrences, column. intros Hocc Hin Hc.
  assert (Hf : In c (filter (fun c => String.eqb (fst c) label) (data df)))
    by (apply filter_In; auto).
  destruct (filter _ (data df)) as [|c0 [|c1 r]]; simpl in Hocc; try discriminate.
  destruct Hf as [->|[]]. reflexivity.
Qed.

Lemma setitem_map_column (df : DataFrame) (label : string) (f : Series -> Series) :
  occurrences label df = 1%nat ->
  setitem df label (f (column df label)) = map_column label f df.
Proof.
  intros Hocc. unfold setitem, map_column, on_label.
  rewrite contains_occurrences, Hocc. simpl. f_equal.
  apply map_ext_in. intros c Hin. cbv beta.
  destruct (String.eqb (fst c) label) eqn:E; [|reflexivity].
  now rewrite (column_of_unique df label c Hocc Hin E).
Qed.

Lemma map_column_absent (df : DataFrame) (label : string) (f : Series -> Series) :
  occurrences label df = 0%nat -> map_column label f df = df.
Proof.
  intros Hocc. destruct df as [ix d]. unfold map_column, on_label, occurrences in *. simpl in *.
  f_equal. rewrite <- (map_id d) at 2. apply map_ext_in. intros c Hin.
  cbv beta.
  destruct (String.eqb (fst c) label) eqn:E; [|reflexivity].
  assert (Hf : In c (filter (fun c => String.eqb (fst c) label) d))
    by (apply filter_In; auto).
  destruct (filter _ d); [destruct Hf | discriminate].
Qed.

Lemma columns_map_column (label : string) (f : Series -> Series) (df : DataFrame) :
  columns (map_column label f df) = columns df.
Proof.
  unfold columns, map_column, on_label. simpl. rewrite map_map. apply map_ext.
  intros c. now destruct (String.eqb (fst c) label).
Qed.

Lemma occurrences_columns (df df' : DataFrame) (label : string) :
  columns df = columns df' -> occurrences label df = occurrences label df'.
Proof.
  unfold columns, occurrences. intros H.
  assert (G : forall d, length (filter (fun c : string * Series => String.eqb (fst c) label) d)
                        = length (filter (fun l => String.eqb l label) (map fst d))).
  { induction d as [|c d IH]; simpl; [reflexivity|].
    destruct (String.eqb (fst c) label); simpl; now rewrite IH. }
  now rewrite !G, H.
Qed.

Lemma occurrences_map_column (label l : string) (f : Series -> Series) (df : DataFrame) :
  occurrences l (map_column label f df) = occurrences l df.
Proof. apply occurrences_columns, columns_map_column. Qed.

Lemma column_absent (df : DataFrame) (label : string) :
  occurrences label df = 0%nat -> column df label = [].
Proof.
  unfold occurrences, column.
  destruct (filter (fun c => String.eqb (fst c) label) (data df)); [reflexivity | discriminate].
Qed.

Lemma column_map_column_same (label : string) (f : Series -> Series) (df : DataFrame) :
  occurrences label df <> 0%nat ->
  column (map_column label f df) label = f (column df label).
Proof.
  unfold occurrences, column, map_column, on_label. simpl.
  induction (data df) as [|c d IH]; simpl; [now intros H|].
  destruct (String.eqb (fst c) label) eqn:E; simpl; rewrite E; [reflexivity | exact IH].
Qed.

Lemma column_map_column_other (label l : string) (f : Series -> Series) (df : DataFrame) :
  l <> label -> column (map_column label f df) l = column df l.
Proof.
  intros Hne. unfold column, map_column, on_label. simpl.
  induction (data df) as [|c d IH]; simpl; [reflexivity|].
  destruct (String.eqb_spec (fst c) label) as [E|E]; simpl.
  - destruct (String.eqb_spec (fst c) l) as [E'|E']; [congruence | exact IH].
  - destruct (String.eqb (fst c) l); [reflexivity | exact IH].
Qed.

(** ** The numeric loop *)

Section NumericLoop.
Variable P : parsers.

Lemma convert_numeric_spec (df : DataFrame) (col : string) :
  convert_numeric P df col =
  if (occurrences col df <=? 1)%nat
  then Ok (map_column col (to_numeric_values P) df)
  else Raise numeric_error.
Proof.
  unfold convert_numeric. rewrite contains_occurrences, getitem_spec.
  destruct (occurrences col df) as [|[|n]] eqn:Hocc; simpl.
  - now rewrite map_column_absent.
  - now rewrite setitem_map_column.
  - reflexivity.
Qed.

Lemma columns_map_columns (cols : list string) (df : DataFrame) :
  columns (map_columns P cols df) = columns df.
Proof.
  revert df. induction cols as [|c cols IH]; intros df; simpl; [reflexivity|].
  unfold map_columns in *. simpl. now rewrite IH, columns_map_column.
Qed.

Lemma convert_numeric_columns_spec (cols : list string) (df : DataFrame) :
  convert_numeric_columns P cols df =
  if forallb (fun col => (occurrences col df <=? 1)%nat) cols
  then Ok (map_columns P cols df)
  else Raise numeric_error.
Proof.
  revert df. induction cols as [|c cols IH]; intros df; simpl; [reflexivity|].
  rewrite convert_numeric_spec.
  destruct (occurrences c df <=? 1)%nat; simpl; [|reflexivity].
  rewrite IH.
  rewrite (forallb_pointwise
             (fun col => (occurrences col (map_column c (to_numeric_values P) df) <=? 1)%nat)
             (fun col => (occurrences col df <=? 1)%nat)); [reflexivity|].
  intros col. now rewrite occurrences_map_column.
Qed.

End NumericLoop.

(** ** The timestamp block *)

Section TimestampBlock.
Variable P : parsers.

Lemma to_datetime_cell_parsed (s : Series) (c : cell) :
  parsed_time (to_datetime_cell P s c) = true.
Proof. unfold to_datetime_cell. destruct c; try reflexivity; now destruct (datetime_in P s _). Qed.

Lemma date_of_cell_parsed (c : cell) : parsed_time (date_of_cell c) = true.
Proof. now destruct c. Qed.

Lemma forallb_map_true {A B : Type} (p : B -> bool) (f : A -> B) (l : list A) :
  (forall a, p (f a) = true) -> forallb p (map f l) = true.
Proof.
  intros H. induction l as [|a l IH]; simpl; [reflexivity | now rewrite H, IH].
Qed.

Lemma to_datetime_values_parsed (s : Series) :
  forallb parsed_time (to_datetime_values P s) = true.
Proof. apply forallb_map_true. intros c. apply to_datetime_cell_parsed. Qed.

Lemma dt_date_series_parsed (s : Series) :
  forallb parsed_time s = true ->
  dt_date_series s = if forallb dated s then Ok (map date_of_cell s) else Raise no_calendar_date.
Proof. intros H. unfold dt_date_series. now rewrite H. Qed.

(** The strict conversion of a column of dates. *)
Lemma to_datetime_strict_dates (ctx s : Series) :
  forallb parsed_time s = true ->
  to_datetime_strict P ctx s = if forallb (date_ok P) s then Ok s else Raise out_of_bounds.
Proof.
  induction s as [|c s IH]; simpl; [reflexivity|].
  intros H. apply andb_prop in H. destruct H as [Hc Hs].
  destruct c as [| | |d]; try discriminate; cbn [date_ok andb].
  - rewrite (IH Hs). now destruct (forallb (date_ok P) s).
  - destruct (date_in_bounds P d); [|reflexivity]. cbn [andb].
    rewrite (IH Hs). now destruct (forallb (date_ok P) s).
Qed.

Lemma timestamp_failure_nil : timestamp_failure P [] = None.
Proof. reflexivity. Qed.

Lemma occurrences_append (df : DataFrame) (label l : string) (s : Series) :
  occurrences l (append_column df label s)
  = (occurrences l df + if String.eqb label l then 1 else 0)%nat.
Proof.
  unfold occurrences, append_column. simpl.
  rewrite filter_app, length_app. simpl.
  now destruct (String.eqb label l).
Qed.

Lemma setitem_absent (df : DataFrame) (label : string) (s : Series) :
  occurrences label df = 0%nat -> setitem df label s = append_column df label s.
Proof.
  intros H. unfold setitem, append_column. now rewrite contains_occurrences, H.
Qed.

Lemma column_append_new (df : DataFrame) (label : string) (s : Series) :
  occurrences label df = 0%nat -> column (append_column df label s) label = s.
Proof.
  unfold occurrences, column, append_column. simpl. intros H.
  rewrite filter_app. apply length_zero_iff_nil in H. rewrite H. simpl.
  now rewrite String.eqb_refl.
Qed.

Lemma column_append_old (df : DataFrame) (label l : string) (s : Series) :
  occurrences l df <> 0%nat -> column (append_column df label s) l = column df l.
Proof.
  unfold occurrences, column, append_column. simpl. intros H.
  rewrite filter_app.
  destruct (filter _ (data df)); [now elim H | reflexivity].
Qed.

(** Assigning to the appended column the values it already has. *)
Lemma setitem_appended (df : DataFrame) (label : string) (s : Series) :
  occurrences label df = 0%nat ->
  setitem (append_column df label s) label s = append_column df label s.
Proof.
  intros H.
  assert (Hone : occurrences label (append_column df label s) = 1%nat)
    by (rewrite occurrences_append, H, String.eqb_refl; reflexivity).
  pose proof (setitem_map_column (append_column df label s) label (fun x => x) Hone) as E.
  rewrite (column_append_new df label s H) in E. rewrite E.
  unfold map_column, on_label, append_column. simpl. f_equal.
  rewrite <- (map_id (data df ++ [(label, s)])) at 2.
  apply map_ext. intros c. destruct c.
  now destruct (String.eqb _ label).
Qed.

Lemma convert_timestamp_spec (df : DataFrame) :
  occurrences "Date" df = 0%nat ->
  convert_timestamp P df =
  match occurrences "Timestamp" df with
  | 0%nat => Ok df
  | 1%nat =>
      match timestamp_failure P (column df "Timestamp") with
      | Some e => Raise e
      | None =>
          Ok (append_column (map_column "Timestamp" (to_datetime_values P) df) "Date"
                (map date_of_cell (to_datetime_values P (column df "Timestamp"))))
      end
  | _ => Raise duplicate_keys_error
  end.
Proof.
  intros HD. unfold convert_timestamp.
  rewrite contains_occurrences, getitem_spec.
  destruct (occurrences "Timestamp" df) as [|[|n]] eqn:HT; [reflexivity| |reflexivity].
  cbn [negb Nat.eqb Py.bind to_datetime_coerce]. unfold timestamp_failure.
  destruct (refused P (column df "Timestamp")) as [e|]; [reflexivity|].
  cbn [Py.bind].
  rewrite (setitem_map_column df "Timestamp" _ HT).
  rewrite getitem_spec, occurrences_map_column, HT.
  cbn [Py.bind dt_date]. rewrite column_map_column_same by (rewrite HT; discriminate).
  rewrite dt_date_series_parsed by apply to_datetime_values_parsed.
  destruct (forallb dated (to_datetime_values P (column df "Timestamp"))); [|reflexivity].
  cbn [Py.bind].
  assert (HD' : occurrences "Date" (map_column "Timestamp" (to_datetime_values P) df) = 0%nat)
    by now rewrite occurrences_map_column.
  rewrite (setitem_absent _ _ _ HD').
  rewrite getitem_spec, occurrences_append, HD', String.eqb_refl.
  cbn [Nat.add Py.bind to_datetime].
  rewrite (column_append_new _ _ _ HD').
  rewrite to_datetime_strict_dates
    by (apply forallb_map_true, date_of_cell_parsed).
  destruct (forallb (date_ok P) _); [|reflexivity].
  cbn [Py.bind]. now rewrite (setitem_appended _ _ _ HD').
Qed.

End TimestampBlock.

(** ** Renaming *)

Lemma rename_label_not_date (l : string) : rename_label column_mapping l <> "Date".
Proof.
  unfold rename_label.
  destruct (dict_get column_mapping l) as [v|] eqn:E.
  - apply dict_get_some in E. intros ->.
    simpl in E. repeat (destruct E as [E|E]; [discriminate|]). exact E.
  - apply dict_get_none in E. intros ->. apply E. simpl. tauto.
Qed.

Lemma columns_rename (df : DataFrame) :
  columns (rename df column_mapping) = map (rename_label column_mapping) (columns df).
Proof. unfold columns, rename. simpl. now rewrite !map_map. Qed.

Lemma occurrences_zero (df : DataFrame) (label : string) :
  ~ In label (columns df) -> occurrences label df = 0%nat.
Proof.
  intros H. apply contains_false in H. rewrite contains_occurrences in H.
  destruct (occurrences label df); [reflexivity | discriminate].
Qed.

Lemma no_date_after_rename (df : DataFrame) :
  occurrences "Date" (rename df column_mapping) = 0%nat.
Proof.
  apply occurrences_zero. rewrite columns_rename. intros H.
  apply in_map_iff in H. destruct H as [l [Hl _]].
  exact (rename_label_not_date l Hl).
Qed.

(** ** The coercions, column by column *)

Section Coerced.
Variable P : parsers.

Lemma on_label_other (label : string) (f : Series -> Series) (l : string) (s : Series) :
  String.eqb l label = false -> on_label label f (l, s) = (l, s).
Proof. unfold on_label. cbn [fst]. now intros ->. Qed.

Lemma coerce_chain (c : string * Series) :
  on_label "Fatigue" (to_numeric_values P)
    (on_label "Soreness" (to_numeric_values P)
      (on_label "Stress" (to_numeric_values P)
        (on_label "Energy" (to_numeric_values P)
          (on_label "Mood" (to_numeric_values P)
            (on_label "Sleep" (to_numeric_values P)
              (on_label "Timestamp" (to_datetime_values P) c))))))
  = coerce_column P c.
Proof.
  destruct c as [l s].
  destruct (String.eqb l "Timestamp") eqn:E1;
    [apply String.eqb_eq in E1; subst l; reflexivity|].
  destruct (String.eqb l "Sleep") eqn:E2;
    [apply String.eqb_eq in E2; subst l; reflexivity|].
  destruct (String.eqb l "Mood") eqn:E3;
    [apply String.eqb_eq in E3; subst l; reflexivity|].
  destruct (String.eqb l "Energy") eqn:E4;
    [apply String.eqb_eq in E4; subst l; reflexivity|].
  destruct (String.eqb l "Stress") eqn:E5;
    [apply String.eqb_eq in E5; subst l; reflexivity|].
  destruct (String.eqb l "Soreness") eqn:E6;
    [apply String.eqb_eq in E6; subst l; reflexivity|].
  destruct (String.eqb l "Fatigue") eqn:E7;
    [apply String.eqb_eq in E7; subst l; reflexivity|].
  rewrite !on_label_other by assumption.
  unfold coerce_column, coerce_series, contains, numeric_columns.
  cbn [fst snd existsb]. rewrite E1, E2, E3, E4, E5, E6, E7.
  reflexivity.
Qed.

Lemma data_map_columns_numeric (df : DataFrame) :
  data (map_columns P numeric_columns (map_column "Timestamp" (to_datetime_values P) df))
  = map (coerce_column P) (data df).
Proof.
  unfold map_columns, numeric_columns, map_column. cbn [fold_left data index].
  rewrite !map_map. apply map_ext. intros c. apply coerce_chain.
Qed.

Lemma index_map_columns (cols : list string) (df : DataFrame) :
  index (map_columns P cols df) = index df.
Proof.
  revert df. induction cols as [|c cols IH]; intros df; [reflexivity|].
  unfold map_columns in *. cbn [fold_left]. now rewrite IH.
Qed.

Lemma map_columns_append (cols : list string) (df : DataFrame) (s : Series) :
  ~ In "Date" cols ->
  map_columns P cols (append_column df "Date" s)
  = append_column (map_columns P cols df) "Date" s.
Proof.
  revert df. induction cols as [|c cols IH]; intros df Hn; [reflexivity|].
  unfold map_columns in *. cbn [fold_left].
  assert (E : map_column c (to_numeric_values P) (append_column df "Date" s)
              = append_column (map_column c (to_numeric_values P) df) "Date" s).
  { unfold map_column, append_column. cbn [index data]. f_equal.
    rewrite map_app. f_equal. cbn [map]. unfold on_label. cbn [fst snd].
    destruct (String.eqb_spec "Date" c) as [Ec|]; [|reflexivity].
    elim Hn. left. now symmetry. }
  rewrite E. apply IH. intros H. apply Hn. now right.
Qed.

End Coerced.

(** ** The whole of [normalize_dataframe] *)

Lemma frame_eq (a b : DataFrame) : index a = index b -> data a = data b -> a = b.
Proof. destruct a, b. simpl. now intros -> ->. Qed.

Lemma forallb_pointwise_in {A : Type} (f g : A -> bool) (l : list A) :
  (forall x, In x l -> f x = g x) -> forallb f l = forallb g l.
Proof.
  induction l as [|x l IH]; simpl; [reflexivity|].
  intros H. rewrite (H x) by now left. f_equal. apply IH. intros y Hy. apply H. now right.
Qed.

Lemma date_not_numeric : ~ In "Date" numeric_columns.
Proof. simpl. intros H. repeat (destruct H as [H|H]; [discriminate|]). exact H. Qed.

Lemma athlete_not_numeric : ~ In "Athlete" numeric_columns.
Proof. simpl. intros H. repeat (destruct H as [H|H]; [discriminate|]). exact H. Qed.

Lemma parsed_orderable (s : Series) : forallb parsed_time s = true -> orderable s = true.
Proof.
  intros H. unfold orderable.
  assert (E : existsb is_num s = false).
  { induction s as [|c s IH]; simpl in *; [reflexivity|].
    apply andb_prop in H. destruct H as [Hc Hs]. rewrite (IH Hs).
    now destruct c. }
  now rewrite E.
Qed.

Section Whole.
Variable P : parsers.

Lemma column_map_columns_other (cols : list string) (df : DataFrame) (l : string) :
  ~ In l cols -> column (map_columns P cols df) l = column df l.
Proof.
  revert df. induction cols as [|c cols IH]; intros df Hn; [reflexivity|].
  unfold map_columns in *. cbn [fold_left].
  rewrite IH by (intros H; apply Hn; now right).
  apply column_map_column_other. intros ->. apply Hn. now left.
Qed.

(** The two coercion steps together. *)
Lemma conversions_spec (df : DataFrame) :
  let renamed := rename df column_mapping in
  (d <- convert_timestamp P renamed ;; convert_numeric_columns P numeric_columns d)
  = if (occurrences "Timestamp" renamed <=? 1)%nat
    then match timestamp_failure P (column renamed "Timestamp") with
         | Some e => Raise e
         | None =>
             if forallb (fun col => (occurrences col renamed <=? 1)%nat) numeric_columns
             then Ok (coerced P df)
             else Raise numeric_error
         end
    else Raise duplicate_keys_error.
Proof.
  intros renamed.
  pose proof (no_date_after_rename df) as HD. fold renamed in HD.
  rewrite (convert_timestamp_spec P renamed HD).
  unfold coerced, coerced_data. fold renamed.
  rewrite (contains_occurrences renamed "Timestamp").
  destruct (occurrences "Timestamp" renamed) as [|[|n]] eqn:HT;
    cbn [Py.bind Nat.leb negb Nat.eqb]; [| |reflexivity].
  - rewrite (column_absent renamed "Timestamp" HT), timestamp_failure_nil.
    rewrite convert_numeric_columns_spec.
    destruct (forallb _ numeric_columns); [|reflexivity].
    f_equal. apply frame_eq.
    + now rewrite index_map_columns.
    + rewrite <- (map_column_absent renamed "Timestamp" (to_datetime_values P) HT) at 1.
      rewrite data_map_columns_numeric. now rewrite app_nil_r.
  - destruct (timestamp_failure P (column renamed "Timestamp")); [reflexivity|].
    cbn [Py.bind].
    rewrite convert_numeric_columns_spec.
    rewrite (forallb_pointwise_in _
               (fun col => (occurrences col renamed <=? 1)%nat)).
    + destruct (forallb _ numeric_columns); [|reflexivity].
      f_equal. rewrite (map_columns_append P _ _ _ date_not_numeric).
      apply frame_eq.
      * cbn [append_column index]. now rewrite index_map_columns.
      * cbn [append_column data]. now rewrite data_map_columns_numeric.
    + intros col Hcol. rewrite occurrences_append, occurrences_map_column.
      destruct (String.eqb_spec "Date" col) as [E|E].
      * subst col. elim (date_not_numeric Hcol).
      * now rewrite Nat.add_0_r.
Qed.

Lemma columns_coerced (df : DataFrame) :
  columns (coerced P df)
  = columns (rename df column_mapping)
    ++ (if contains (columns (rename df column_mapping)) "Timestamp" then ["Date"] else []).
Proof.
  unfold coerced, coerced_data, columns. cbn [data].
  rewrite map_app, map_map. f_equal.
  now destruct (contains _ "Timestamp").
Qed.

Lemma contains_app (xs ys : list string) (x : string) :
  contains (xs ++ ys) x = contains xs x || contains ys x.
Proof. unfold contains. apply existsb_app. Qed.

Lemma occurrences_contains_zero (df : DataFrame) (label : string) :
  contains (columns df) label = false -> occurrences label df = 0%nat.
Proof.
  rewrite contains_occurrences. now destruct (occurrences label df).
Qed.

Lemma occurrences_coerced (df : DataFrame) (l : string) :
  occurrences l (coerced P df)
  = (occurrences l (rename df column_mapping)
     + if contains (columns (rename df column_mapping)) "Timestamp" && String.eqb "Date" l
       then 1 else 0)%nat.
Proof.
  unfold occurrences, coerced, coerced_data. cbn [data].
  rewrite filter_app, length_app. f_equal.
  - induction (data (rename df column_mapping)) as [|c d IH]; simpl; [reflexivity|].
    destruct (String.eqb (fst c) l); simpl; now rewrite IH.
  - destruct (contains _ "Timestamp"); [|reflexivity].
    cbn [andb filter fst]. now destruct (String.eqb "Date" l).
Qed.

Lemma column_coerced_date (df : DataFrame) :
  contains (columns (rename df column_mapping)) "Timestamp" = true ->
  column (coerced P df) "Date"
  = map date_of_cell
      (to_datetime_values P (column (rename df column_mapping) "Timestamp")).
Proof.
  intros HT. pose proof (no_date_after_rename df) as HD.
  unfold column, coerced, coerced_data. cbn [data]. rewrite HT.
  rewrite filter_app.
  assert (E : filter (fun c : string * Series => String.eqb (fst c) "Date")
                (map (coerce_column P) (data (rename df column_mapping))) = []).
  { unfold occurrences in HD. apply length_zero_iff_nil in HD.
    revert HD. induction (data (rename df column_mapping)) as [|c d IH]; [reflexivity|].
    cbn [filter map coerce_column fst].
    destruct (String.eqb (fst c) "Date"); [discriminate | exact IH]. }
  rewrite E. reflexivity.
Qed.

(** A column that is not coerced is the column of the renamed frame. *)
Lemma column_coerced_other (df : DataFrame) (l : string) :
  contains (columns (rename df column_mapping)) l = true ->
  is_coerced_field l = false ->
  column (coerced P df) l = column (rename df column_mapping) l.
Proof.
  intros HA Hl. unfold column, coerced, coerced_data. cbn [data].
  rewrite filter_app.
  rewrite contains_occurrences in HA. unfold occurrences in HA.
  induction (data (rename df column_mapping)) as [|c d IH]; [discriminate|].
  cbn [filter map coerce_column fst] in *.
  destruct (String.eqb_spec (fst c) l) as [E|E].
  - cbn [app]. unfold coerce_column at 1. cbn [snd fst]. rewrite E.
    unfold coerce_series. unfold is_coerced_field in Hl.
    apply orb_false_elim in Hl. destruct Hl as [H1 H2]. now rewrite H1, H2.
  - apply IH. exact HA.
Qed.

Lemma column_coerced_athlete (df : DataFrame) :
  contains (columns (rename df column_mapping)) "Athlete" = true ->
  column (coerced P df) "Athlete" = column (rename df column_mapping) "Athlete".
Proof. intros HA. now apply column_coerced_other. Qed.

(** The outcome of [normalize_dataframe], in closed form. *)
Theorem normalize_dataframe_outcome (df : DataFrame) :
  normalize_dataframe P df
  = match failure P df with
    | Some e => Raise e
    | None => Ok (normalized P df)
    end.
Proof.
  unfold normalize_dataframe. cbv zeta.
  set (renamed := rename df column_mapping).
  assert (E : forall k : DataFrame -> result DataFrame,
             (d <- convert_timestamp P renamed ;;
              d' <- convert_numeric_columns P numeric_columns d ;; k d')
             = (d' <- (d <- convert_timestamp P renamed ;;
                       convert_numeric_columns P numeric_columns d) ;; k d')).
  { intros k. now destruct (convert_timestamp P renamed). }
  rewrite E. clear E. subst renamed. rewrite conversions_spec.
  unfold failure, normalized, sorts. cbv zeta.
  set (renamed := rename df column_mapping).
  pose proof (no_date_after_rename df) as HD0. fold renamed in HD0.
  destruct (occurrences "Timestamp" renamed) as [|[|n]] eqn:HT1;
    cbn [Nat.leb]; [| |reflexivity].
  - rewrite (column_absent renamed "Timestamp" HT1), timestamp_failure_nil.
    destruct (forallb _ numeric_columns); [|reflexivity].
    cbn [Py.bind].
    assert (HT : contains (columns renamed) "Timestamp" = false)
      by (rewrite contains_occurrences, HT1; reflexivity).
    rewrite columns_coerced. fold renamed. rewrite HT, app_nil_r.
    assert (HD : contains (columns renamed) "Date" = false)
      by (rewrite contains_occurrences, HD0; reflexivity).
    rewrite HD. reflexivity.
  - destruct (timestamp_failure P (column renamed "Timestamp")); [reflexivity|].
    destruct (forallb _ numeric_columns); [|reflexivity].
    cbn [Py.bind].
    assert (HT : contains (columns renamed) "Timestamp" = true)
      by (rewrite contains_occurrences, HT1; reflexivity).
    rewrite columns_coerced. fold renamed. rewrite HT, !contains_app.
    replace (contains ["Date"] "Date") with true by reflexivity.
    replace (contains ["Date"] "Athlete") with false by reflexivity.
    rewrite orb_true_r, orb_false_r. cbn [andb].
    destruct (contains (columns renamed) "Athlete") eqn:HA; [|reflexivity].
    unfold sort_values, key_column.
    rewrite !getitem_spec, !occurrences_coerced. fold renamed. rewrite HT.
    rewrite HD0.
    replace (String.eqb "Date" "Date") with true by reflexivity.
    replace (String.eqb "Date" "Athlete") with false by reflexivity.
    cbn [andb Nat.add Py.bind]. rewrite Nat.add_0_r.
    rewrite column_coerced_date by exact HT.
    rewrite column_coerced_athlete by exact HA. fold renamed.
    rewrite (parsed_orderable (map date_of_cell _))
      by (apply forallb_map_true, date_of_cell_parsed).
    cbn [andb].
    assert (HA' := HA). rewrite contains_occurrences in HA'.
    destruct (occurrences "Athlete" renamed) as [|[|n]] eqn:HAn;
      [discriminate| |reflexivity].
    cbn [Py.bind].
    now destruct (orderable (column renamed "Athlete")).
Qed.


End Whole.

(** ** Sorting and taking rows *)

Lemma columns_take (df : DataFrame) (ix : list nat) : columns (take df ix) = columns df.
Proof. unfold columns, take. cbn [data]. now rewrite map_map. Qed.

Lemma nrows_take (df : DataFrame) (ix : list nat) : nrows (take df ix) = length ix.
Proof. unfold nrows, take. cbn [index]. apply length_map. Qed.

Lemma column_take (df : DataFrame) (ix : list nat) (label : string) :
  occurrences label df <> 0%nat ->
  column (take df ix) label = take_series ix (column df label).
Proof.
  unfold occurrences, column, take. cbn [data].
  induction (data df) as [|c d IH]; cbn [map filter fst]; [now intros H|].
  destruct (String.eqb (fst c) label); [reflexivity | exact IH].
Qed.

Lemma combine_map {A B C : Type} (f : A -> B) (g : A -> C) (l : list A) :
  combine (map f l) (map g l) = map (fun a => (f a, g a)) l.
Proof. induction l as [|a l IH]; simpl; [reflexivity | now rewrite IH]. Qed.

Lemma Sorted_map {A B : Type} (R : B -> B -> Prop) (f : A -> B) (l : list A) :
  Sorted (fun a b => R (f a) (f b)) l -> Sorted R (map f l).
Proof.
  induction 1 as [|a l Hs IH Hhd]; simpl; constructor; [assumption|].
  destruct Hhd; simpl; now constructor.
Qed.

(** In a list in key order, a missing first key is followed by missing
    first keys only. *)
Lemma missing_first_key_last (l : list (cell * cell)) :
  Sorted key_le l ->
  forall i j, (i <= j)%nat -> (j < length l)%nat ->
    fst (nth i l (NA, NA)) = NA -> fst (nth j l (NA, NA)) = NA.
Proof.
  assert (Hstep : forall a b, key_le a b -> fst a = NA -> fst b = NA).
  { intros [a1 a2] [b1 b2]. unfold key_le, key_leb. cbn [fst snd].
    intros H ->. destruct b1; simpl in H; [reflexivity | discriminate..]. }
  assert (Hall : forall l, Sorted key_le l -> forall a, HdRel key_le a l -> fst a = NA ->
                 Forall (fun b => fst b = NA) l).
  { induction 1 as [|b l' Hs IH Hhd]; intros a Ha Hna; constructor.
    - inversion Ha; subst. eapply Hstep; eauto.
    - eapply IH; [exact Hhd|]. inversion Ha; subst. eapply Hstep; eauto. }
  induction 1 as [|a l' Hs IH Hhd]; intros i j Hij Hj Hi; [simpl in Hj; lia|].
  destruct i as [|i].
  - cbn [nth] in Hi. destruct j as [|j]; [exact Hi|]. cbn [nth].
    pose proof (Hall l' Hs a Hhd Hi) as HF. rewrite Forall_forall in HF.
    apply HF. apply nth_In. simpl in Hj. lia.
  - destruct j as [|j]; [lia|]. cbn [nth] in *. apply (IH i j); simpl in Hj; [lia | lia | exact Hi].
Qed.

End LoaderFacts.

(* ===================================================================== *)
(** * Properties of [normalize_dataframe] *)
(* ===================================================================== *)

Module NormalizeProperties.
Import PandasFacts Loader LoaderFacts Samples.

Lemma normalize_ok_inv (P : parsers) (df out : DataFrame) :
  normalize_dataframe P df = Ok out -> failure P df = None /\ out = normalized P df.
Proof.
  rewrite normalize_dataframe_outcome. destruct (failure P df); [discriminate|].
  intros H. now injection H as <-.
Qed.

Lemma normalize_raise_inv (P : parsers) (df : DataFrame) (e : exn) :
  normalize_dataframe P df = Raise e <-> failure P df = Some e.
Proof.
  rewrite normalize_dataframe_outcome. destruct (failure P df) as [e'|].
  - split; intros H; injection H as ->; reflexivity.
  - split; discriminate.
Qed.

Lemma columns_normalized (P : parsers) (df : DataFrame) :
  columns (normalized P df)
  = map (rename_label column_mapping) (columns df)
    ++ (if contains (map (rename_label column_mapping) (columns df)) "Timestamp"
        then ["Date"] else []).
Proof.
  unfold normalized. destruct (sorts df); rewrite ?columns_take;
    now rewrite columns_coerced, columns_rename.
Qed.



(** What the labels and the subject column allow, the conversions of the
    [Timestamp] column set aside. *)
Lemma failure_without_timestamp_failure (P : parsers) (df : DataFrame) :
  timestamp_failure P (column (rename df column_mapping) "Timestamp") = None ->
  match failure P df with None => true | Some _ => false end
  = admits_labels df
    && (negb (sorts df) || orderable (column (rename df column_mapping) "Athlete")).
Proof.
  intros HF. unfold failure, admits_labels. cbv zeta. rewrite HF.
  destruct (occurrences "Timestamp" (rename df column_mapping)) as [|[|n]];
    cbn [Nat.leb andb]; [| |reflexivity].
  - destruct (forallb _ numeric_columns); [|reflexivity]. cbn [andb].
    destruct (sorts df); [|reflexivity]. cbn [negb orb].
    destruct (occurrences "Athlete" (rename df column_mapping)) as [|[|m]]; cbn [Nat.eqb andb];
      try reflexivity.
    now destruct (orderable _).
  - destruct (forallb _ numeric_columns); [|reflexivity]. cbn [andb].
    destruct (sorts df); [|reflexivity]. cbn [negb orb].
    destruct (occurrences "Athlete" (rename df column_mapping)) as [|[|m]]; cbn [Nat.eqb andb];
      try reflexivity.
    now destruct (orderable _).
Qed.





Lemma nrows_normalized (P : parsers) (df : DataFrame) :
  nrows (normalized P df) = nrows df.
Proof.
  unfold normalized. destruct (sorts df); [|reflexivity].
  rewrite nrows_take.
  rewrite (Permutation_length (lexsort_indexer_perm _ _ _)), length_seq.
  reflexivity.
Qed.

(** ** Cells that do not convert *)





Lemma nth_map_in {A B : Type} (f : A -> B) (l : list A) (i : nat) (a : A) (b : B) :
  (i < length l)%nat -> nth i (map f l) b = f (nth i l a).
Proof.
  revert i. induction l as [|x l IH]; intros i Hi; [simpl in Hi; lia|].
  destruct i as [|i]; [reflexivity|]. cbn [map nth]. apply IH. simpl in Hi. lia.
Qed.





Lemma sorts_of_result (P : parsers) (df out : DataFrame) :
  normalize_dataframe P df = Ok out ->
  In "Date" (columns out) -> In "Athlete" (columns out) -> sorts df = true.
Proof.
  intros H HD HA. apply normalize_ok_inv in H. destruct H as [_ ->].
  rewrite columns_normalized in HD, HA. unfold sorts. rewrite columns_rename.
  destruct (contains (map (rename_label column_mapping) (columns df)) "Timestamp") eqn:HT.
  - cbn [andb]. apply contains_in.
    apply in_app_or in HA. destruct HA as [HA|[HA|[]]]; [exact HA | discriminate].
  - exfalso. rewrite app_nil_r in HD. apply in_map_iff in HD.
    destruct HD as [l [Hl _]]. exact (rename_label_not_date l Hl).
Qed.

Lemma row_keys_normalized (P : parsers) (df : DataFrame) :
  sorts df = true ->
  let c := coerced P df in
  let ix := lexsort_indexer (nrows c) (column c "Date") (column c "Athlete") in
  row_keys (normalized P df) = map (key_at (column c "Date") (column c "Athlete")) ix
  /\ column (normalized P df) "Date" = map fst (row_keys (normalized P df)).
Proof.
  intros Hs c ix. unfold normalized. rewrite Hs. fold c. fold ix.
  unfold sorts in Hs. apply andb_prop in Hs. destruct Hs as [HT HA].
  assert (HD : occurrences "Date" c <> 0%nat).
  { unfold c. rewrite occurrences_coerced, HT. cbn [andb].
    replace (String.eqb "Date" "Date") with true by reflexivity. lia. }
  assert (HA' : occurrences "Athlete" c <> 0%nat).
  { unfold c. rewrite occurrences_coerced.
    rewrite contains_occurrences in HA.
    destruct (occurrences "Athlete" (rename df column_mapping)); [discriminate | lia]. }
  unfold row_keys. rewrite !column_take by assumption.
  unfold take_series. rewrite combine_map. split; [reflexivity|].
  rewrite map_map. reflexivity.
Qed.

(** C5.  When the result has both a [Date] and an [Athlete] column, its rows
    are in ascending order of the pair (Date, Athlete), and no row with a
    known date comes after a row whose date is missing. *)
Theorem C5_sorted_by_date_then_athlete (P : parsers) (df out : DataFrame) :
  normalize_dataframe P df = Ok out ->
  In "Date" (columns out) -> In "Athlete" (columns out) ->
  Sorted key_le (row_keys out)
  /\ forall i j, (i <= j)%nat -> (j < nrows out)%nat ->
       nth i (column out "Date") NA = NA -> nth j (column out "Date") NA = NA.
Proof.
  intros H HD HA.
  pose proof (sorts_of_result P df out H HD HA) as Hs.
  apply normalize_ok_inv in H. destruct H as [Hacc ->].
  destruct (row_keys_normalized P df Hs) as [Hk Hd].
  assert (Hsorted : Sorted key_le (row_keys (normalized P df))).
  { rewrite Hk. apply Sorted_map. apply lexsort_indexer_sorted. }
  split; [exact Hsorted|].
  intros i j Hij Hj. rewrite Hd.
  change NA with (fst (NA, NA)) at 1 3.
  rewrite !map_nth. cbn [fst].
  apply (missing_first_key_last _ Hsorted i j Hij).
  rewrite Hk, length_map.
  rewrite (Permutation_length (lexsort_indexer_perm _ _ _)), length_seq.
  rewrite nrows_normalized in Hj. exact Hj.
Qed.

Lemma C5_sorted_by_date_then_athlete_witness :
  normalize_dataframe sample_parsers raw_export = Ok (normalized sample_parsers raw_export)
  /\ row_keys (normalized sample_parsers raw_export)
     = [ (Time 1704067200000000000, Str "A"); (Time 1704153600000000000, Str "A");
         (Time 1704153600000000000, Str "B"); (NA, Str "A") ]
  /\ Sorted key_le (row_keys (normalized sample_parsers raw_export)).
Proof.
  assert (H : normalize_dataframe sample_parsers raw_export
              = Ok (normalized sample_parsers raw_export)) by (vm_compute; reflexivity).
  split; [exact H|]. split; [vm_compute; reflexivity|].
  apply (C5_sorted_by_date_then_athlete sample_parsers raw_export _ H).
  - vm_compute. tauto.
  - vm_compute. tauto.
Defined.

(** ** Tables in canonical form *)









(** The canonical table is what the loader makes of a raw table. *)
Example canonical_table_is_a_result :
  normalize_dataframe sample_parsers raw_table = Ok canonical_table.
Proof. vm_compute. reflexivity. Qed.


(** ** Empty tables *)

Lemma column_in (df : DataFrame) (label : string) :
  column df label = [] \/ exists c, In c (data df) /\ column df label = snd c.
Proof.
  unfold column.
  destruct (filter (fun c => String.eqb (fst c) label) (data df)) as [|c r] eqn:F;
    [now left|].
  right. exists c. split; [|reflexivity].
  assert (Hin : In c (filter (fun c => String.eqb (fst c) label) (data df)))
    by (rewrite F; now left).
  now apply filter_In in Hin.
Qed.

Lemma column_of_no_rows (df : DataFrame) (label : string) :
  well_formed df -> nrows df = 0%nat -> column (rename df column_mapping) label = [].
Proof.
  intros Hwf Hn.
  destruct (column_in (rename df column_mapping) label) as [E|[c [Hin E]]]; [exact E|].
  rewrite E. unfold rename in Hin. cbn [data] in Hin.
  apply in_map_iff in Hin. destruct Hin as [c0 [<- Hin0]]. cbn [snd].
  unfold well_formed in Hwf. rewrite Forall_forall in Hwf.
  apply length_zero_iff_nil. rewrite (Hwf c0 Hin0). exact Hn.
Qed.

Lemma column_of_empty (df : DataFrame) (label : string) :
  well_formed df -> empty df = true -> column (rename df column_mapping) label = [].
Proof.
  intros Hwf He. unfold empty in He. apply orb_prop in He. destruct He as [He|He].
  - apply Nat.eqb_eq in He. now apply column_of_no_rows.
  - apply Nat.eqb_eq in He. apply length_zero_iff_nil in He.
    unfold column, rename. now rewrite He.
Qed.

(** C8, as amended.  On an empty table, [normalize_dataframe] returns an
    empty table with as many rows, unless two columns are renamed to
    [Timestamp] or to one numeric field, or the result is to be sorted and
    it is not one column that is renamed to [Athlete]; then it raises. *)
Theorem C8_empty_table (P : parsers) (df : DataFrame) :
  well_formed df -> empty df = true ->
  (admits_labels df = true ->
     exists out, normalize_dataframe P df = Ok out
                 /\ empty out = true /\ nrows out = nrows df)
  /\ (admits_labels df = false -> exists e, normalize_dataframe P df = Raise e).
Proof.
  intros Hwf He.
  assert (HF : timestamp_failure P (column (rename df column_mapping) "Timestamp") = None)
    by (rewrite (column_of_empty df "Timestamp" Hwf He); apply timestamp_failure_nil).
  pose proof (failure_without_timestamp_failure P df HF) as E.
  rewrite (column_of_empty df "Athlete" Hwf He) in E.
  replace (orderable []) with true in E by reflexivity.
  rewrite orb_true_r, andb_true_r in E.
  rewrite normalize_dataframe_outcome. split; intros Ha; rewrite Ha in E.
  - destruct (failure P df); [discriminate|].
    exists (normalized P df). split; [reflexivity|].
    split; [|apply nrows_normalized].
    unfold empty in *. rewrite nrows_normalized.
    apply orb_prop in He. destruct He as [He|He]; [now rewrite He|].
    apply Nat.eqb_eq in He. apply length_zero_iff_nil in He.
    apply orb_true_intro. right.
    unfold normalized, sorts, coerced, coerced_data, columns, rename. cbv zeta.
    rewrite He. reflexivity.
  - destruct (failure P df) as [e|]; [eauto | discriminate].
Qed.

Lemma C8_empty_table_witness :
  well_formed two_subjects_no_rows
  /\ empty two_subjects_no_rows = true
  /\ admits_labels two_subjects_no_rows = true
  /\ exists out, normalize_dataframe sample_parsers two_subjects_no_rows = Ok out
                 /\ empty out = true /\ nrows out = nrows two_subjects_no_rows.
Proof.
  assert (Hwf : well_formed two_subjects_no_rows) by (repeat constructor).
  assert (He : empty two_subjects_no_rows = true) by reflexivity.
  assert (Ha : admits_labels two_subjects_no_rows = true) by reflexivity.
  split; [exact Hwf|]. split; [exact He|]. split; [exact Ha|].
  exact (proj1 (C8_empty_table sample_parsers two_subjects_no_rows Hwf He) Ha).
Defined.

(** C8, as stated, fails: the header-only table with the columns
    [Timestamp] and [Date] is empty, and [normalize_dataframe] raises on
    it. *)
Lemma C8_counterexample :
  well_formed header_only
  /\ empty header_only = true
  /\ nrows header_only = 0%nat
  /\ forall P, normalize_dataframe P header_only = Raise duplicate_keys_error.
Proof.
  split; [repeat constructor|]. split; [reflexivity|]. split; [reflexivity|].
  intros P. reflexivity.
Qed.

End NormalizeProperties.

(* ===================================================================== *)
(** * Properties of [get_athletes] *)
(* ===================================================================== *)

Module AthletesProperties.
Import PandasFacts Loader LoaderFacts Samples.

Lemma cell_eqb_eq (a b : cell) : cell_eqb a b = true <-> a = b.
Proof. unfold cell_eqb. destruct (cell_eq_dec a b); split; congruence. Qed.

Lemma dropna_in (s : Series) (x : cell) : In x (dropna s) <-> In x s /\ x <> NA.
Proof.
  unfold dropna. rewrite filter_In. split; intros [H1 H2]; split; try assumption.
  - intros ->. discriminate.
  - destruct x; [now elim H2 | reflexivity..].
Qed.

Lemma unique_in (s : Series) (x : cell) : In x (unique s) <-> In x s.
Proof.
  induction s as [|y s IH]; cbn [unique]; [reflexivity|].
  cbn [In]. rewrite filter_In, IH. split.
  - intros [H|[H _]]; auto.
  - intros [H|H]; [now left|].
    destruct (cell_eq_dec x y) as [E|E]; [left; congruence|].
    right. split; [exact H|].
    destruct (cell_eqb x y) eqn:B; [|reflexivity].
    apply cell_eqb_eq in B. contradiction.
Qed.

Lemma unique_nodup (s : Series) : NoDup (unique s).
Proof.
  induction s as [|y s IH]; cbn [unique]; constructor.
  - rewrite filter_In. intros [_ H].
    assert (E : cell_eqb y y = true) by now apply cell_eqb_eq.
    now rewrite E in H.
  - now apply NoDup_filter.
Qed.

Lemma homogeneous_values (s : Series) :
  one_kind s -> homogeneous (unique (dropna s)) = true.
Proof.
  intros H. unfold homogeneous.
  destruct (unique (dropna s)) as [|x l] eqn:E; [reflexivity|].
  apply forallb_forall. intros y Hy.
  assert (Hx : In x (unique (dropna s))) by (rewrite E; now left).
  assert (Hy' : In y (unique (dropna s))) by (rewrite E; now right).
  rewrite unique_in, dropna_in in Hx, Hy'.
  destruct Hx, Hy'. now apply H.
Qed.

(** C10, as amended.  Without an [Athlete] column [get_athletes] returns the
    empty list and does not raise.  With one [Athlete] column whose
    non-missing values are of one kind, it returns a list in ascending
    order, without repetition, whose members are the non-missing values of
    the column. *)
Theorem C10_get_athletes (df : DataFrame) :
  (~ In "Athlete" (columns df) -> get_athletes df = Ok [])
  /\ (occurrences "Athlete" df = 1%nat -> one_kind (column df "Athlete") ->
      exists l, get_athletes df = Ok l
                /\ Sorted (fun a b => cell_leb a b = true) l
                /\ NoDup l
                /\ forall x, In x l <-> In x (column df "Athlete") /\ x <> NA).
Proof.
  unfold get_athletes. split.
  - intros H. apply contains_false in H. now rewrite H.
  - intros Hocc Hkind. rewrite contains_occurrences, getitem_spec, Hocc.
    cbn [Nat.eqb negb Py.bind]. unfold sorted.
    rewrite (homogeneous_values _ Hkind).
    eexists. split; [reflexivity|].
    pose proof (stable_sort_perm cell_leb (unique (dropna (column df "Athlete")))) as Hp.
    split; [|split].
    + apply (stable_sort_sorted cell_leb). intros a b. apply cell_leb_total.
    + apply (Permutation_NoDup (Permutation_sym Hp)), unique_nodup.
    + intros x. split; intros Hx.
      * apply (Permutation_in _ Hp) in Hx.
        apply (proj1 (dropna_in _ _)), (proj1 (unique_in _ _)), Hx.
      * apply (Permutation_in _ (Permutation_sym Hp)).
        apply (proj2 (unique_in _ _)), (proj2 (dropna_in _ _)), Hx.
Qed.

Lemma C10_get_athletes_witness :
  occurrences "Athlete" (normalized sample_parsers raw_export) = 1%nat
  /\ one_kind (column (normalized sample_parsers raw_export) "Athlete")
  /\ get_athletes (normalized sample_parsers raw_export) = Ok [Str "A"; Str "B"]
  /\ ~ In "Athlete" (columns header_only)
  /\ get_athletes header_only = Ok [].
Proof.
  assert (Hocc : occurrences "Athlete" (normalized sample_parsers raw_export) = 1%nat)
    by reflexivity.
  assert (Hkind : one_kind (column (normalized sample_parsers raw_export) "Athlete")).
  { intros x y Hx Hy _ _. vm_compute in Hx, Hy.
    repeat (destruct Hx as [<-|Hx]); try (now destruct Hx);
    repeat (destruct Hy as [<-|Hy]); try (now destruct Hy); reflexivity. }
  assert (Hno : ~ In "Athlete" (columns header_only))
    by (simpl; intuition discriminate).
  destruct (C10_get_athletes (normalized sample_parsers raw_export)) as [_ H].
  destruct (H Hocc Hkind) as [l [Hl _]].
  destruct (C10_get_athletes header_only) as [H0 _].
  split; [exact Hocc|]. split; [exact Hkind|].
  split; [vm_compute; reflexivity|]. split; [exact Hno|]. exact (H0 Hno).
Defined.

(** C10, as stated, fails: on a subject column that holds the string
    ["Bob"] and the number 7, [sorted] cannot compare the two values and
    [get_athletes] raises. *)
Lemma C10_counterexample :
  occurrences "Athlete" mixed_subjects = 1%nat
  /\ get_athletes mixed_subjects
     = Raise (TypeError "'<' not supported between instances")
  /\ ~ (forall df, exists l, get_athletes df = Ok l).
Proof.
  split; [reflexivity|]. split; [reflexivity|].
  intros H. destruct (H mixed_subjects) as [l Hl].
  assert (E : get_athletes mixed_subjects
              = Raise (TypeError "'<' not supported between instances")) by reflexivity.
  rewrite E in Hl. discriminate.
Qed.

End AthletesProperties.

(* ===================================================================== *)
(** * Properties of [load_google_sheet] and of the import *)
(* ===================================================================== *)

Module LoadProperties.
Import PandasFacts Loader LoaderFacts Samples.

Lemma count_app (p : event -> bool) (t u : trace) :
  count p (t ++ u) = (count p t + count p u)%nat.
Proof. unfold count. now rewrite filter_app, length_app. Qed.

Lemma emits_call {A : Type} (ev : event) (r : result A) (bound : list event -> Prop) :
  bound [ev] -> emits (call ev r) bound.
Proof. intros H t. exists [ev]. now split. Qed.

Lemma emits_ret {A : Type} (a : A) (bound : list event -> Prop) :
  bound [] -> emits (io_ret a) bound.
Proof. intros H t. exists []. split; [now rewrite app_nil_r | exact H]. Qed.

Lemma emits_raise {A : Type} (e : exn) (bound : list event -> Prop) :
  bound [] -> emits (@io_raise A e) bound.
Proof. intros H t. exists []. split; [now rewrite app_nil_r | exact H]. Qed.

Lemma emits_bind {A B : Type} (c : io A) (k : A -> io B)
      (b1 b2 b : list event -> Prop) :
  emits c b1 -> (forall a, emits (k a) b2) ->
  (forall e1 e2, b1 e1 -> b2 e2 -> b (e1 ++ e2)) ->
  (forall e1, b1 e1 -> b e1) ->
  emits (io_bind c k) b.
Proof.
  intros Hc Hk Hb Hb1 t. unfold io_bind.
  destruct (Hc t) as [e1 [E1 B1]].
  destruct (c t) as [[a|e] t1]; cbn [snd] in *; subst t1.
  - destruct (Hk a (t ++ e1)) as [e2 [E2 B2]].
    exists (e1 ++ e2). split; [now rewrite E2, app_assoc | now apply Hb].
  - exists e1. split; [reflexivity | now apply Hb1].
Qed.

Lemma emits_try {A : Type} (c : io A) (h : exn -> io A)
      (b1 b2 b : list event -> Prop) :
  emits c b1 -> (forall e, emits (h e) b2) ->
  (forall e1 e2, b1 e1 -> b2 e2 -> b (e1 ++ e2)) ->
  (forall e1, b1 e1 -> b e1) ->
  emits (try_except c h) b.
Proof.
  intros Hc Hh Hb Hb1 t. unfold try_except.
  destruct (Hc t) as [e1 [E1 B1]].
  destruct (c t) as [[a|e] t1]; cbn [snd] in *; subst t1.
  - exists e1. split; [reflexivity | now apply Hb1].
  - destruct (Hh e (t ++ e1)) as [e2 [E2 B2]].
    exists (e1 ++ e2). split; [now rewrite E2, app_assoc | now apply Hb].
Qed.

Lemma at_most_app (r1 f1 r2 f2 : nat) (e1 e2 : list event) :
  at_most r1 f1 e1 -> at_most r2 f2 e2 -> at_most (r1 + r2) (f1 + f2) (e1 ++ e2).
Proof. unfold at_most. rewrite !count_app. lia. Qed.

Section Load.
Variable P : parsers.
Variable W : World.
Variables sheet_title worksheet_name credentials_file : string.

Ltac step_bind b1 b2 :=
  apply (emits_bind _ _ b1 b2);
  [ | intros ?
    | intros ? ? ? ?; unfold at_most in *; rewrite !count_app; lia
    | intros ? ?; unfold at_most in *; lia ].

Ltac by_count := unfold at_most, count; cbn; lia.

Lemma fetch_remote_emits :
  emits (fetch_remote W sheet_title worksheet_name credentials_file) (at_most 1 0).
Proof.
  unfold fetch_remote.
  step_bind (at_most 0 0) (at_most 1 0); [apply emits_call; by_count|].
  destruct (negb a); [apply emits_raise; by_count|].
  step_bind (at_most 0 0) (at_most 1 0); [apply emits_call; by_count|].
  step_bind (at_most 0 0) (at_most 1 0); [apply emits_call; by_count|].
  step_bind (at_most 0 0) (at_most 1 0); [apply emits_call; by_count|].
  step_bind (at_most 0 0) (at_most 1 0); [apply emits_call; by_count|].
  apply emits_call; by_count.
Qed.

Lemma remote_ingest_emits :
  emits (remote_ingest W sheet_title worksheet_name credentials_file) (at_most 1 0).
Proof.
  unfold remote_ingest.
  step_bind (at_most 1 0) (at_most 0 0); [apply fetch_remote_emits|].
  destruct (empty a); [apply emits_raise | apply emits_ret]; by_count.
Qed.

Lemma on_error_emits (use_fallback : bool) (e : exn) :
  emits (on_error W use_fallback e) (at_most 0 1).
Proof.
  unfold on_error.
  step_bind (at_most 0 0) (at_most 0 1); [apply emits_call; by_count|].
  destruct use_fallback; [|apply emits_raise; by_count].
  step_bind (at_most 0 0) (at_most 0 1); [apply emits_call; by_count|].
  apply emits_call; by_count.
Qed.

Lemma load_google_sheet_emits (use_fallback : bool) :
  emits (load_google_sheet P W sheet_title worksheet_name credentials_file use_fallback)
        (at_most 1 1).
Proof.
  unfold load_google_sheet.
  step_bind (at_most 1 1) (at_most 0 0).
  - apply (emits_try _ _ (at_most 1 0) (at_most 0 1)).
    + apply remote_ingest_emits.
    + intros e. apply on_error_emits.
    + intros e1 e2 H1 H2. apply (at_most_app 1 0 0 1); assumption.
    + intros e1 H1. unfold at_most in *. lia.
  - intros t. exists []. split; [cbn; now rewrite app_nil_r | by_count].
Qed.

Lemma load_after_failure (e : exn) (t t1 : trace) :
  remote_ingest W sheet_title worksheet_name credentials_file t = (Raise e, t1) ->
  load_google_sheet P W sheet_title worksheet_name credentials_file true t
  = (fallback_outcome P W, t1 ++ [StWarning e; StInfo fallback_notice; ReadCsv fallback_path])
  /\ load_google_sheet P W sheet_title worksheet_name credentials_file false t
     = (Raise e, t1 ++ [StWarning e]).
Proof.
  intros H. unfold load_google_sheet, try_except, io_bind, fallback_outcome. rewrite H.
  unfold on_error, io_bind, call, io_raise. cbn [fst snd].
  rewrite <- !app_assoc. cbn [app].
  split; [|reflexivity].
  now destruct (read_csv W fallback_path).
Qed.

End Load.

Lemma count_ingestion (evs : list event) :
  count ingestion_event evs = (count remote_event evs + count fallback_event evs)%nat.
Proof.
  unfold count. induction evs as [|ev evs IH]; [reflexivity|].
  destruct ev; cbn [filter ingestion_event remote_event fallback_event length];
    rewrite ?IH; lia.
Qed.

(** C2.  When the remote fetch fails, or succeeds with an empty frame,
    [load_google_sheet] with [use_fallback=True] reads the local export once
    and returns its normalized form, and with [use_fallback=False] raises
    the failure to the caller; the empty frame is handled as the failure
    [empty_source_error]; and one call makes at most one remote fetch and
    at most one fallback read. *)
Theorem C2_fallback_or_propagation
  (P : parsers) (W : World) (sheet_title worksheet_name credentials_file : string)
  (t : trace) :
  let load := load_google_sheet P W sheet_title worksheet_name credentials_file in
  let fetch := fetch_remote W sheet_title worksheet_name credentials_file in
  (forall e t1, fetch t = (Raise e, t1) ->
     load true t
     = (fallback_outcome P W,
        t1 ++ [StWarning e; StInfo fallback_notice; ReadCsv fallback_path])
     /\ load false t = (Raise e, t1 ++ [StWarning e]))
  /\ (forall df t1, fetch t = (Ok df, t1) -> empty df = true ->
     load true t
     = (fallback_outcome P W,
        t1 ++ [StWarning empty_source_error; StInfo fallback_notice; ReadCsv fallback_path])
     /\ load false t = (Raise empty_source_error, t1 ++ [StWarning empty_source_error]))
  /\ (forall csv, read_csv W fallback_path = Ok csv ->
        fallback_outcome P W = normalize_dataframe P csv)
  /\ (forall use_fallback, exists evs,
        snd (load use_fallback t) = t ++ evs
        /\ (count remote_event evs <= 1)%nat
        /\ (count fallback_event evs <= 1)%nat
        /\ (count ingestion_event evs <= 2)%nat).
Proof.
  intros load fetch. split; [|split; [|split]].
  - intros e t1 H. apply load_after_failure.
    unfold remote_ingest, io_bind. fold fetch. now rewrite H.
  - intros df t1 H He. apply load_after_failure.
    unfold remote_ingest, io_bind. fold fetch. now rewrite H, He.
  - intros csv H. unfold fallback_outcome. now rewrite H.
  - intros b.
    destruct (load_google_sheet_emits P W sheet_title worksheet_name credentials_file b t)
      as [evs [E [Hr Hf]]].
    exists evs. split; [exact E|]. rewrite count_ingestion. lia.
Qed.

Lemma C2_fallback_or_propagation_witness :
  let args := ("Wellness Dashboard Data", "Form Responses 1", "gspread_credentials.json") in
  let missing := FileNotFoundError "Credentials file not found: gspread_credentials.json" in
  fetch_remote offline_world (fst (fst args)) (snd (fst args)) (snd args) []
  = (Raise missing, [PathExists "gspread_credentials.json"])
  /\ load_google_sheet sample_parsers offline_world
       (fst (fst args)) (snd (fst args)) (snd args) true []
     = (Ok canonical_table,
        [PathExists "gspread_credentials.json"; StWarning missing;
         StInfo fallback_notice; ReadCsv fallback_path])
  /\ load_google_sheet sample_parsers offline_world
       (fst (fst args)) (snd (fst args)) (snd args) false []
     = (Raise missing, [PathExists "gspread_credentials.json"; StWarning missing])
  /\ empty {| index := []; data := [] |} = true
  /\ fst (load_google_sheet sample_parsers empty_sheet_world
            (fst (fst args)) (snd (fst args)) (snd args) true [])
     = Ok canonical_table
  /\ fst (load_google_sheet sample_parsers empty_sheet_world
            (fst (fst args)) (snd (fst args)) (snd args) false [])
     = Raise empty_source_error.
Proof.
  intros args missing.
  assert (F : fetch_remote offline_world (fst (fst args)) (snd (fst args)) (snd args) []
              = (Raise missing, [PathExists "gspread_credentials.json"])) by reflexivity.
  assert (G : exists t1,
             fetch_remote empty_sheet_world (fst (fst args)) (snd (fst args)) (snd args) []
             = (Ok {| index := []; data := [] |}, t1)) by (eexists; reflexivity).
  destruct G as [t1 G].
  assert (E : empty {| index := []; data := [] |} = true) by reflexivity.
  destruct (C2_fallback_or_propagation sample_parsers offline_world
              (fst (fst args)) (snd (fst args)) (snd args) []) as [H1 _].
  destruct (H1 _ _ F) as [Ht Hf].
  destruct (C2_fallback_or_propagation sample_parsers empty_sheet_world
              (fst (fst args)) (snd (fst args)) (snd args) []) as [_ [H2 _]].
  destruct (H2 _ _ G E) as [Ht' Hf'].
  split; [exact F|]. split; [rewrite Ht; vm_compute; reflexivity|].
  split; [exact Hf|]. split; [exact E|].
  split; [rewrite Ht'; vm_compute; reflexivity | rewrite Hf'; reflexivity].
Defined.

(** ** The import of the module *)

Lemma resolve_credentials (t : trace) :
  resolve module_globals "Credentials" t = (Raise (NameError "Credentials"), t).
Proof. reflexivity. Qed.

Lemma import_raises (W : World) (t : trace) :
  exists e evs, import_data_loader W t = (Raise e, t ++ evs) /\ secrets_only evs.
Proof.
  unfold import_data_loader, run_module_level, io_bind, call, secrets_only.
  destruct (secrets_contains W "GSPREAD_CREDENTIALS") as [[|]|e0].
  - destruct (secrets_get W "GSPREAD_CREDENTIALS") as [s|e1].
    + destruct (json_loads W s) as [d|e2].
      * rewrite resolve_credentials. do 2 eexists. rewrite <- app_assoc.
        split; [reflexivity|]. cbn. intuition.
      * do 2 eexists. rewrite <- app_assoc. split; [reflexivity|]. cbn. intuition.
    + do 2 eexists. rewrite <- app_assoc. split; [reflexivity|]. cbn. intuition.
  - rewrite resolve_credentials. do 2 eexists. split; [reflexivity|]. cbn. intuition.
  - do 2 eexists. split; [reflexivity|]. cbn. intuition.
Qed.

(** C9.  Importing the module runs its module-level statements, which
    are written to authenticate and fetch the sheet with no guard around
    them: were [Credentials] bound, the import itself would authorize and
    call [get_all_records].  As the module is, the import raises in every
    environment: whenever the secrets can be consulted the evaluation
    reaches the name [Credentials], which the module never binds, and
    raises [NameError]; otherwise the access to the secrets has raised
    already.  A caller that imports the module and then calls
    [load_google_sheet] gets that exception whatever [use_fallback] is: the
    body of [load_google_sheet], with its fallback, is never entered, and
    the only calls made are the accesses to the secrets. *)
Theorem C9_import_raises
  (P : parsers) (W : World) (sheet_title worksheet_name credentials_file : string)
  (t : trace) :
  (exists e evs,
      import_data_loader W t = (Raise e, t ++ evs)
      /\ secrets_only evs
      /\ forall use_fallback,
           import_then_load P W sheet_title worksheet_name credentials_file use_fallback t
           = (Raise e, t ++ evs))
  /\ (secrets_contains W "GSPREAD_CREDENTIALS" = Ok false ->
        fst (import_data_loader W t) = Raise (NameError "Credentials"))
  /\ (forall s d,
        secrets_contains W "GSPREAD_CREDENTIALS" = Ok true ->
        secrets_get W "GSPREAD_CREDENTIALS" = Ok s ->
        json_loads W s = Ok d ->
        fst (import_data_loader W t) = Raise (NameError "Credentials"))
  /\ (forall cls creds client sheet ws df,
        secrets_contains W "GSPREAD_CREDENTIALS" = Ok false ->
        class_method W cls "from_service_account_file" "gspread_credentials.json" = Ok creds ->
        authorize W creds = Ok client ->
        open_sheet W client "Morning Wellness Tracker" = Ok sheet ->
        worksheet W sheet "Form Responses 1" = Ok ws ->
        get_all_records W ws = Ok df ->
        run_module_level W (("Credentials", cls) :: module_globals) t
        = (Ok df,
           t ++ [SecretsLookup "GSPREAD_CREDENTIALS";
                 ClassMethod cls "from_service_account_file";
                 Authorize; OpenSheet "Morning Wellness Tracker";
                 OpenWorksheet "Form Responses 1"; GetAllRecords])).
Proof.
  split; [|split; [|split]].
  - destruct (import_raises W t) as [e [evs [H Hs]]].
    exists e, evs. split; [exact H|]. split; [exact Hs|].
    intros b. unfold import_then_load, io_bind. now rewrite H.
  - intros H. unfold import_data_loader, run_module_level, io_bind, call. rewrite H.
    now rewrite resolve_credentials.
  - intros s d H1 H2 H3. unfold import_data_loader, run_module_level, io_bind, call.
    rewrite H1, H2, H3. now rewrite resolve_credentials.
  - intros cls creds client sheet ws df H1 H2 H3 H4 H5 H6.
    unfold run_module_level, io_bind, call, resolve, io_ret.
    rewrite H1. cbn [dict_get]. rewrite String.eqb_refl.
    rewrite H2, H3, H4, H5, H6. rewrite <- !app_assoc. reflexivity.
Qed.

Lemma C9_import_raises_witness :
  secrets_contains offline_world "GSPREAD_CREDENTIALS" = Ok false
  /\ fst (import_data_loader offline_world []) = Raise (NameError "Credentials")
  /\ secrets_contains empty_sheet_world "GSPREAD_CREDENTIALS" = Ok true
  /\ fst (import_data_loader empty_sheet_world []) = Raise (NameError "Credentials")
  /\ fst (run_module_level bound_world (("Credentials", "Credentials") :: module_globals) [])
     = Ok raw_table.
Proof.
  destruct (C9_import_raises sample_parsers offline_world "" "" "" []) as [_ [H1 _]].
  destruct (C9_import_raises sample_parsers empty_sheet_world "" "" "" [])
    as [_ [_ [H2 _]]].
  destruct (C9_import_raises sample_parsers bound_world "" "" "" [])
    as [_ [_ [_ H3]]].
  split; [reflexivity|]. split; [exact (H1 eq_refl)|].
  split; [reflexivity|]. split; [exact (H2 "{}" "{}" eq_refl eq_refl eq_refl)|].
  rewrite (H3 "Credentials" "gspread_credentials.json" "gspread_credentials.json"
              "Morning Wellness Tracker" "Form Responses 1" raw_table
              eq_refl eq_refl eq_refl eq_refl eq_refl eq_refl).
  reflexivity.
Defined.

End LoadProperties.

(* ===================================================================== *)
(** * Properties of the readiness contract *)
(* ===================================================================== *)

Module ReadinessProperties.
Import Readiness.
Local Open Scope Q_scope.

Lemma known_terms_nil (p : policy) (r : row) :
  known_terms p r = [] <-> forall m, r m = None.
Proof.
  unfold known_terms, all_metrics, contribution. cbn [flat_map]. split.
  - intros H m.
    destruct (r Sleep) eqn:E1; [discriminate|].
    destruct (r Mood) eqn:E2; [discriminate|].
    destruct (r Energy) eqn:E3; [discriminate|].
    destruct (r Stress) eqn:E4; [discriminate|].
    destruct (r Soreness) eqn:E5; [discriminate|].
    destruct (r Fatigue) eqn:E6; [discriminate|].
    destruct m; assumption.
  - intros H. now rewrite !H.
Qed.

Lemma known_terms_in (p : policy) (r : row) (w c : Q) :
  In (w, c) (known_terms p r) ->
  exists m v, r m = Some v /\ w = weight p m
              /\ c = (if inverted m then invert p v else v).
Proof.
  unfold known_terms. intros H. apply in_flat_map in H.
  destruct H as [m [_ Hm]]. unfold contribution in Hm.
  destruct (r m) as [v|] eqn:E; [|destruct Hm].
  destruct Hm as [Hm|[]]. injection Hm as <- <-. now exists m, v.
Qed.

(** The sums over the known terms are the sums over all metrics that skip
    the unknown ones. *)
Lemma known_terms_sums (p : policy) (r : row) :
  weighted_sum (known_terms p r) = known_sum p r
  /\ total_weight (known_terms p r) = known_weight p r.
Proof.
  unfold known_terms, known_sum, known_weight, contribution.
  induction all_metrics as [|m ms [IH1 IH2]]; [now split|].
  cbn [flat_map fold_right].
  destruct (r m) as [v|]; cbn [app weighted_sum total_weight fold_right fst snd];
    [|now split].
  unfold weighted_sum, total_weight in IH1, IH2. now rewrite IH1, IH2.
Qed.

Lemma weighted_mean_bounds (lo hi : Q) (l : list (Q * Q)) :
  (forall w c, In (w, c) l -> 0 < w /\ lo <= c /\ c <= hi) ->
  0 <= total_weight l
  /\ lo * total_weight l <= weighted_sum l
  /\ weighted_sum l <= hi * total_weight l.
Proof.
  induction l as [|[w c] l IH]; intros H.
  - cbn. lra.
  - cbn [weighted_sum total_weight fold_right fst snd].
    destruct IH as [I0 [I1 I2]]; [intros w' c' Hin; apply H; now right|].
    fold (weighted_sum l) (total_weight l).
    fold (weighted_sum l) in I1, I2. fold (total_weight l) in I0, I1, I2.
    destruct (H w c (or_introl eq_refl)) as [Hw [Hlo Hhi]].
    assert (lo * w <= w * c) by nra.
    assert (w * c <= hi * w) by nra.
    repeat split; lra.
Qed.

Lemma total_weight_positive (l : list (Q * Q)) :
  l <> [] -> (forall w c, In (w, c) l -> 0 < w) -> 0 < total_weight l.
Proof.
  destruct l as [|[w c] l]; [now intros H|]. intros _ H.
  cbn [total_weight fold_right fst]. fold (total_weight l).
  assert (Hw : 0 < w) by (apply (H w c); now left).
  assert (Hl : 0 <= total_weight l).
  { clear Hw. induction l as [|[w' c'] l IH]; [cbn; lra|].
    cbn [total_weight fold_right fst]. fold (total_weight l).
    assert (0 < w') by (apply (H w' c'); right; now left).
    assert (0 <= total_weight l).
    { apply IH. intros w0 c0 [Hin|Hin]; [apply (H w0 c0); now left|].
      apply (H w0 c0). right. now right. }
    lra. }
  lra.
Qed.

Lemma readiness_some (p : policy) (r : row) (v : Q) :
  readiness p r = Some v ->
  known_terms p r <> []
  /\ v = weighted_sum (known_terms p r) / total_weight (known_terms p r).
Proof.
  unfold readiness. destruct (known_terms p r) as [|t l]; [discriminate|].
  intros H. injection H as H. split; [discriminate | now symmetry].
Qed.

(** C6.  The readiness of a row is unknown exactly when all six metrics
    are unknown.  When it is known it is the weighted mean of the
    contributions of the known metrics only, the unknown ones adding
    nothing to the sum and nothing to the divisor; and under a sound policy
    it lies in the scale when the known metrics do. *)
Theorem C6_readiness_unknown_iff_all_unknown (p : policy) (r : row) :
  (readiness p r = None <-> forall m, r m = None)
  /\ (forall v, readiness p r = Some v -> v = known_sum p r / known_weight p r)
  /\ (sound p ->
      (forall m x, r m = Some x -> in_scale p x) ->
      forall v, readiness p r = Some v -> in_scale p v).
Proof.
  split; [|split].
  - unfold readiness. split; intros H.
    + apply (proj1 (known_terms_nil p r)).
      destruct (known_terms p r); [reflexivity | discriminate].
    + apply (proj2 (known_terms_nil p r)) in H. now rewrite H.
  - intros v H. apply readiness_some in H. destruct H as [_ ->].
    destruct (known_terms_sums p r) as [E1 E2]. now rewrite E1, E2.
  - intros [Hw Hinv] Hscale v H.
    apply readiness_some in H. destruct H as [Hne ->].
    assert (Hterms : forall w c, In (w, c) (known_terms p r) ->
                       0 < w /\ scale_lo p <= c /\ c <= scale_hi p).
    { intros w c Hin. apply known_terms_in in Hin.
      destruct Hin as [m [x [Hm [-> ->]]]]. split; [apply Hw|].
      destruct (inverted m); [apply Hinv|]; now apply (Hscale m). }
    destruct (weighted_mean_bounds _ _ _ Hterms) as [_ [Hlo Hhi]].
    assert (Hpos : 0 < total_weight (known_terms p r)).
    { apply total_weight_positive; [exact Hne|].
      intros w c Hin. now apply (Hterms w c). }
    split.
    + apply Qle_shift_div_l; [exact Hpos | exact Hlo].
    + apply Qle_shift_div_r; [exact Hpos | exact Hhi].
Qed.

Lemma unweighted_1_10_sound : sound unweighted_1_10.
Proof.
  split; [intros m; cbn; lra|].
  intros v [H1 H2]. unfold in_scale in *. cbn in *. lra.
Qed.

Lemma C6_readiness_unknown_iff_all_unknown_witness :
  sound unweighted_1_10
  /\ (forall m x, sleep_and_stress m = Some x -> in_scale unweighted_1_10 x)
  /\ readiness unweighted_1_10 sleep_and_stress = Some ((1 * 8 + (1 * (11 - 3) + 0)) / (1 + (1 + 0)))
  /\ in_scale unweighted_1_10 ((1 * 8 + (1 * (11 - 3) + 0)) / (1 + (1 + 0)))
  /\ readiness unweighted_1_10 no_metric = None.
Proof.
  assert (Hs : forall m x, sleep_and_stress m = Some x -> in_scale unweighted_1_10 x).
  { intros m x. destruct m; cbn; intros H; try discriminate;
      injection H as <-; unfold in_scale; cbn; lra. }
  assert (Hr : readiness unweighted_1_10 sleep_and_stress
               = Some ((1 * 8 + (1 * (11 - 3) + 0)) / (1 + (1 + 0)))) by reflexivity.
  destruct (C6_readiness_unknown_iff_all_unknown unweighted_1_10 sleep_and_stress)
    as [_ [_ Hrange]].
  destruct (C6_readiness_unknown_iff_all_unknown unweighted_1_10 no_metric)
    as [[_ Hnone] _].
  split; [exact unweighted_1_10_sound|]. split; [exact Hs|]. split; [exact Hr|].
  split; [exact (Hrange unweighted_1_10_sound Hs _ Hr)|].
  apply Hnone. reflexivity.
Defined.

(** Zero-filling would bias the value: for a row with sleep 8 and stress 3
    alone, readiness is 8, the zero-filled mean is 8/3. *)
Example readiness_is_not_zero_filled :
  (exists v, readiness unweighted_1_10 sleep_and_stress = Some v /\ v == 8)
  /\ zero_filled unweighted_1_10 sleep_and_stress == 8 # 3.
Proof.
  split; [eexists; split; [reflexivity|]|]; vm_compute; reflexivity.
Qed.

End ReadinessProperties.

(* ===================================================================== *)
(** * Properties of the z-score contract *)
(* ===================================================================== *)

Module ZScoresProperties.
Import ZScores.
Local Open Scope Q_scope.

Lemma sum_constant (l : list Q) (c : Q) :
  constant l c -> sum l == inject_Z (Z.of_nat (length l)) * c.
Proof.
  unfold constant. induction l as [|x l IH]; intros H.
  - cbn [sum fold_right length]. change (inject_Z (Z.of_nat 0)) with 0. ring.
  - cbn [sum fold_right length]. fold (sum l).
    rewrite Nat2Z.inj_succ, <- Z.add_1_r, inject_Z_plus.
    rewrite IH by (intros y Hy; apply H; now right).
    rewrite (H x) by now left.
    change (inject_Z 1) with 1. ring.
Qed.

Lemma sum_map_zero (f : Q -> Q) (l : list Q) :
  (forall x, In x l -> f x == 0) -> sum (map f l) == 0.
Proof.
  induction l as [|x l IH]; intros H; [reflexivity|].
  cbn [map sum fold_right]. fold (sum (map f l)).
  rewrite IH by (intros y Hy; apply H; now right).
  rewrite (H x) by now left. lra.
Qed.

Lemma mean_constant (l : list Q) (c : Q) :
  l <> [] -> constant l c -> mean l == c.
Proof.
  intros Hne Hc. unfold mean. rewrite (sum_constant l c Hc).
  assert (Hn : ~ inject_Z (Z.of_nat (length l)) == 0).
  { destruct l as [|x l]; [now elim Hne|].
    cbn [length]. rewrite Nat2Z.inj_succ. unfold Qeq. cbn. lia. }
  field. exact Hn.
Qed.

Lemma variance_constant (l : list Q) (c : Q) :
  l <> [] -> constant l c -> variance l == 0.
Proof.
  intros Hne Hc. unfold variance. cbv zeta.
  rewrite sum_map_zero.
  - unfold Qdiv. lra.
  - intros x Hx. rewrite (mean_constant l c Hne Hc), (Hc x Hx). lra.
Qed.

Lemma zscore_some (sqrt : Q -> Q) (series : list Q) (v z : Q) :
  zscore sqrt series v = Some z ->
  (2 <= length series)%nat
  /\ ~ sqrt (variance series) == 0
  /\ z = (v - mean series) / sqrt (variance series).
Proof.
  unfold zscore.
  destruct (Nat.ltb_spec (length series) 2) as [Hl|Hl]; [discriminate|].
  destruct (Qeq_bool (sqrt (variance series)) 0) eqn:E; [discriminate|].
  intros H. injection H as <-.
  split; [exact Hl|]. split; [now apply Qeq_bool_neq | reflexivity].
Qed.

Lemma zscore_constant (sqrt : Q -> Q) (series : list Q) (c v : Q) :
  sqrt_zero sqrt -> constant series c -> zscore sqrt series v = None.
Proof.
  intros Hs Hc. unfold zscore.
  destruct (Nat.ltb_spec (length series) 2) as [Hl|Hl]; [reflexivity|].
  assert (Hne : series <> []) by (intros ->; simpl in Hl; lia).
  assert (E : Qeq_bool (sqrt (variance series)) 0 = true).
  { apply Qeq_bool_iff. apply Hs. exact (variance_constant series c Hne Hc). }
  now rewrite E.
Qed.

(** C7.  The z-score of an observation never divides by zero: it is
    unknown when the subject has fewer than two known values of the metric,
    and unknown when the subject's series is constant (its standard
    deviation is zero); when it is known, the divisor is a non-zero
    standard deviation of a series of at least two values. *)
Theorem C7_zscore_never_divides_by_zero
  (sqrt : Q -> Q) (obs : list observation) (o : observation) :
  let series := subject_series obs (fst o) in
  ((length series < 2)%nat -> zscore_of sqrt obs o = None)
  /\ (forall c, sqrt_zero sqrt -> constant series c -> zscore_of sqrt obs o = None)
  /\ (forall z, zscore_of sqrt obs o = Some z ->
        exists v, snd o = Some v
                  /\ (2 <= length series)%nat
                  /\ ~ sqrt (variance series) == 0
                  /\ z = (v - mean series) / sqrt (variance series)).
Proof.
  intros series. unfold zscore_of. fold series. split; [|split].
  - intros Hl. destruct (snd o) as [v|]; [|reflexivity].
    unfold zscore. apply Nat.ltb_lt in Hl. now rewrite Hl.
  - intros c Hs Hc. destruct (snd o) as [v|]; [|reflexivity].
    now apply (zscore_constant sqrt series c v).
  - intros z H. destruct (snd o) as [v|]; [|discriminate].
    exists v. split; [reflexivity|]. now apply zscore_some.
Qed.

Lemma sample_sqrt_zero : sqrt_zero sample_sqrt.
Proof.
  intros x Hx. unfold sample_sqrt.
  assert (E : Qnum x = 0%Z).
  { unfold Qeq in Hx. cbn in Hx. lia. }
  rewrite E. reflexivity.
Qed.

Lemma C7_zscore_never_divides_by_zero_witness :
  sqrt_zero sample_sqrt
  /\ constant (subject_series sample_observations "A") 5
  /\ zscore_of sample_sqrt sample_observations ("A", Some 5) = None
  /\ (length (subject_series sample_observations "C") < 2)%nat
  /\ zscore_of sample_sqrt sample_observations ("C", Some 7) = None
  /\ (exists z, zscore_of sample_sqrt sample_observations ("B", Some 8) = Some z /\ z == 1)
  /\ ~ sample_sqrt (variance (subject_series sample_observations "B")) == 0.
Proof.
  assert (Hc : constant (subject_series sample_observations "A") 5).
  { intros x Hx. cbn in Hx. repeat (destruct Hx as [<-|Hx]; [reflexivity|]). destruct Hx. }
  assert (Hl : (length (subject_series sample_observations "C") < 2)%nat) by (cbn; lia).
  assert (Hz : zscore_of sample_sqrt sample_observations ("B", Some 8)
               = Some ((8 - mean (subject_series sample_observations "B"))
                       / sample_sqrt (variance (subject_series sample_observations "B"))))
    by (vm_compute; reflexivity).
  destruct (C7_zscore_never_divides_by_zero sample_sqrt sample_observations ("A", Some 5))
    as [_ [HA _]].
  destruct (C7_zscore_never_divides_by_zero sample_sqrt sample_observations ("C", Some 7))
    as [HC _].
  destruct (C7_zscore_never_divides_by_zero sample_sqrt sample_observations ("B", Some 8))
    as [_ [_ HB]].
  destruct (HB _ Hz) as [v [_ [_ [Hsd _]]]].
  split; [exact sample_sqrt_zero|]. split; [exact Hc|].
  split; [exact (HA 5 sample_sqrt_zero Hc)|]. split; [exact Hl|].
  split; [exact (HC Hl)|].
  split; [eexists; split; [exact Hz | vm_compute; reflexivity] | exact Hsd].
Defined.

End ZScoresProperties.

(* ===================================================================== *)
(** * The order of the library is a total order *)
(* ===================================================================== *)

Module OrderFacts.
Import PandasFacts.

Lemma string_compare_trans (a b c : string) :
  String.compare a b = Lt -> String.compare b c = Lt -> String.compare a c = Lt.
Proof.
  intros H1 H2.
  apply OrderedTypeEx.String_as_OT.cmp_lt in H1.
  apply OrderedTypeEx.String_as_OT.cmp_lt in H2.
  apply OrderedTypeEx.String_as_OT.cmp_lt.
  exact (OrderedTypeEx.String_as_OT.lt_trans _ _ _ H1 H2).
Qed.

Lemma cell_compare_eq (a b : cell) : cell_compare a b = Eq <-> a = b.
Proof.
  split.
  - destruct a, b; simpl; intros H; try discriminate; try reflexivity.
    + f_equal. now apply OrderedTypeEx.String_as_OT.cmp_eq.
    + f_equal. now apply Qceq_alt.
    + f_equal. now apply Z.compare_eq.
  - intros <-. destruct a; simpl; try reflexivity.
    + now apply OrderedTypeEx.String_as_OT.cmp_eq.
    + now apply Qceq_alt.
    + apply Z.compare_refl.
Qed.

Lemma cell_compare_refl (a : cell) : cell_compare a a = Eq.
Proof. now apply cell_compare_eq. Qed.

Lemma cell_compare_trans (a b c : cell) :
  cell_compare a b = Lt -> cell_compare b c = Lt -> cell_compare a c = Lt.
Proof.
  destruct a as [|s1|q1|t1], b as [|s2|q2|t2], c as [|s3|q3|t3];
    cbn [cell_compare]; intros H1 H2; try discriminate; try reflexivity.
  - eapply string_compare_trans; eauto.
  - apply Qclt_alt. apply Qclt_alt in H1. apply Qclt_alt in H2.
    eapply Qclt_trans; eauto.
  - rewrite Z.compare_lt_iff in *. lia.
Qed.

Lemma cell_leb_refl (a : cell) : cell_leb a a = true.
Proof. unfold cell_leb. now rewrite cell_compare_refl. Qed.

Lemma cell_leb_trans (a b c : cell) :
  cell_leb a b = true -> cell_leb b c = true -> cell_leb a c = true.
Proof.
  unfold cell_leb. intros H1 H2.
  destruct (cell_compare a b) eqn:E1; try discriminate.
  - apply cell_compare_eq in E1. now subst.
  - destruct (cell_compare b c) eqn:E2; try discriminate.
    + apply cell_compare_eq in E2. subst. now rewrite E1.
    + now rewrite (cell_compare_trans a b c E1 E2).
Qed.

Lemma cell_leb_antisym (a b : cell) :
  cell_leb a b = true -> cell_leb b a = true -> a = b.
Proof.
  unfold cell_leb. rewrite (cell_compare_antisym b a).
  destruct (cell_compare a b) eqn:E; simpl; intros H1 H2; try discriminate.
  now apply cell_compare_eq.
Qed.

Lemma key_leb_refl (a : cell * cell) : key_leb a a = true.
Proof. unfold key_leb. rewrite cell_compare_refl. apply cell_leb_refl. Qed.

Lemma key_leb_trans (a b c : cell * cell) :
  key_leb a b = true -> key_leb b c = true -> key_leb a c = true.
Proof.
  unfold key_leb. destruct a as [a1 a2], b as [b1 b2], c as [c1 c2]. cbn [fst snd].
  intros H1 H2.
  destruct (cell_compare a1 b1) eqn:E1; try discriminate.
  - apply cell_compare_eq in E1. subst b1.
    destruct (cell_compare a1 c1) eqn:E2; try discriminate; [|reflexivity].
    eapply cell_leb_trans; eauto.
  - destruct (cell_compare b1 c1) eqn:E2; try discriminate.
    + apply cell_compare_eq in E2. subst c1. now rewrite E1.
    + now rewrite (cell_compare_trans a1 b1 c1 E1 E2).
Qed.

(** ** Sorted lists *)

Section Order.
Context {A : Type} (leb : A -> A -> bool).
Hypothesis leb_refl : forall a, leb a a = true.
Hypothesis leb_trans : forall a b c, leb a b = true -> leb b c = true -> leb a c = true.

Let le (a b : A) : Prop := leb a b = true.

Lemma sorted_strongly (l : list A) : Sorted le l -> StronglySorted le l.
Proof.
  apply Sorted_StronglySorted. intros a b c. apply leb_trans.
Qed.

Lemma sorted_filter (p : A -> bool) (l : list A) :
  Sorted le l -> Sorted le (filter p l).
Proof.
  intros H. apply sorted_strongly in H. apply StronglySorted_Sorted.
  induction H as [|a l Hs IH Hall]; cbn [filter]; [constructor|].
  destruct (p a); [|exact IH].
  constructor; [exact IH|].
  rewrite Forall_forall in *. intros x Hx. apply filter_In in Hx. now apply Hall.
Qed.

(** A list in order is determined by its members. *)
Lemma sorted_unique (l1 l2 : list A) :
  (forall a b, leb a b = true -> leb b a = true -> a = b) ->
  Sorted le l1 -> Sorted le l2 -> Permutation l1 l2 -> l1 = l2.
Proof.
  intros Hanti H1 H2. apply sorted_strongly in H1. apply sorted_strongly in H2.
  revert l2 H2. induction H1 as [|a l1 Hs1 IH Hall1]; intros l2 H2 Hp.
  - apply Permutation_nil in Hp. now subst.
  - destruct H2 as [|b l2 Hs2 Hall2].
    + apply Permutation_sym, Permutation_nil in Hp. discriminate.
    + rewrite Forall_forall in Hall1, Hall2.
      assert (Hab : a = b).
      { assert (Ha : In a (b :: l2)) by (apply (Permutation_in _ Hp); now left).
        assert (Hb : In b (a :: l1))
          by (apply (Permutation_in _ (Permutation_sym Hp)); now left).
        destruct Ha as [Ha|Ha]; [now symmetry|].
        destruct Hb as [Hb|Hb]; [exact Hb|].
        apply Hanti; [now apply Hall1 | now apply Hall2]. }
      subst b. f_equal. apply IH; [exact Hs2|].
      now apply Permutation_cons_inv in Hp.
Qed.

(** The stable sort keeps the order of the members that satisfy [p], as
    long as a member that satisfies [p] is not strictly below another one
    that does. *)
Lemma insert_filter (p : A -> bool) (x : A) (l : list A) :
  (forall y, In y l -> p x = true -> p y = true -> leb x y = true) ->
  filter p (insert leb x l) = filter p (x :: l).
Proof.
  induction l as [|y l IH]; intros H; [reflexivity|].
  cbn [insert]. destruct (leb x y) eqn:E; [reflexivity|].
  cbn [filter] in *. rewrite IH by (intros z Hz; apply H; now right).
  destruct (p x) eqn:Px; [|reflexivity].
  destruct (p y) eqn:Py; [|reflexivity].
  rewrite (H y (or_introl eq_refl) eq_refl Py) in E. discriminate.
Qed.

Lemma stable_sort_filter (p : A -> bool) (l : list A) :
  (forall x y, p x = true -> p y = true -> leb x y = true) ->
  filter p (stable_sort leb l) = filter p l.
Proof.
  intros H. induction l as [|x l IH]; [reflexivity|].
  cbn [stable_sort]. rewrite insert_filter by (intros y _; apply H).
  cbn [filter]. now rewrite IH.
Qed.

End Order.

End OrderFacts.

(* ===================================================================== *)
(** * Further properties of [normalize_dataframe] *)
(* ===================================================================== *)

Module NormalizeMore.
Import PandasFacts Loader LoaderFacts OrderFacts Samples.

(** ** Which exception, when *)

Section Errors.
Variable P : parsers.

Lemma occurrences_two (df : DataFrame) (l1 l2 field : string) :
  l1 <> l2 -> In l1 (columns df) -> In l2 (columns df) ->
  rename_label column_mapping l1 = field -> rename_label column_mapping l2 = field ->
  (2 <= occurrences field (rename df column_mapping))%nat.
Proof.
  unfold columns, occurrences, rename. cbn [data].
  induction (data df) as [|c d IH]; intros Hne H1 H2 E1 E2; [destruct H1|].
  cbn [map filter fst In] in *.
  assert (Hone : forall l, In l (map fst d) -> rename_label column_mapping l = field ->
                  (1 <= length (filter (fun c0 : string * Series => String.eqb (fst c0) field)
                                  (map (fun c0 : string * Series =>
                                          (rename_label column_mapping (fst c0), snd c0)) d)))%nat).
  { clear. induction d as [|c d IH]; intros l Hl El; [destruct Hl|].
    cbn [map filter fst In] in *.
    destruct (String.eqb_spec (rename_label column_mapping (fst c)) field);
      [cbn [length]; lia|].
    destruct Hl as [Hl|Hl]; [congruence|]. now apply (IH l). }
  destruct (String.eqb_spec (rename_label column_mapping (fst c)) field) as [Ec|Ec].
  - cbn [length]. destruct H1 as [H1|H1], H2 as [H2|H2].
    + congruence.
    + pose proof (Hone l2 H2 E2). lia.
    + pose proof (Hone l1 H1 E1). lia.
    + pose proof (Hone l1 H1 E1). lia.
  - destruct H1 as [H1|H1]; [congruence|]. destruct H2 as [H2|H2]; [congruence|].
    now apply IH.
Qed.

Lemma duplicate_timestamp_raises (df : DataFrame) :
  (2 <= occurrences "Timestamp" (rename df column_mapping))%nat ->
  normalize_dataframe P df = Raise duplicate_keys_error.
Proof.
  intros H. apply NormalizeProperties.normalize_raise_inv. unfold failure. cbv zeta.
  apply Nat.leb_le in H. now rewrite H.
Qed.

(** The outcome once the [Timestamp] block is passed. *)
Lemma failure_after_timestamp (df : DataFrame) :
  (occurrences "Timestamp" (rename df column_mapping) <= 1)%nat ->
  timestamp_failure P (column (rename df column_mapping) "Timestamp") = None ->
  failure P df
  = if forallb (fun col => (occurrences col (rename df column_mapping) <=? 1)%nat)
               numeric_columns
    then if sorts df
         then match occurrences "Athlete" (rename df column_mapping) with
              | 1%nat => if orderable (column (rename df column_mapping) "Athlete")
                         then None
                         else Some not_comparable
              | _ => Some athlete_not_unique
              end
         else None
    else Some numeric_error.
Proof.
  intros HT HF. unfold failure. cbv zeta. rewrite HF.
  destruct (occurrences "Timestamp" (rename df column_mapping)) as [|[|n]];
    [reflexivity | reflexivity | lia].
Qed.

(** X1.  Which exception [normalize_dataframe] raises, in the order in which
    the function meets the causes.  Two columns renamed to [Timestamp] give
    the duplicate-keys [ValueError] of [pd.to_datetime].  Otherwise the
    conversions of the one [Timestamp] column come first: the exception of
    [pd.to_datetime] when it refuses the column, the [ValueError] of
    [.dt.date] when a timestamp has no calendar date, the out-of-bounds
    error of the second [pd.to_datetime] when a date is beyond the
    timestamp type.  Then two columns renamed to one numeric field give the
    [TypeError] of [pd.to_numeric]; then, when the frame is sorted, two
    [Athlete] columns give the not-unique [ValueError] of [sort_values], and
    one [Athlete] column that mixes numbers and timestamps its [TypeError].
    With none of these, the call returns.  In particular a raw table with
    two different synonyms of [Timestamp] (such as [Timestamp] and [Date])
    is refused. *)
Theorem X1_which_exception (df : DataFrame) :
  let renamed := rename df column_mapping in
  let stamps := column renamed "Timestamp" in
  let numeric_once :=
    forallb (fun col => (occurrences col renamed <=? 1)%nat) numeric_columns in
  ((2 <= occurrences "Timestamp" renamed)%nat ->
     normalize_dataframe P df = Raise duplicate_keys_error)
  /\ ((occurrences "Timestamp" renamed <= 1)%nat ->
      (forall e, refused P stamps = Some e -> normalize_dataframe P df = Raise e)
      /\ (refused P stamps = None ->
          forallb dated (to_datetime_values P stamps) = false ->
          normalize_dataframe P df = Raise no_calendar_date)
      /\ (refused P stamps = None ->
          forallb dated (to_datetime_values P stamps) = true ->
          forallb (date_ok P) (map date_of_cell (to_datetime_values P stamps)) = false ->
          normalize_dataframe P df = Raise out_of_bounds))
  /\ ((occurrences "Timestamp" renamed <= 1)%nat ->
      timestamp_failure P stamps = None ->
      (numeric_once = false -> normalize_dataframe P df = Raise numeric_error)
      /\ (numeric_once = true -> sorts df = true ->
          (2 <= occurrences "Athlete" renamed)%nat ->
          normalize_dataframe P df = Raise athlete_not_unique)
      /\ (numeric_once = true -> sorts df = true ->
          occurrences "Athlete" renamed = 1%nat ->
          orderable (column renamed "Athlete") = false ->
          normalize_dataframe P df = Raise not_comparable)
      /\ (numeric_once = true ->
          (sorts df = true ->
           occurrences "Athlete" renamed = 1%nat
           /\ orderable (column renamed "Athlete") = true) ->
          normalize_dataframe P df = Ok (normalized P df)))
  /\ (forall l1 l2, l1 <> l2 -> In l1 (columns df) -> In l2 (columns df) ->
        rename_label column_mapping l1 = "Timestamp" ->
        rename_label column_mapping l2 = "Timestamp" ->
        normalize_dataframe P df = Raise duplicate_keys_error).
Proof.
  intros renamed stamps numeric_once.
  assert (Hdup : (2 <= occurrences "Timestamp" renamed)%nat ->
                 normalize_dataframe P df = Raise duplicate_keys_error)
    by apply duplicate_timestamp_raises.
  assert (Hts : (occurrences "Timestamp" renamed <= 1)%nat ->
                forall e, timestamp_failure P stamps = Some e ->
                          normalize_dataframe P df = Raise e).
  { intros HT e He. apply NormalizeProperties.normalize_raise_inv.
    unfold failure. cbv zeta. fold renamed. fold stamps. rewrite He.
    destruct (occurrences "Timestamp" renamed) as [|[|n]]; [reflexivity | reflexivity | lia]. }
  split; [exact Hdup|]. split; [|split].
  - intros HT. split; [|split].
    + intros e He. apply (Hts HT). unfold timestamp_failure. now rewrite He.
    + intros Hr Hd. apply (Hts HT). unfold timestamp_failure. now rewrite Hr, Hd.
    + intros Hr Hd Hb. apply (Hts HT). unfold timestamp_failure. now rewrite Hr, Hd, Hb.
  - intros HT HF.
    pose proof (failure_after_timestamp df HT HF) as E.
    fold renamed in E. fold numeric_once in E.
    rewrite normalize_dataframe_outcome, E.
    split; [|split; [|split]].
    + now intros ->.
    + intros -> -> HA.
      destruct (occurrences "Athlete" renamed) as [|[|n]]; [reflexivity | lia | reflexivity].
    + now intros -> -> -> ->.
    + intros -> Hs. destruct (sorts df); [|reflexivity].
      destruct (Hs eq_refl) as [-> ->]. reflexivity.
  - intros l1 l2 Hne H1 H2 E1 E2. apply Hdup.
    now apply (occurrences_two df l1 l2).
Qed.

End Errors.

Lemma X1_which_exception_witness :
  (2 <= occurrences "Timestamp" (rename canonical_table column_mapping))%nat
  /\ normalize_dataframe sample_parsers canonical_table = Raise duplicate_keys_error
  /\ normalize_dataframe sample_parsers mixed_offsets = Raise mixed_zones
  /\ normalize_dataframe sample_parsers year_zero = Raise no_calendar_date
  /\ normalize_dataframe nanosecond_parsers first_hour = Raise out_of_bounds
  /\ normalize_dataframe sample_parsers two_sleep_columns = Raise numeric_error
  /\ normalize_dataframe sample_parsers two_subject_columns = Raise athlete_not_unique.
Proof.
  destruct (X1_which_exception sample_parsers canonical_table) as [H1 _].
  destruct (X1_which_exception sample_parsers mixed_offsets) as [_ [H2 _]].
  destruct (X1_which_exception sample_parsers year_zero) as [_ [H3 _]].
  destruct (X1_which_exception nanosecond_parsers first_hour) as [_ [H4 _]].
  destruct (X1_which_exception sample_parsers two_sleep_columns) as [_ [_ [H5 _]]].
  destruct (X1_which_exception sample_parsers two_subject_columns) as [_ [_ [H6 _]]].
  assert (Hc : (2 <= occurrences "Timestamp" (rename canonical_table column_mapping))%nat)
    by (vm_compute; lia).
  split; [exact Hc|]. split; [exact (H1 Hc)|]. split; [|split; [|split; [|split]]].
  - apply H2; [vm_compute; lia | vm_compute; reflexivity].
  - apply H3; [vm_compute; lia | vm_compute; reflexivity | vm_compute; reflexivity].
  - apply H4; [vm_compute; lia | vm_compute; reflexivity..].
  - apply H5; [vm_compute; lia | vm_compute; reflexivity | reflexivity].
  - apply H6; [vm_compute; lia | vm_compute; reflexivity | reflexivity | reflexivity
               | vm_compute; lia].
Defined.

(** ** Renaming twice, normalizing twice *)

Lemma rename_label_idempotent (l : string) :
  rename_label column_mapping (rename_label column_mapping l)
  = rename_label column_mapping l.
Proof.
  unfold rename_label at 2 3.
  destruct (dict_get column_mapping l) as [v|] eqn:E.
  - apply dict_get_some in E. simpl in E.
    repeat (destruct E as [<-|E]; [reflexivity|]). destruct E.
  - unfold rename_label. now rewrite E.
Qed.

(** X2.  Renaming is idempotent: every field the mapping renames to is left
    alone by the mapping, so renaming a renamed frame changes nothing. *)
Theorem X2_rename_idempotent (df : DataFrame) :
  rename (rename df column_mapping) column_mapping = rename df column_mapping.
Proof.
  apply frame_eq; [reflexivity|]. unfold rename. cbn [data].
  rewrite map_map. apply map_ext. intros c. cbn [fst snd].
  now rewrite rename_label_idempotent.
Qed.

Section Twice.
Variable P : parsers.

Lemma coerce_column_idempotent (c : string * Series) :
  numeric_stable P -> fst c <> "Timestamp" ->
  coerce_column P (coerce_column P c) = coerce_column P c.
Proof.
  intros Hst Hts. unfold coerce_column, coerce_series. cbn [fst snd]. f_equal.
  destruct (String.eqb_spec (fst c) "Timestamp") as [E|_]; [contradiction|].
  destruct (contains numeric_columns (fst c)); [apply Hst | reflexivity].
Qed.

Lemma rename_coerced_without_timestamp (df : DataFrame) :
  contains (columns (rename df column_mapping)) "Timestamp" = false ->
  rename (coerced P df) column_mapping = coerced P df.
Proof.
  intros HT. apply frame_eq; [reflexivity|].
  unfold rename, coerced, coerced_data. cbn [data]. rewrite HT, app_nil_r.
  unfold rename. cbn [data]. rewrite !map_map. apply map_ext. intros c.
  unfold coerce_column. cbn [fst snd]. now rewrite rename_label_idempotent.
Qed.

(** A result without [Timestamp] goes through a second time, each column
    being coerced once more. *)
Lemma second_application_outcome (df : DataFrame) :
  failure P df = None ->
  contains (columns (rename df column_mapping)) "Timestamp" = false ->
  normalized P df = coerced P df
  /\ normalize_dataframe P (coerced P df)
     = Ok {| index := index df;
             data := map (coerce_column P)
                         (map (coerce_column P) (data (rename df column_mapping))) |}.
Proof.
  intros Hacc HTr.
  assert (HT0 : occurrences "Timestamp" (rename df column_mapping) = 0%nat)
    by now apply occurrences_contains_zero.
  assert (Hs : sorts df = false) by (unfold sorts; cbv zeta; now rewrite HTr).
  assert (En : normalized P df = coerced P df) by (unfold normalized; now rewrite Hs).
  split; [exact En|].
  pose proof (rename_coerced_without_timestamp df HTr) as Hren.
  assert (Hocc : forall l, occurrences l (coerced P df)
                           = occurrences l (rename df column_mapping)).
  { intros l. rewrite occurrences_coerced, HTr. cbn [andb]. lia. }
  assert (Hc : columns (coerced P df) = columns (rename df column_mapping)).
  { rewrite columns_coerced, HTr. apply app_nil_r. }
  assert (Hs' : sorts (coerced P df) = false)
    by (unfold sorts; cbv zeta; now rewrite Hren, Hc, HTr).
  assert (Hnum : forallb (fun col => (occurrences col (rename df column_mapping) <=? 1)%nat)
                         numeric_columns = true).
  { rewrite (failure_after_timestamp P df) in Hacc.
    - destruct (forallb _ numeric_columns); [reflexivity | discriminate].
    - rewrite HT0. lia.
    - rewrite (column_absent _ _ HT0). apply timestamp_failure_nil. }
  assert (Hf : failure P (coerced P df) = None).
  { rewrite failure_after_timestamp.
    - rewrite Hren, Hs'.
      rewrite (forallb_pointwise
                 (fun col => (occurrences col (coerced P df) <=? 1)%nat)
                 (fun col => (occurrences col (rename df column_mapping) <=? 1)%nat))
        by (intros col; now rewrite Hocc).
      now rewrite Hnum.
    - rewrite Hren, Hocc, HT0. lia.
    - rewrite Hren, (column_absent _ "Timestamp") by (now rewrite Hocc).
      apply timestamp_failure_nil. }
  rewrite normalize_dataframe_outcome, Hf. f_equal.
  unfold normalized. rewrite Hs'.
  apply frame_eq; [reflexivity|].
  unfold coerced at 1. unfold coerced_data. cbv zeta. cbn [data].
  rewrite Hren, Hc, HTr, app_nil_r.
  unfold coerced, coerced_data. cbv zeta. cbn [data]. now rewrite HTr, app_nil_r.
Qed.

(** X3.  A second application to a result: when the result has a
    [Timestamp] column (and so a [Date] column), [normalize_dataframe]
    raises on it, [Date] being renamed to [Timestamp]; when it has none,
    [normalize_dataframe] does not raise on it and keeps its rows and
    labels, and it returns it unchanged, the numeric coercion returning its
    own results as they are. *)
Theorem X3_second_application (df out : DataFrame) :
  normalize_dataframe P df = Ok out ->
  (In "Timestamp" (columns out) ->
     normalize_dataframe P out = Raise duplicate_keys_error)
  /\ (~ In "Timestamp" (columns out) -> numeric_stable P ->
      normalize_dataframe P out = Ok out)
  /\ (~ In "Timestamp" (columns out) ->
      exists out', normalize_dataframe P out = Ok out'
                   /\ index out' = index out /\ columns out' = columns out).
Proof.
  intros H.
  destruct (NormalizeProperties.normalize_ok_inv P df out H) as [Hacc ->].
  pose proof (NormalizeProperties.columns_normalized P df) as Hcols.
  rewrite <- columns_rename in Hcols.
  assert (Hno : ~ In "Timestamp" (columns (normalized P df)) ->
                contains (columns (rename df column_mapping)) "Timestamp" = false).
  { intros HT. apply contains_false. intros Hin. apply HT. rewrite Hcols.
    apply in_or_app. now left. }
  split; [|split].
  - intros HT.
    assert (HTr : contains (columns (rename df column_mapping)) "Timestamp" = true).
    { destruct (contains (columns (rename df column_mapping)) "Timestamp") eqn:E;
        [reflexivity|].
      rewrite Hcols, app_nil_r in HT. apply contains_in in HT. congruence. }
    apply duplicate_timestamp_raises.
    apply (occurrences_two _ "Timestamp" "Date");
      [discriminate | exact HT | | reflexivity | reflexivity].
    rewrite Hcols, HTr. apply in_or_app. right. now left.
  - intros HT Hst. pose proof (Hno HT) as HTr.
    destruct (second_application_outcome df Hacc HTr) as [-> ->]. f_equal.
    apply frame_eq; [reflexivity|].
    unfold coerced, coerced_data. cbv zeta. cbn [data]. rewrite HTr, app_nil_r.
    rewrite map_map. apply map_ext_in. intros c Hin.
    apply coerce_column_idempotent; [exact Hst|].
    intros E. apply contains_false in HTr. apply HTr.
    unfold columns. rewrite <- E. now apply in_map.
  - intros HT. pose proof (Hno HT) as HTr.
    destruct (second_application_outcome df Hacc HTr) as [-> ->].
    eexists. split; [reflexivity|]. split; [reflexivity|].
    unfold columns, coerced, coerced_data. cbv zeta. cbn [data]. rewrite HTr, app_nil_r.
    rewrite !map_map. apply map_ext. intros c. reflexivity.
Qed.

End Twice.

(** The sample coercion leaves a column of numbers as it is. *)
Lemma sample_numbers_fixed (s : Series) :
  forallb parsed_number s = true -> to_numeric_values sample_parsers s = s.
Proof.
  intros H. unfold to_numeric_values. rewrite <- (map_id s) at 3.
  apply map_ext_in. intros c Hc. rewrite forallb_forall in H. specialize (H c Hc).
  destruct c; try discriminate; reflexivity.
Qed.

Lemma sample_numeric_stable : numeric_stable sample_parsers.
Proof.
  intros s. apply sample_numbers_fixed. apply forallb_map_true. intros c.
  unfold to_numeric_cell. destruct c; try reflexivity;
    now destruct (numeric_in sample_parsers s _).
Qed.

Lemma X3_second_application_witness :
  normalize_dataframe sample_parsers raw_table = Ok canonical_table
  /\ In "Timestamp" (columns canonical_table)
  /\ normalize_dataframe sample_parsers canonical_table = Raise duplicate_keys_error
  /\ normalize_dataframe sample_parsers two_metric_columns
     = Ok (normalized sample_parsers two_metric_columns)
  /\ ~ In "Timestamp" (columns (normalized sample_parsers two_metric_columns))
  /\ numeric_stable sample_parsers
  /\ normalize_dataframe sample_parsers (normalized sample_parsers two_metric_columns)
     = Ok (normalized sample_parsers two_metric_columns).
Proof.
  assert (H1 : normalize_dataframe sample_parsers raw_table = Ok canonical_table)
    by (vm_compute; reflexivity).
  assert (HT : In "Timestamp" (columns canonical_table)) by (simpl; tauto).
  assert (H2 : normalize_dataframe sample_parsers two_metric_columns
               = Ok (normalized sample_parsers two_metric_columns))
    by (vm_compute; reflexivity).
  assert (HN : ~ In "Timestamp" (columns (normalized sample_parsers two_metric_columns)))
    by (vm_compute; intuition discriminate).
  destruct (X3_second_application sample_parsers raw_table canonical_table H1) as [A _].
  destruct (X3_second_application sample_parsers two_metric_columns _ H2) as [_ [B _]].
  split; [exact H1|]. split; [exact HT|]. split; [exact (A HT)|].
  split; [exact H2|]. split; [exact HN|]. split; [exact sample_numeric_stable|].
  exact (B HN sample_numeric_stable).
Defined.

(** ** The derived date, the rows, ties *)

Lemma map_nth_seq {A : Type} (l : list A) (d : A) :
  map (fun i => nth i l d) (seq 0 (length l)) = l.
Proof.
  induction l as [|a l IH]; [reflexivity|].
  cbn [length seq map nth]. f_equal.
  rewrite <- seq_shift, map_map. exact IH.
Qed.

Lemma take_series_map (f : cell -> cell) (ix : list nat) (s : Series) :
  f NA = NA -> take_series ix (map f s) = map f (take_series ix s).
Proof.
  intros H. unfold take_series. rewrite map_map. apply map_ext. intros i.
  rewrite <- H at 1. apply map_nth.
Qed.

Lemma take_series_identity (s : Series) :
  take_series (seq 0 (length s)) s = s.
Proof. apply map_nth_seq. Qed.

Lemma column_length (df : DataFrame) (label : string) :
  well_formed df -> contains (columns df) label = true ->
  length (column df label) = nrows df.
Proof.
  intros Hwf Hc. rewrite contains_occurrences in Hc.
  unfold occurrences, column in *.
  destruct (filter (fun c => String.eqb (fst c) label) (data df)) as [|c r] eqn:F;
    [discriminate|].
  assert (Hin : In c (filter (fun c => String.eqb (fst c) label) (data df)))
    by (rewrite F; now left).
  apply filter_In in Hin. unfold well_formed in Hwf. rewrite Forall_forall in Hwf.
  now apply Hwf.
Qed.

Lemma well_formed_rename (df : DataFrame) :
  well_formed df -> well_formed (rename df column_mapping).
Proof.
  unfold well_formed, rename, nrows. cbn [data index]. intros H.
  apply Forall_map. cbn [snd]. exact H.
Qed.

Lemma well_formed_take (df : DataFrame) (ix : list nat) : well_formed (take df ix).
Proof.
  unfold well_formed, take, nrows. cbn [data index].
  apply Forall_map. cbn [snd]. apply Forall_forall. intros c _.
  unfold take_series. now rewrite !length_map.
Qed.

Lemma nth_parsed (s : Series) (i : nat) :
  forallb parsed_time s = true -> parsed_time (nth i s NA) = true.
Proof.
  intros H. rewrite forallb_forall in H.
  destruct (Nat.lt_ge_cases i (length s)) as [Hi|Hi].
  - apply H. now apply nth_In.
  - now rewrite nth_overflow.
Qed.

Section Rows.
Variable P : parsers.

Lemma length_coerce_series (label : string) (s : Series) :
  length (coerce_series P label s) = length s.
Proof.
  unfold coerce_series, to_datetime_values, to_numeric_values.
  destruct (String.eqb label "Timestamp"); [apply length_map|].
  destruct (contains numeric_columns label); [apply length_map | reflexivity].
Qed.

Lemma well_formed_coerced (df : DataFrame) :
  well_formed df -> well_formed (coerced P df).
Proof.
  intros Hwf. pose proof (well_formed_rename df Hwf) as Hr.
  unfold well_formed, coerced, coerced_data, nrows in *. cbn [data index] in *.
  apply Forall_app. split.
  - apply Forall_map. unfold coerce_column. cbn [snd].
    eapply Forall_impl; [|exact Hr]. intros c Hc. cbn beta in *.
    now rewrite length_coerce_series.
  - destruct (contains (columns (rename df column_mapping)) "Timestamp") eqn:HT;
      [|constructor].
    constructor; [|constructor]. cbn [snd]. unfold to_datetime_values.
    rewrite !length_map.
    exact (column_length (rename df column_mapping) "Timestamp" Hr HT).
Qed.

Lemma column_coerced_timestamp (df : DataFrame) :
  column (coerced P df) "Timestamp"
  = to_datetime_values P (column (rename df column_mapping) "Timestamp").
Proof.
  unfold column, coerced, coerced_data. cbn [data]. rewrite filter_app.
  induction (data (rename df column_mapping)) as [|c d IH].
  - cbn [map filter app]. now destruct (contains _ "Timestamp").
  - cbn [map filter coerce_column fst].
    destruct (String.eqb_spec (fst c) "Timestamp") as [E|E]; [|exact IH].
    cbn [app]. unfold coerce_column at 1. cbn [snd fst]. rewrite E. reflexivity.
Qed.

(** In a result every timestamp has a calendar date, and every date is
    within the bounds of the timestamp type. *)
Lemma timestamps_of_result (df : DataFrame) :
  failure P df = None ->
  let stamps := to_datetime_values P (column (rename df column_mapping) "Timestamp") in
  forallb dated stamps = true /\ forallb (date_ok P) (map date_of_cell stamps) = true.
Proof.
  unfold failure. cbv zeta.
  destruct (2 <=? occurrences "Timestamp" (rename df column_mapping))%nat; [discriminate|].
  unfold timestamp_failure.
  destruct (refused P _); [discriminate|].
  destruct (forallb dated _); [|discriminate].
  destruct (forallb (date_ok P) _); [|discriminate].
  now split.
Qed.

Lemma nth_pred (p : cell -> bool) (s : Series) (i : nat) :
  p NA = true -> forallb p s = true -> p (nth i s NA) = true.
Proof.
  intros Hna H. rewrite forallb_forall in H.
  destruct (Nat.lt_ge_cases i (length s)) as [Hi|Hi].
  - apply H. now apply nth_In.
  - now rewrite nth_overflow.
Qed.

Lemma has_date_day_floor (t : Z) : has_date t = true -> has_date (day_floor t) = true.
Proof.
  unfold has_date, day_floor, first_day, end_of_days. intros H.
  apply andb_prop in H. destruct H as [H1 H2].
  apply Z.leb_le in H1. apply Z.ltb_lt in H2.
  assert (Hpos : (0 < ns_per_day)%Z) by (unfold ns_per_day; lia).
  pose proof (Z.mul_div_le t ns_per_day Hpos) as Hle.
  assert (Hge : (-719162 <= t / ns_per_day)%Z)
    by (apply Z.div_le_lower_bound; [exact Hpos | lia]).
  apply andb_true_intro. split; [apply Z.leb_le | apply Z.ltb_lt]; nia.
Qed.

(** X4.  In a result that has a [Timestamp] column, the [Date] of every row
    is the day of its [Timestamp], by the reading of the timestamp's own
    clock: missing where the timestamp is missing, and otherwise the
    midnight at or before that reading and less than a day before it, a day
    of the calendar. *)
Theorem X4_date_is_day_of_timestamp (df out : DataFrame) :
  normalize_dataframe P df = Ok out -> In "Timestamp" (columns out) ->
  column out "Date" = map date_of_cell (column out "Timestamp")
  /\ forallb parsed_time (column out "Timestamp") = true
  /\ forall i t, nth i (column out "Timestamp") NA = Time t ->
       nth i (column out "Date") NA = Time (day_floor t)
       /\ (day_floor t <= t < day_floor t + ns_per_day)%Z
       /\ (day_floor t mod ns_per_day = 0)%Z
       /\ has_date t = true /\ has_date (day_floor t) = true.
Proof.
  intros H HT.
  destruct (NormalizeProperties.normalize_ok_inv P df out H) as [Hacc ->].
  destruct (timestamps_of_result df Hacc) as [Hdated _]. cbv zeta in Hdated.
  assert (HTr : contains (columns (rename df column_mapping)) "Timestamp" = true).
  { destruct (contains (columns (rename df column_mapping)) "Timestamp") eqn:E;
      [reflexivity|]. exfalso.
    rewrite NormalizeProperties.columns_normalized, <- columns_rename in HT.
    rewrite E, app_nil_r in HT. apply contains_in in HT. congruence. }
  assert (HD : occurrences "Date" (coerced P df) <> 0%nat).
  { rewrite occurrences_coerced, HTr. cbn [andb].
    replace (String.eqb "Date" "Date") with true by reflexivity. lia. }
  assert (HTc : occurrences "Timestamp" (coerced P df) <> 0%nat).
  { rewrite occurrences_coerced. rewrite contains_occurrences in HTr.
    destruct (occurrences "Timestamp" (rename df column_mapping)); [discriminate | lia]. }
  assert (E : column (normalized P df) "Date"
              = map date_of_cell (column (normalized P df) "Timestamp")
              /\ forallb parsed_time (column (normalized P df) "Timestamp") = true
              /\ forallb dated (column (normalized P df) "Timestamp") = true).
  { unfold normalized. destruct (sorts df).
    - rewrite !column_take by assumption.
      rewrite column_coerced_date by exact HTr. rewrite column_coerced_timestamp.
      split; [now apply take_series_map|].
      unfold take_series. split; apply forallb_map_true; intros i.
      + apply nth_parsed. apply to_datetime_values_parsed.
      + now apply nth_pred.
    - rewrite column_coerced_date by exact HTr. rewrite column_coerced_timestamp.
      split; [reflexivity|]. split; [apply to_datetime_values_parsed | exact Hdated]. }
  destruct E as [E1 [E2 E3]]. split; [exact E1|]. split; [exact E2|].
  intros i t Hi. rewrite E1.
  change NA with (date_of_cell NA) at 1. rewrite map_nth, Hi. cbn [date_of_cell].
  split; [reflexivity|]. unfold day_floor.
  assert (Hpos : (0 < ns_per_day)%Z) by (unfold ns_per_day; lia).
  pose proof (Z.mul_div_le t ns_per_day Hpos).
  pose proof (Z.mul_succ_div_gt t ns_per_day Hpos).
  split; [lia|]. split; [apply Z.mod_mul; lia|].
  assert (Ht : has_date t = true).
  { pose proof (nth_pred dated _ i eq_refl E3) as Hn. now rewrite Hi in Hn. }
  split; [exact Ht | now apply has_date_day_floor].
Qed.

(** X5.  On a well-formed frame the result is well-formed, and its row
    labels are the row labels of the input, rearranged: no row is added,
    dropped or repeated. *)
Theorem X5_rows_are_rearranged (df out : DataFrame) :
  well_formed df -> normalize_dataframe P df = Ok out ->
  well_formed out /\ Permutation (index out) (index df).
Proof.
  intros Hwf H.
  destruct (NormalizeProperties.normalize_ok_inv P df out H) as [_ ->].
  unfold normalized. destruct (sorts df).
  - split; [apply well_formed_take|].
    unfold take. cbn [index].
    eapply Permutation_trans; [apply Permutation_map, lexsort_indexer_perm|].
    unfold nrows. cbn [coerced index]. now rewrite map_nth_seq.
  - split; [now apply well_formed_coerced | reflexivity].
Qed.

End Rows.

Lemma X4_date_is_day_of_timestamp_witness :
  normalize_dataframe sample_parsers zoned_night = Ok (normalized sample_parsers zoned_night)
  /\ In "Timestamp" (columns (normalized sample_parsers zoned_night))
  /\ column (normalized sample_parsers zoned_night) "Timestamp" = [Time 1704074400000000000]
  /\ column (normalized sample_parsers zoned_night) "Date" = [Time 1704067200000000000]
  /\ column (normalized sample_parsers zoned_night) "Date"
     = map date_of_cell (column (normalized sample_parsers zoned_night) "Timestamp").
Proof.
  assert (H : normalize_dataframe sample_parsers zoned_night
              = Ok (normalized sample_parsers zoned_night)) by (vm_compute; reflexivity).
  assert (HT : In "Timestamp" (columns (normalized sample_parsers zoned_night)))
    by (vm_compute; tauto).
  split; [exact H|]. split; [exact HT|].
  split; [vm_compute; reflexivity|]. split; [vm_compute; reflexivity|].
  exact (proj1 (X4_date_is_day_of_timestamp sample_parsers zoned_night _ H HT)).
Defined.

Lemma raw_export_well_formed : well_formed raw_export.
Proof. repeat constructor. Qed.

Lemma X5_rows_are_rearranged_witness :
  well_formed raw_export
  /\ normalize_dataframe sample_parsers raw_export = Ok (normalized sample_parsers raw_export)
  /\ well_formed (normalized sample_parsers raw_export)
  /\ Permutation (index (normalized sample_parsers raw_export)) (index raw_export).
Proof.
  assert (H : normalize_dataframe sample_parsers raw_export
              = Ok (normalized sample_parsers raw_export)) by (vm_compute; reflexivity).
  split; [exact raw_export_well_formed|]. split; [exact H|].
  exact (X5_rows_are_rearranged sample_parsers raw_export _ raw_export_well_formed H).
Defined.

(** ** Ties *)

Lemma filter_map_swap {A B : Type} (p : B -> bool) (h : A -> B) (l : list A) :
  filter p (map h l) = map h (filter (fun x => p (h x)) l).
Proof.
  induction l as [|a l IH]; [reflexivity|].
  cbn [map filter]. destruct (p (h a)); cbn [map]; now rewrite IH.
Qed.

Lemma key_eqb_eq (a b : cell * cell) : key_eqb a b = true <-> a = b.
Proof.
  unfold key_eqb. destruct a as [a1 a2], b as [b1 b2]. cbn [fst snd].
  rewrite andb_true_iff, !AthletesProperties.cell_eqb_eq. split.
  - now intros [-> ->].
  - intros H. injection H as -> ->. now split.
Qed.

Section Ties.
Variable P : parsers.

(** X6.  The sort is stable: among the rows that carry the same (Date,
    Athlete) key, the row labels of the result come in the order they have
    in the input. *)
Theorem X6_ties_keep_input_order (df out : DataFrame) (k : cell * cell) :
  well_formed df -> normalize_dataframe P df = Ok out ->
  In "Date" (columns out) -> In "Athlete" (columns out) ->
  rows_with_key out k = rows_with_key (coerced P df) k.
Proof.
  intros Hwf H HD HA.
  pose proof (NormalizeProperties.sorts_of_result P df out H HD HA) as Hs.
  destruct (NormalizeProperties.normalize_ok_inv P df out H) as [Hacc ->].
  destruct (NormalizeProperties.row_keys_normalized P df Hs) as [Hk _].
  cbv zeta in Hk.
  set (c := coerced P df) in *.
  set (d := column c "Date") in *. set (a := column c "Athlete") in *.
  set (f := fun i => nth i (index c) 0%nat).
  set (q := fun i => key_eqb (key_at d a i) k).
  assert (Hidx : index (normalized P df)
                 = map f (lexsort_indexer (nrows c) d a)).
  { unfold normalized. rewrite Hs. reflexivity. }
  assert (Hc : contains (columns c) "Date" = true /\ contains (columns c) "Athlete" = true).
  { unfold sorts in Hs. cbv zeta in Hs. apply andb_prop in Hs. destruct Hs as [HT HAr].
    unfold c. rewrite columns_coerced, !contains_app, HT, HAr.
    split; [apply orb_true_r | reflexivity]. }
  destruct Hc as [HcD HcA].
  pose proof (well_formed_coerced P df Hwf) as Hwc. fold c in Hwc.
  assert (Ld : length d = nrows c) by (apply column_length; assumption).
  assert (La : length a = nrows c) by (apply column_length; assumption).
  assert (Hin : combine (index c) (row_keys c)
                = map (fun i => (f i, key_at d a i)) (seq 0 (nrows c))).
  { unfold row_keys. fold d a.
    rewrite <- (map_nth_seq (index c) 0%nat) at 1.
    rewrite <- (map_nth_seq d NA) at 1. rewrite <- (map_nth_seq a NA) at 1.
    rewrite Ld, La. unfold nrows. rewrite (combine_map (fun i => nth i d NA)).
    now rewrite combine_map. }
  unfold rows_with_key. rewrite Hidx, Hk, Hin, combine_map.
  rewrite !filter_map_swap, !map_map. cbn [fst snd]. fold q.
  unfold lexsort_indexer.
  rewrite (stable_sort_filter _ q); [reflexivity|].
  intros x y Hx Hy. unfold q in Hx, Hy.
  apply key_eqb_eq in Hx. apply key_eqb_eq in Hy. rewrite Hx, Hy.
  apply key_leb_refl.
Qed.

End Ties.

Lemma X6_ties_keep_input_order_witness :
  well_formed tied_rows
  /\ normalize_dataframe sample_parsers tied_rows = Ok (normalized sample_parsers tied_rows)
  /\ index (normalized sample_parsers tied_rows) = [1; 3; 0; 2]%nat
  /\ rows_with_key (normalized sample_parsers tied_rows) (NA, Str "A") = [0; 2]%nat
  /\ rows_with_key (coerced sample_parsers tied_rows) (NA, Str "A") = [0; 2]%nat.
Proof.
  assert (Hwf : well_formed tied_rows) by (repeat constructor).
  assert (H : normalize_dataframe sample_parsers tied_rows
              = Ok (normalized sample_parsers tied_rows)) by (vm_compute; reflexivity).
  assert (HD : In "Date" (columns (normalized sample_parsers tied_rows)))
    by (vm_compute; tauto).
  assert (HA : In "Athlete" (columns (normalized sample_parsers tied_rows)))
    by (vm_compute; tauto).
  pose proof (X6_ties_keep_input_order sample_parsers tied_rows _ (NA, Str "A")
                Hwf H HD HA) as E.
  split; [exact Hwf|]. split; [exact H|]. split; [vm_compute; reflexivity|].
  split; [rewrite E|]; vm_compute; reflexivity.
Defined.

End NormalizeMore.

(* ===================================================================== *)
(** * Properties of [get_latest_date] and more on [get_athletes] *)
(* ===================================================================== *)

Module LoaderMore.
Import PandasFacts Loader LoaderFacts OrderFacts NormalizeMore Samples.

(** ** The greatest value *)

Lemma greater_cases (a b : cell) :
  (greater a b = a \/ greater a b = b)
  /\ cell_leb a (greater a b) = true /\ cell_leb b (greater a b) = true.
Proof.
  unfold greater. destruct (cell_leb a b) eqn:E.
  - split; [now right|]. split; [exact E | apply cell_leb_refl].
  - split; [now left|]. split; [apply cell_leb_refl | now apply cell_leb_total].
Qed.

Lemma fold_greater (l : list cell) (x : cell) :
  In (fold_left greater l x) (x :: l)
  /\ forall y, In y (x :: l) -> cell_leb y (fold_left greater l x) = true.
Proof.
  revert x. induction l as [|z l IH]; intros x.
  - cbn. split; [now left|]. intros y [<-|[]]. apply cell_leb_refl.
  - cbn [fold_left]. destruct (IH (greater x z)) as [Hin Hmax].
    destruct (greater_cases x z) as [Hc [Hx Hz]].
    split.
    + destruct Hin as [Hin|Hin]; [|right; now right].
      destruct Hc as [Hc|Hc]; rewrite <- Hin, Hc; [now left | right; now left].
    + intros y [<-|[<-|Hy]].
      * eapply cell_leb_trans; [exact Hx|]. apply Hmax. now left.
      * eapply cell_leb_trans; [exact Hz|]. apply Hmax. now left.
      * apply Hmax. now right.
Qed.

Lemma homogeneous_times (l : list cell) :
  forallb parsed_time l = true -> homogeneous (dropna l) = true.
Proof.
  intros H. unfold homogeneous.
  destruct (dropna l) as [|x r] eqn:E; [reflexivity|].
  apply forallb_forall. intros y Hy.
  assert (Hx : In x (dropna l)) by (rewrite E; now left).
  assert (Hy' : In y (dropna l)) by (rewrite E; now right).
  apply AthletesProperties.dropna_in in Hx. apply AthletesProperties.dropna_in in Hy'.
  rewrite forallb_forall in H. destruct Hx as [Hx Hxn], Hy' as [Hy' Hyn].
  apply H in Hx. apply H in Hy'.
  destruct x, y; try discriminate; try reflexivity; contradiction.
Qed.

Lemma forallb_isna (s : Series) :
  forallb isna s = true <-> forall c, In c s -> c = NA.
Proof.
  rewrite forallb_forall. split; intros H c Hc.
  - specialize (H c Hc). now destruct c.
  - rewrite (H c Hc). reflexivity.
Qed.

(** The latest date of a column of parsed dates. *)
Lemma series_max_dates (s : Series) :
  forallb parsed_time s = true -> forallb isna s = false ->
  exists d, series_max s = Ok (Time d)
            /\ In (Time d) s
            /\ forall t, In (Time t) s -> (t <= d)%Z.
Proof.
  intros Hp Hna. unfold series_max.
  pose proof (homogeneous_times s Hp) as Hh.
  destruct (dropna s) as [|x l] eqn:E.
  - exfalso. assert (Hall : forallb isna s = true).
    { apply forallb_isna. intros c Hc. destruct c; [reflexivity| | |];
        exfalso;
        match goal with
        | Hc : In ?v s |- _ =>
            assert (Hv : In v (dropna s))
              by (apply AthletesProperties.dropna_in; split; [exact Hc | discriminate]);
            rewrite E in Hv; destruct Hv
        end. }
    congruence.
  - rewrite Hh. destruct (fold_greater l x) as [Hin Hmax].
    rewrite <- E in Hin.
    apply AthletesProperties.dropna_in in Hin. destruct Hin as [Hin Hn].
    rewrite forallb_forall in Hp. pose proof (Hp _ Hin) as Hk.
    destruct (fold_left greater l x) as [| | |d] eqn:Em; try discriminate;
      [now elim Hn|].
    exists d. split; [reflexivity|]. split; [exact Hin|].
    intros t Ht.
    assert (Hd : In (Time t) (x :: l)).
    { rewrite <- E. apply AthletesProperties.dropna_in. split; [exact Ht | discriminate]. }
    specialize (Hmax _ Hd). unfold cell_leb in Hmax. cbn [cell_compare] in Hmax.
    destruct (Z.compare_spec t d); [lia | lia | discriminate].
Qed.

Section Latest.
Variable P : parsers.

Lemma date_column_of_result (df : DataFrame) :
  forallb parsed_time (column (normalized P df) "Date") = true
  /\ (occurrences "Date" (normalized P df) <= 1)%nat.
Proof.
  assert (Hocc : occurrences "Date" (normalized P df) = occurrences "Date" (coerced P df)).
  { apply occurrences_columns. unfold normalized.
    destruct (sorts df); [apply columns_take | reflexivity]. }
  split.
  - destruct (contains (columns (rename df column_mapping)) "Timestamp") eqn:HT.
    + assert (HD : occurrences "Date" (coerced P df) <> 0%nat).
      { rewrite occurrences_coerced, HT. cbn [andb].
        replace (String.eqb "Date" "Date") with true by reflexivity. lia. }
      unfold normalized. destruct (sorts df).
      * rewrite column_take by exact HD. rewrite column_coerced_date by exact HT.
        unfold take_series. apply forallb_map_true. intros i. apply nth_parsed.
        apply forallb_map_true, date_of_cell_parsed.
      * rewrite column_coerced_date by exact HT.
        apply forallb_map_true, date_of_cell_parsed.
    + assert (HD : occurrences "Date" (normalized P df) = 0%nat).
      { rewrite Hocc, occurrences_coerced, HT, (no_date_after_rename df). reflexivity. }
      unfold occurrences in HD. unfold column.
      destruct (filter (fun c => String.eqb (fst c) "Date") (data (normalized P df)));
        [reflexivity | discriminate].
  - rewrite Hocc, occurrences_coerced, (no_date_after_rename df).
    destruct (contains _ "Timestamp" && String.eqb "Date" "Date"); lia.
Qed.

(** X7.  [get_latest_date] never raises on a result of
    [normalize_dataframe]: it gives nothing exactly when the result has no
    known date (no [Date] column, no rows, or missing dates only), and
    otherwise a date of the [Date] column that no date of the column
    exceeds.  On any frame without a [Date] column it gives nothing. *)
Theorem X7_latest_date (df out : DataFrame) :
  (~ In "Date" (columns df) -> get_latest_date df = Ok None)
  /\ (normalize_dataframe P df = Ok out ->
      (exists r, get_latest_date out = Ok r)
      /\ (get_latest_date out = Ok None <->
          forall c, In c (column out "Date") -> c = NA)
      /\ (forall m, get_latest_date out = Ok (Some m) ->
            exists d, m = Time d /\ In (Time d) (column out "Date")
                      /\ forall t, In (Time t) (column out "Date") -> (t <= d)%Z)).
Proof.
  split.
  - intros H. unfold get_latest_date. apply contains_false in H. now rewrite H.
  - intros H.
    destruct (NormalizeProperties.normalize_ok_inv P df out H) as [_ ->].
    destruct (date_column_of_result df) as [Hp Hocc].
    set (o := normalized P df) in *.
    unfold get_latest_date. rewrite contains_occurrences, getitem_spec.
    destruct (occurrences "Date" o) as [|[|n]] eqn:Ho; [| |lia].
    + cbn [Nat.eqb negb].
      assert (Hc : column o "Date" = []).
      { unfold occurrences in Ho. unfold column.
        destruct (filter (fun c => String.eqb (fst c) "Date") (data o));
          [reflexivity | discriminate]. }
      rewrite Hc. split; [eauto|]. split; [|discriminate].
      split; [intros _ c [] | reflexivity].
    + cbn [Nat.eqb negb Py.bind].
      destruct (forallb isna (column o "Date")) eqn:Hna.
      * split; [eauto|]. split; [|discriminate].
        split; [intros _; now apply forallb_isna | reflexivity].
      * destruct (series_max_dates _ Hp Hna) as [d [Hm [Hin Hmax]]].
        rewrite Hm. cbn [Py.bind]. split; [eauto|]. split.
        -- split; [discriminate|]. intros Hall. apply forallb_isna in Hall. congruence.
        -- intros m Em. injection Em as <-. now exists d.
Qed.

End Latest.

Lemma X7_latest_date_witness :
  ~ In "Date" (columns two_metric_columns)
  /\ get_latest_date two_metric_columns = Ok None
  /\ normalize_dataframe sample_parsers raw_export = Ok (normalized sample_parsers raw_export)
  /\ get_latest_date (normalized sample_parsers raw_export)
     = Ok (Some (Time 1704153600000000000)).
Proof.
  assert (Hn : ~ In "Date" (columns two_metric_columns)).
  { simpl. intros H. repeat (destruct H as [H|H]; [discriminate|]). exact H. }
  assert (H : normalize_dataframe sample_parsers raw_export
              = Ok (normalized sample_parsers raw_export)) by (vm_compute; reflexivity).
  destruct (X7_latest_date sample_parsers two_metric_columns
              (normalized sample_parsers raw_export)) as [A _].
  destruct (X7_latest_date sample_parsers raw_export (normalized sample_parsers raw_export))
    as [_ B].
  destruct (B H) as [[r Hr] _].
  split; [exact Hn|]. split; [exact (A Hn)|]. split; [exact H|].
  vm_compute. reflexivity.
Defined.

(** ** The athletes of a result *)

Lemma same_kind_sym (a b : cell) : same_kind a b = same_kind b a.
Proof. now destruct a, b. Qed.

Lemma same_kind_trans (a b c : cell) :
  same_kind a b = true -> same_kind b c = true -> same_kind a c = true.
Proof. destruct a, b, c; simpl; congruence. Qed.

Lemma homogeneous_iff (l : list cell) :
  homogeneous l = true <-> forall x y, In x l -> In y l -> same_kind x y = true.
Proof.
  unfold homogeneous. destruct l as [|a l].
  - split; [intros _ x y [] | reflexivity].
  - rewrite forallb_forall. split.
    + intros H x y Hx Hy.
      assert (Ha : forall z, In z (a :: l) -> same_kind a z = true).
      { intros z [<-|Hz]; [now destruct a | now apply H]. }
      apply (same_kind_trans x a y); [rewrite same_kind_sym|]; now apply Ha.
    + intros H y Hy. apply H; [now left | now right].
Qed.

Lemma homogeneous_perm (l l' : list cell) :
  Permutation l l' -> homogeneous l = homogeneous l'.
Proof.
  intros Hp.
  assert (G : forall a b, Permutation a b -> homogeneous a = true -> homogeneous b = true).
  { intros a b Hab Ha. apply homogeneous_iff. intros x y Hx Hy.
    apply (proj1 (homogeneous_iff a) Ha);
      now apply (Permutation_in _ (Permutation_sym Hab)). }
  destruct (homogeneous l) eqn:E1, (homogeneous l') eqn:E2; try reflexivity.
  - rewrite (G l l' Hp E1) in E2. discriminate.
  - rewrite (G l' l (Permutation_sym Hp) E2) in E1. discriminate.
Qed.

(** The builtin [sorted] does not depend on the order of its argument. *)
Lemma sorted_perm (l l' : list cell) :
  Permutation l l' -> sorted l = sorted l'.
Proof.
  intros Hp. unfold sorted. rewrite (homogeneous_perm l l' Hp).
  destruct (homogeneous l'); [|reflexivity]. f_equal.
  apply (sorted_unique cell_leb cell_leb_trans).
  - apply cell_leb_antisym.
  - apply (stable_sort_sorted cell_leb). intros a b. apply cell_leb_total.
  - apply (stable_sort_sorted cell_leb). intros a b. apply cell_leb_total.
  - rewrite !stable_sort_perm. exact Hp.
Qed.

Lemma unique_dropna_perm (s s' : Series) :
  Permutation s s' -> Permutation (unique (dropna s)) (unique (dropna s')).
Proof.
  intros Hp. apply NoDup_Permutation; try apply AthletesProperties.unique_nodup.
  intros x. rewrite !AthletesProperties.unique_in, !AthletesProperties.dropna_in.
  split; intros [Hx Hn]; split; try exact Hn.
  - now apply (Permutation_in _ Hp).
  - now apply (Permutation_in _ (Permutation_sym Hp)).
Qed.

Lemma take_series_perm (ix : list nat) (s : Series) :
  Permutation ix (seq 0 (length s)) -> Permutation (take_series ix s) s.
Proof.
  intros Hp. unfold take_series.
  eapply Permutation_trans; [apply Permutation_map; exact Hp|].
  now rewrite map_nth_seq.
Qed.

Section Athletes.
Variable P : parsers.

(** X8.  The list of athletes of a result is the list of athletes of the
    renamed input: neither the coercions nor the sort change it, and the
    two calls raise alike when they raise. *)
Theorem X8_athletes_of_result (df out : DataFrame) :
  well_formed df -> normalize_dataframe P df = Ok out ->
  get_athletes out = get_athletes (rename df column_mapping).
Proof.
  intros Hwf H.
  destruct (NormalizeProperties.normalize_ok_inv P df out H) as [_ ->].
  set (renamed := rename df column_mapping).
  assert (Hocc : occurrences "Athlete" (normalized P df) = occurrences "Athlete" renamed).
  { transitivity (occurrences "Athlete" (coerced P df)).
    - apply occurrences_columns. unfold normalized.
      destruct (sorts df); [apply columns_take | reflexivity].
    - rewrite occurrences_coerced.
      replace (String.eqb "Date" "Athlete") with false by reflexivity.
      rewrite andb_false_r. apply Nat.add_0_r. }
  unfold get_athletes. rewrite !contains_occurrences, !getitem_spec, Hocc.
  destruct (occurrences "Athlete" renamed) as [|[|n]] eqn:Ho; [reflexivity| |reflexivity].
  cbn [Nat.eqb negb Py.bind].
  assert (HA : contains (columns renamed) "Athlete" = true)
    by (rewrite contains_occurrences, Ho; reflexivity).
  apply sorted_perm, unique_dropna_perm.
  unfold normalized. destruct (sorts df).
  - rewrite column_take
      by (rewrite occurrences_coerced; fold renamed; rewrite Ho; lia).
    rewrite (column_coerced_athlete P df HA). fold renamed.
    apply take_series_perm.
    rewrite (column_length renamed "Athlete" (well_formed_rename df Hwf) HA).
    apply lexsort_indexer_perm.
  - rewrite (column_coerced_athlete P df HA). reflexivity.
Qed.

End Athletes.

Lemma X8_athletes_of_result_witness :
  well_formed raw_export
  /\ normalize_dataframe sample_parsers raw_export = Ok (normalized sample_parsers raw_export)
  /\ get_athletes (normalized sample_parsers raw_export) = Ok [Str "A"; Str "B"]
  /\ get_athletes (rename raw_export column_mapping) = Ok [Str "A"; Str "B"].
Proof.
  assert (H : normalize_dataframe sample_parsers raw_export
              = Ok (normalized sample_parsers raw_export)) by (vm_compute; reflexivity).
  pose proof (X8_athletes_of_result sample_parsers raw_export _ raw_export_well_formed H)
    as E.
  split; [exact raw_export_well_formed|]. split; [exact H|].
  split; [rewrite E|]; vm_compute; reflexivity.
Defined.

End LoaderMore.

(* ===================================================================== *)
(** * More on [load_google_sheet] *)
(* ===================================================================== *)

Module LoadMore.
Import PandasFacts Loader LoaderFacts LoadProperties Samples.

Section Load.
Variable P : parsers.
Variable W : World.
Variables sheet_title worksheet_name credentials_file : string.


(** X10.  When the credentials file does not exist, no call to the remote
    service is made: the fetch stops at the existence test with
    [FileNotFoundError], which [load_google_sheet] answers with the fallback
    file or re-raises. *)
Theorem X10_missing_credentials (t : trace) :
  path_exists W credentials_file = false ->
  let missing :=
    FileNotFoundError ("Credentials file not found: " ++ credentials_file)%string in
  fetch_remote W sheet_title worksheet_name credentials_file t
  = (Raise missing, t ++ [PathExists credentials_file])
  /\ load_google_sheet P W sheet_title worksheet_name credentials_file true t
     = (fallback_outcome P W,
        t ++ [PathExists credentials_file; StWarning missing;
              StInfo fallback_notice; ReadCsv fallback_path])
  /\ load_google_sheet P W sheet_title worksheet_name credentials_file false t
     = (Raise missing, t ++ [PathExists credentials_file; StWarning missing]).
Proof.
  intros H missing.
  assert (F : fetch_remote W sheet_title worksheet_name credentials_file t
              = (Raise missing, t ++ [PathExists credentials_file])).
  { unfold fetch_remote, io_bind, call, io_raise. rewrite H. reflexivity. }
  split; [exact F|].
  assert (R : remote_ingest W sheet_title worksheet_name credentials_file t
              = (Raise missing, t ++ [PathExists credentials_file])).
  { unfold remote_ingest, io_bind. now rewrite F. }
  destruct (load_after_failure P W sheet_title worksheet_name credentials_file
              missing t _ R) as [A B].
  rewrite A, B, <- !app_assoc. split; reflexivity.
Qed.

End Load.


Lemma X10_missing_credentials_witness :
  path_exists offline_world "gspread_credentials.json" = false
  /\ snd (load_google_sheet sample_parsers offline_world App.SHEET_TITLE
            App.WORKSHEET_NAME "gspread_credentials.json" true [])
     = [PathExists "gspread_credentials.json";
        StWarning (FileNotFoundError "Credentials file not found: gspread_credentials.json");
        StInfo fallback_notice; ReadCsv fallback_path].
Proof.
  assert (H : path_exists offline_world "gspread_credentials.json" = false) by reflexivity.
  destruct (X10_missing_credentials sample_parsers offline_world App.SHEET_TITLE
              App.WORKSHEET_NAME "gspread_credentials.json" [] H) as [_ [A _]].
  split; [exact H|]. rewrite A. reflexivity.
Defined.

End LoadMore.

(* ===================================================================== *)
(** * Properties of the application *)
(* ===================================================================== *)

Module AppProperties.
Import PandasFacts Loader LoaderFacts OrderFacts NormalizeMore LoaderMore App Samples.

(** ** Configuration of the AI features *)

(** X11.  [check_openai_configured] never raises.  With a non-empty
    [OPENAI_API_KEY] in the environment it answers yes without consulting
    the secrets; otherwise it consults them once and answers yes exactly
    when they hold a non-empty key, a failure of the secrets store counting
    as no. *)
Theorem X11_openai_configured (S : Settings) (t : trace) :
  (exists b t', check_openai_configured S t = (Ok b, t'))
  /\ (truthy (getenv S "OPENAI_API_KEY") = true ->
        check_openai_configured S t = (Ok true, t))
  /\ (truthy (getenv S "OPENAI_API_KEY") = false ->
        check_openai_configured S t
        = (Ok match secrets_get_key S "OPENAI_API_KEY" with
              | Ok v => truthy v
              | Raise _ => false
              end,
           t ++ [SecretsRead "OPENAI_API_KEY"])).
Proof.
  unfold check_openai_configured, io_bind, try_except, call, io_ret.
  destruct (truthy (getenv S "OPENAI_API_KEY")).
  - split; [eauto|]. split; [reflexivity | discriminate].
  - destruct (secrets_get_key S "OPENAI_API_KEY") as [v|e].
    + destruct (truthy v); (split; [eauto|]); (split; [discriminate | reflexivity]).
    + split; [eauto|]. split; [discriminate | reflexivity].
Qed.

Lemma X11_openai_configured_witness :
  truthy (getenv key_in_environment "OPENAI_API_KEY") = true
  /\ check_openai_configured key_in_environment [] = (Ok true, [])
  /\ truthy (getenv key_in_secrets "OPENAI_API_KEY") = false
  /\ check_openai_configured key_in_secrets [] = (Ok true, [SecretsRead "OPENAI_API_KEY"])
  /\ check_openai_configured no_key [] = (Ok false, [SecretsRead "OPENAI_API_KEY"]).
Proof.
  destruct (X11_openai_configured key_in_environment []) as [_ [A _]].
  destruct (X11_openai_configured key_in_secrets []) as [_ [_ B]].
  destruct (X11_openai_configured no_key []) as [_ [_ C]].
  split; [reflexivity|]. split; [exact (A eq_refl)|].
  split; [reflexivity|]. split; [exact (B eq_refl) | exact (C eq_refl)].
Defined.

(** ** The loading phase *)

(** X12.  In the loading phase of [main] an exception of
    [load_google_sheet] or of the derived-column steps never escapes: it is
    shown as an error and [main] returns.  The only exception that escapes
    is one that [get_athletes] raises on the enriched frame, that call being
    made after the handler.  [main] goes on only with a list of athletes
    that is not empty. *)
Theorem X12_loading_phase
  (loaded : result DataFrame) (enrich : DataFrame -> result DataFrame) :
  (forall e, loaded = Raise e -> loading_phase loaded enrich = Ok (ShowedLoadError e))
  /\ (forall df, loaded = Ok df -> empty df = true ->
        loading_phase loaded enrich = Ok ShowedNoData)
  /\ (forall df e, loaded = Ok df -> empty df = false -> enrich df = Raise e ->
        loading_phase loaded enrich = Ok (ShowedLoadError e))
  /\ (forall e, loading_phase loaded enrich = Raise e <->
        exists df df', loaded = Ok df /\ empty df = false
                       /\ enrich df = Ok df' /\ get_athletes df' = Raise e)
  /\ (forall df athletes, loading_phase loaded enrich = Ok (GoesOn df athletes) ->
        athletes <> [] /\ get_athletes df = Ok athletes).
Proof.
  unfold loading_phase, load_and_enrich.
  split; [|split; [|split; [|split]]].
  - intros e ->. reflexivity.
  - intros df -> He. cbn [Py.bind]. now rewrite He.
  - intros df e -> He Hen. cbn [Py.bind]. now rewrite He, Hen.
  - intros e. split.
    + destruct loaded as [df|e0]; cbn [Py.bind]; [|discriminate].
      destruct (empty df) eqn:He; [discriminate|].
      destruct (enrich df) as [df'|e1] eqn:Hen; cbn [Py.bind]; [|discriminate].
      destruct (get_athletes df') as [[|a l]|e2] eqn:Hg; cbn [Py.bind]; try discriminate.
      intros [= <-]. now exists df, df'.
    + intros [df [df' [-> [He [Hen Hg]]]]]. cbn [Py.bind].
      rewrite He, Hen. cbn [Py.bind]. now rewrite Hg.
  - intros df athletes.
    destruct loaded as [df0|e0]; cbn [Py.bind]; [|discriminate].
    destruct (empty df0); [discriminate|].
    destruct (enrich df0) as [df'|e1]; cbn [Py.bind]; [|discriminate].
    destruct (get_athletes df') as [[|a l]|e2] eqn:Hg; cbn [Py.bind]; try discriminate.
    intros [= <- <-]. split; [discriminate | exact Hg].
Qed.

Lemma X12_loading_phase_witness :
  loading_phase (Raise empty_source_error) (fun d => Ok d)
  = Ok (ShowedLoadError empty_source_error)
  /\ loading_phase (Ok mixed_subjects) (fun d => Ok d) = Raise not_comparable
  /\ loading_phase (Ok canonical_table) (fun d => Ok d)
     = Ok (GoesOn canonical_table [Str "A"]).
Proof.
  destruct (X12_loading_phase (Raise empty_source_error) (fun d => Ok d)) as [A _].
  destruct (X12_loading_phase (Ok mixed_subjects) (fun d => Ok d))
    as [_ [_ [_ [B _]]]].
  split; [exact (A _ eq_refl)|]. split; [|reflexivity].
  apply B. exists mixed_subjects, mixed_subjects.
  split; [reflexivity|]. split; [reflexivity|]. split; reflexivity.
Defined.

(** ** The default of the comparison selector *)

(** X13.  The default selection of the comparison is the selected athlete
    alone when there is at most one athlete, and otherwise the selected
    athlete followed by the first two athletes; it repeats the selected
    athlete exactly when that athlete is one of the first two, as it is
    when the selector still shows the first athlete. *)
Theorem X13_compare_default (selected : cell) (athletes : list cell) :
  NoDup athletes -> In selected athletes ->
  ((length athletes <= 1)%nat -> compare_default selected athletes = [selected])
  /\ ((2 <= length athletes)%nat ->
      length (compare_default selected athletes) = 3%nat
      /\ (forall a, In a (compare_default selected athletes) -> In a athletes)
      /\ (NoDup (compare_default selected athletes)
          <-> ~ In selected (firstn 2 athletes))
      /\ (selected = nth 0 athletes NA -> ~ NoDup (compare_default selected athletes))).
Proof.
  intros Hnd Hsel. unfold compare_default. split.
  - intros Hl. destruct (Nat.ltb_spec 1 (length athletes)); [lia | reflexivity].
  - intros Hl. destruct (Nat.ltb_spec 1 (length athletes)); [|lia].
    destruct athletes as [|a [|b r]]; cbn [length] in Hl; try lia.
    cbn [firstn length].
    assert (Hab : NoDup [a; b]).
    { inversion Hnd as [|x l Hn Hr]; subst. inversion Hr as [|y l' Hn' Hr']; subst.
      constructor; [|constructor; [intros []|constructor]].
      intros [E|[]]. apply Hn. now left. }
    assert (Hiff : NoDup [selected; a; b] <-> ~ In selected [a; b]).
    { split.
      - intros Hx. now inversion Hx.
      - intros Hx. now constructor. }
    split; [reflexivity|]. split; [|split; [exact Hiff|]].
    + intros x [<-|[<-|[<-|[]]]]; [exact Hsel | now left | right; now left].
    + cbn [nth]. intros -> Hn. apply Hiff in Hn. apply Hn. now left.
Qed.

Lemma X13_compare_default_witness :
  NoDup [Str "A"; Str "B"; Str "C"]
  /\ In (Str "A") [Str "A"; Str "B"; Str "C"]
  /\ compare_default (Str "A") [Str "A"; Str "B"; Str "C"] = [Str "A"; Str "A"; Str "B"]
  /\ ~ NoDup (compare_default (Str "A") [Str "A"; Str "B"; Str "C"]).
Proof.
  assert (Hnd : NoDup [Str "A"; Str "B"; Str "C"]).
  { repeat constructor; simpl; intuition discriminate. }
  assert (Hin : In (Str "A") [Str "A"; Str "B"; Str "C"]) by now left.
  destruct (X13_compare_default (Str "A") [Str "A"; Str "B"; Str "C"] Hnd Hin) as [_ H].
  destruct H as [_ [_ [_ H]]]; [simpl; lia|].
  split; [exact Hnd|]. split; [exact Hin|]. split; [reflexivity|].
  apply H. reflexivity.
Defined.

(** ** The date filter *)

Lemma positions_from_shift (k : nat) (mask : list bool) :
  positions_from (S k) mask = map S (positions_from k mask).
Proof.
  revert k. induction mask as [|b mask IH]; intros k; [reflexivity|].
  cbn [positions_from]. destruct b; cbn [map]; now rewrite IH.
Qed.

Lemma take_positions {A : Type} (p : A -> bool) (s : list A) (d : A) :
  map (fun i => nth i s d) (positions_from 0 (map p s)) = filter p s.
Proof.
  induction s as [|a s IH]; [reflexivity|].
  cbn [map positions_from filter]. rewrite positions_from_shift.
  destruct (p a); cbn [map nth]; rewrite map_map; cbn [nth]; now rewrite IH.
Qed.

Lemma positions_all (n : nat) (mask : list bool) :
  forallb (fun b => b) mask = true -> positions_from n mask = seq n (length mask).
Proof.
  revert n. induction mask as [|b mask IH]; intros n H; [reflexivity|].
  cbn [forallb] in H. apply andb_prop in H. destruct H as [-> H].
  cbn [positions_from length seq]. now rewrite IH.
Qed.

Lemma positions_as_filter (mask : list bool) :
  positions_from 0 mask
  = filter (fun i => nth i mask false) (seq 0 (length mask)).
Proof.
  induction mask as [|b mask IH]; [reflexivity|].
  cbn [positions_from length seq filter nth].
  rewrite positions_from_shift, IH, <- seq_shift, filter_map_swap.
  now destruct b.
Qed.

Lemma take_identity (df : DataFrame) :
  well_formed df -> take df (seq 0 (nrows df)) = df.
Proof.
  intros Hwf. apply frame_eq.
  - unfold take, nrows. cbn [index]. apply map_nth_seq.
  - unfold take. cbn [data]. rewrite <- (map_id (data df)) at 2.
    apply map_ext_in. intros c Hc.
    unfold well_formed in Hwf. rewrite Forall_forall in Hwf.
    rewrite <- (Hwf c Hc). rewrite take_series_identity. now destruct c.
Qed.

Lemma mask_of_dates (lo hi : Z) (dates : Series) :
  mask_and (map (ge_date lo) (map date_of_cell dates))
           (map (le_date hi) (map date_of_cell dates))
  = map (within lo hi) dates.
Proof.
  unfold mask_and. rewrite !map_map, combine_map, map_map.
  apply map_ext. intros c. now destruct c.
Qed.

Lemma apply_date_filter_spec (df : DataFrame) (lo hi : Z) :
  occurrences "Date" df = 1%nat -> forallb parsed_time (column df "Date") = true ->
  apply_date_filter df [lo; hi]
  = if forallb dated (column df "Date")
    then Ok (select_rows df (map (within lo hi) (column df "Date")))
    else Raise no_calendar_date.
Proof.
  intros Ho Hp. unfold apply_date_filter. rewrite getitem_spec, Ho.
  cbn [Py.bind dt_date]. rewrite (dt_date_series_parsed _ Hp).
  destruct (forallb dated (column df "Date")); [|reflexivity].
  cbn [Py.bind]. now rewrite mask_of_dates.
Qed.

Lemma within_parsed (lo hi : Z) (c : cell) : within lo hi c = true -> parsed_time c = true.
Proof. now destruct c. Qed.

(** X14.  The date filter.  With a range that is not a pair of dates the
    frame is left as it is.  With a pair and no [Date] column the filter
    raises [KeyError].  On a frame with one [Date] column of parsed dates it
    raises when one of them has no calendar date, and otherwise keeps, in
    their order, exactly the rows whose date is known and whose day lies in
    the range: the [Date] column of the result is the [Date] column of the
    frame with the other dates removed, the labels of the columns are kept,
    and filtering the result again changes nothing. *)
Theorem X14_date_filter (df : DataFrame) (lo hi : Z) :
  (forall date_range, length date_range <> 2%nat ->
     apply_date_filter df date_range = Ok df)
  /\ (~ In "Date" (columns df) ->
      apply_date_filter df [lo; hi] = Raise (KeyError "Date"))
  /\ (occurrences "Date" df = 1%nat ->
      forallb parsed_time (column df "Date") = true ->
      (forallb dated (column df "Date") = false ->
         apply_date_filter df [lo; hi] = Raise no_calendar_date)
      /\ (forallb dated (column df "Date") = true ->
          exists out,
            apply_date_filter df [lo; hi] = Ok out
            /\ column out "Date" = filter (within lo hi) (column df "Date")
            /\ columns out = columns df
            /\ (nrows out <= length (column df "Date"))%nat
            /\ apply_date_filter out [lo; hi] = Ok out)).
Proof.
  split; [|split].
  - intros r Hr. destruct r as [|a [|b [|c r]]]; try reflexivity. now elim Hr.
  - intros H. unfold apply_date_filter. rewrite getitem_spec.
    rewrite (occurrences_zero df "Date" H). reflexivity.
  - intros Ho Hp. rewrite (apply_date_filter_spec df lo hi Ho Hp).
    split; [now intros ->|]. intros Hd. rewrite Hd.
    set (dates := column df "Date") in *.
    set (out := select_rows df (map (within lo hi) dates)).
    assert (Hcol : column out "Date" = filter (within lo hi) dates).
    { unfold out, select_rows. rewrite column_take by (rewrite Ho; discriminate).
      apply take_positions. }
    assert (Hcols : columns out = columns df) by apply columns_take.
    assert (Hn : nrows out = length (filter (within lo hi) dates)).
    { unfold out, select_rows. rewrite nrows_take.
      rewrite <- (length_map (fun i => nth i dates NA)). now rewrite take_positions. }
    exists out. split; [reflexivity|]. split; [exact Hcol|]. split; [exact Hcols|].
    split; [rewrite Hn; apply filter_length_le|].
    assert (Ho' : occurrences "Date" out = 1%nat)
      by (rewrite (occurrences_columns out df "Date" Hcols); exact Ho).
    assert (Hp' : forallb parsed_time (column out "Date") = true).
    { rewrite Hcol. apply forallb_forall. intros c Hc. apply filter_In in Hc.
      now apply (within_parsed lo hi). }
    assert (Hd' : forallb dated (column out "Date") = true).
    { rewrite Hcol. apply forallb_forall. intros c Hc. apply filter_In in Hc.
      rewrite forallb_forall in Hd. now apply Hd. }
    rewrite (apply_date_filter_spec out lo hi Ho' Hp'), Hd'. f_equal.
    unfold select_rows. rewrite Hcol.
    rewrite positions_all.
    + rewrite length_map, <- Hn. apply take_identity. apply well_formed_take.
    + apply forallb_forall. intros b Hb. apply in_map_iff in Hb.
      destruct Hb as [c [<- Hc]]. now apply filter_In in Hc.
Qed.

Lemma Sorted_map_inv {A B : Type} (R : B -> B -> Prop) (f : A -> B) (l : list A) :
  Sorted R (map f l) -> Sorted (fun a b => R (f a) (f b)) l.
Proof.
  induction l as [|a l IH]; cbn [map]; intros H; [constructor|].
  inversion H as [|x m Hs Hhd]; subst. constructor; [now apply IH|].
  destruct l; cbn [map] in Hhd; [constructor|]. inversion Hhd; subst. now constructor.
Qed.

Lemma day_floor_idempotent (t : Z) : day_floor (day_floor t) = day_floor t.
Proof.
  unfold day_floor. rewrite Z.div_mul; [reflexivity|]. unfold ns_per_day. lia.
Qed.

Section Filtered.
Variable P : parsers.

Lemma well_formed_normalized (df : DataFrame) :
  well_formed df -> well_formed (normalized P df).
Proof.
  intros Hwf. unfold normalized.
  destruct (sorts df); [apply well_formed_take | now apply well_formed_coerced].
Qed.

Lemma date_cells_are_midnights (df : DataFrame) (t : Z) :
  In (Time t) (column (normalized P df) "Date") -> day_floor t = t.
Proof.
  assert (G : forall s i, nth i (map date_of_cell s) NA = Time t -> day_floor t = t).
  { intros s i Hi. change NA with (date_of_cell NA) in Hi. rewrite map_nth in Hi.
    destruct (nth i s NA); try discriminate. injection Hi as <-.
    apply day_floor_idempotent. }
  destruct (contains (columns (rename df column_mapping)) "Timestamp") eqn:HT.
  - assert (HD : occurrences "Date" (coerced P df) <> 0%nat).
    { rewrite occurrences_coerced, HT. cbn [andb].
      replace (String.eqb "Date" "Date") with true by reflexivity. lia. }
    unfold normalized. destruct (sorts df).
    + rewrite column_take by exact HD. rewrite column_coerced_date by exact HT.
      unfold take_series. intros Hin. apply in_map_iff in Hin.
      destruct Hin as [i [Hi _]]. exact (G _ i Hi).
    + rewrite column_coerced_date by exact HT. intros Hin.
      destruct (In_nth _ _ NA Hin) as [i [_ Hi]]. exact (G _ i Hi).
  - assert (Hocc : occurrences "Date" (normalized P df) = 0%nat).
    { transitivity (occurrences "Date" (coerced P df)).
      - apply occurrences_columns. unfold normalized.
        destruct (sorts df); [apply columns_take | reflexivity].
      - rewrite occurrences_coerced, HT, (no_date_after_rename df). reflexivity. }
    unfold occurrences in Hocc. unfold column.
    destruct (filter (fun c => String.eqb (fst c) "Date") (data (normalized P df)));
      [intros [] | discriminate].
Qed.

Lemma sorted_result (df : DataFrame) :
  sorts df = true -> Sorted key_le (row_keys (normalized P df)).
Proof.
  intros Hs.
  destruct (NormalizeProperties.row_keys_normalized P df Hs) as [Hk _].
  rewrite Hk. apply Sorted_map. apply lexsort_indexer_sorted.
Qed.

(** The dates of a result are days of the calendar. *)
Lemma date_column_dated (df : DataFrame) :
  failure P df = None -> forallb dated (column (normalized P df) "Date") = true.
Proof.
  intros Hf. destruct (timestamps_of_result P df Hf) as [Hd _]. cbv zeta in Hd.
  assert (G : forallb dated
                (map date_of_cell
                   (to_datetime_values P (column (rename df column_mapping) "Timestamp")))
              = true).
  { apply forallb_forall. intros c Hc. apply in_map_iff in Hc.
    destruct Hc as [x [<- Hx]]. rewrite forallb_forall in Hd. specialize (Hd x Hx).
    destruct x; try reflexivity. cbn [date_of_cell dated] in *.
    now apply has_date_day_floor. }
  destruct (contains (columns (rename df column_mapping)) "Timestamp") eqn:HT.
  - assert (HD : occurrences "Date" (coerced P df) <> 0%nat).
    { rewrite occurrences_coerced, HT. cbn [andb].
      replace (String.eqb "Date" "Date") with true by reflexivity. lia. }
    unfold normalized. destruct (sorts df).
    + rewrite column_take by exact HD. rewrite column_coerced_date by exact HT.
      unfold take_series. apply forallb_map_true. intros i. now apply nth_pred.
    + now rewrite column_coerced_date by exact HT.
  - assert (Hocc : occurrences "Date" (normalized P df) = 0%nat).
    { transitivity (occurrences "Date" (coerced P df)).
      - apply occurrences_columns. unfold normalized.
        destruct (sorts df); [apply columns_take | reflexivity].
      - rewrite occurrences_coerced, HT, (no_date_after_rename df). reflexivity. }
    now rewrite (column_absent _ _ Hocc).
Qed.

(** X15.  Filtering a result of [normalize_dataframe] by date: the filter
    succeeds on every result that has a [Date] column, every date it keeps
    lies in the range, and when the result has an [Athlete] column too the
    rows that are kept are still in ascending order of (Date, Athlete). *)
Theorem X15_filter_keeps_order (df out : DataFrame) (lo hi : Z) :
  well_formed df -> normalize_dataframe P df = Ok out ->
  In "Date" (columns out) ->
  exists filtered,
    apply_date_filter out [lo; hi] = Ok filtered
    /\ (forall c, In c (column filtered "Date") ->
          exists t, c = Time t /\ (lo <= t <= hi)%Z)
    /\ (In "Athlete" (columns out) -> Sorted key_le (row_keys filtered)).
Proof.
  intros Hwf H HD.
  assert (Hs : In "Athlete" (columns out) -> sorts df = true)
    by (intros HA; exact (NormalizeProperties.sorts_of_result P df out H HD HA)).
  destruct (NormalizeProperties.normalize_ok_inv P df out H) as [Hacc ->].
  destruct (date_column_of_result P df) as [Hp Hocc].
  pose proof (well_formed_normalized df Hwf) as Hwo.
  pose proof (date_cells_are_midnights df) as Hmid.
  pose proof (date_column_dated df Hacc) as Hdd.
  set (o := normalized P df) in *.
  assert (HDc : contains (columns o) "Date" = true) by now apply contains_in.
  assert (Ho : occurrences "Date" o = 1%nat).
  { rewrite contains_occurrences in HDc.
    destruct (occurrences "Date" o) as [|[|n]]; [discriminate | reflexivity | lia]. }
  set (dates := column o "Date") in *.
  set (mask := map (within lo hi) dates).
  exists (select_rows o mask).
  split; [rewrite apply_date_filter_spec by assumption;
          unfold dates in Hdd; now rewrite Hdd|].
  assert (Hcol : column (select_rows o mask) "Date" = filter (within lo hi) dates).
  { unfold select_rows. rewrite column_take by (rewrite Ho; discriminate).
    apply take_positions. }
  split.
  - intros c Hc. rewrite Hcol in Hc. apply filter_In in Hc. destruct Hc as [Hin Hw].
    destruct c as [| | |t]; try discriminate. exists t. split; [reflexivity|].
    cbn [within] in Hw. rewrite (Hmid t Hin) in Hw. lia.
  - intros HA.
    pose proof (sorted_result df (Hs HA)) as Hsorted. fold o in Hsorted.
    assert (HAc : contains (columns o) "Athlete" = true) by now apply contains_in.
    assert (HAo : occurrences "Athlete" o <> 0%nat).
    { rewrite contains_occurrences in HAc.
      destruct (occurrences "Athlete" o); [discriminate | lia]. }
    set (aths := column o "Athlete") in *.
    assert (Ld : length dates = nrows o) by (apply column_length; assumption).
    assert (La : length aths = nrows o) by (apply column_length; assumption).
    set (key := key_at dates aths).
    assert (Hall : row_keys o = map key (seq 0 (nrows o))).
    { unfold row_keys. fold dates aths.
      rewrite <- (map_nth_seq dates NA) at 1. rewrite <- (map_nth_seq aths NA) at 1.
      rewrite Ld, La. now rewrite combine_map. }
    assert (Hkept : row_keys (select_rows o mask) = map key (positions_from 0 mask)).
    { unfold row_keys, select_rows.
      rewrite !column_take by (try (rewrite Ho; discriminate); exact HAo).
      fold dates aths. unfold take_series. now rewrite combine_map. }
    rewrite Hkept, positions_as_filter.
    apply Sorted_map.
    apply (sorted_filter (fun i j => key_leb (key i) (key j))).
    + intros a b c. apply key_leb_trans.
    + unfold mask. rewrite length_map, Ld. apply (Sorted_map_inv key_le key).
      rewrite <- Hall. exact Hsorted.
Qed.

End Filtered.

Lemma X14_date_filter_witness :
  occurrences "Date" canonical_table = 1%nat
  /\ forallb parsed_time (column canonical_table "Date") = true
  /\ apply_date_filter canonical_table [1704153600000000000; 1704240000000000000]%Z
     = Ok {| index := [1%nat];
             data := [ ("Timestamp", [Time 1704153600000000000]);
                       ("Athlete", [Str "A"]);
                       ("Sleep", [num 8]);
                       ("Date", [Time 1704153600000000000]) ] |}
  /\ ~ In "Date" (columns two_metric_columns)
  /\ apply_date_filter two_metric_columns [0; 1]%Z = Raise (KeyError "Date")
  /\ apply_date_filter before_calendar [0; 1]%Z = Raise no_calendar_date.
Proof.
  assert (Ho : occurrences "Date" canonical_table = 1%nat) by reflexivity.
  assert (Hp : forallb parsed_time (column canonical_table "Date") = true) by reflexivity.
  assert (Hd : forallb dated (column canonical_table "Date") = true) by reflexivity.
  assert (Hn : ~ In "Date" (columns two_metric_columns)).
  { simpl. intros H. repeat (destruct H as [H|H]; [discriminate|]). exact H. }
  destruct (X14_date_filter canonical_table 1704153600000000000 1704240000000000000)
    as [_ [_ A]].
  destruct (A Ho Hp) as [_ A'].
  destruct (A' Hd) as [out [Hout _]].
  destruct (X14_date_filter two_metric_columns 0 1) as [_ [B _]].
  destruct (X14_date_filter before_calendar 0 1) as [_ [_ C]].
  destruct (C eq_refl eq_refl) as [C' _].
  split; [exact Ho|]. split; [exact Hp|]. split; [vm_compute; reflexivity|].
  split; [exact Hn|]. split; [exact (B Hn) | exact (C' eq_refl)].
Defined.

Lemma X15_filter_keeps_order_witness :
  well_formed raw_export
  /\ normalize_dataframe sample_parsers raw_export = Ok (normalized sample_parsers raw_export)
  /\ In "Date" (columns (normalized sample_parsers raw_export))
  /\ exists filtered,
       apply_date_filter (normalized sample_parsers raw_export)
         [1704153600000000000; 1704240000000000000]%Z = Ok filtered
       /\ (forall c, In c (column filtered "Date") ->
             exists t, c = Time t
                       /\ (1704153600000000000 <= t <= 1704240000000000000)%Z)
       /\ (In "Athlete" (columns (normalized sample_parsers raw_export)) ->
           Sorted key_le (row_keys filtered)).
Proof.
  assert (H : normalize_dataframe sample_parsers raw_export
              = Ok (normalized sample_parsers raw_export)) by (vm_compute; reflexivity).
  assert (HD : In "Date" (columns (normalized sample_parsers raw_export)))
    by (vm_compute; tauto).
  split; [exact raw_export_well_formed|]. split; [exact H|]. split; [exact HD|].
  exact (X15_filter_keeps_order sample_parsers raw_export _ _ _
           raw_export_well_formed H HD).
Defined.

End AppProperties.

(* ===================================================================== *)
(** * The types of the columns of a result *)
(* ===================================================================== *)

Module ResultTypes.
Import PandasFacts Loader LoaderFacts NormalizeMore Samples.

Lemma nth_number (s : Series) (i : nat) :
  forallb parsed_number s = true -> parsed_number (nth i s NA) = true.
Proof.
  intros H. rewrite forallb_forall in H.
  destruct (Nat.lt_ge_cases i (length s)) as [Hi|Hi].
  - apply H. now apply nth_In.
  - now rewrite nth_overflow.
Qed.

Lemma typed_take (ix : list nat) (c : string * Series) :
  typed_column c = true -> typed_column (fst c, take_series ix (snd c)) = true.
Proof.
  unfold typed_column. cbn [fst snd].
  destruct (String.eqb (fst c) "Timestamp" || String.eqb (fst c) "Date").
  - intros H. unfold take_series. apply forallb_map_true. intros i. now apply nth_parsed.
  - destruct (contains numeric_columns (fst c)); [|reflexivity].
    intros H. unfold take_series. apply forallb_map_true. intros i. now apply nth_number.
Qed.

Section Types.
Variable P : parsers.

Lemma to_numeric_cell_number (s : Series) (c : cell) :
  parsed_number (to_numeric_cell P s c) = true.
Proof.
  unfold to_numeric_cell. destruct c; try reflexivity; now destruct (numeric_in P s _).
Qed.

Lemma typed_coerce_column (c : string * Series) :
  fst c <> "Date" -> typed_column (coerce_column P c) = true.
Proof.
  intros HD. unfold typed_column, coerce_column, coerce_series. cbn [fst snd].
  destruct (String.eqb_spec (fst c) "Date") as [E|_]; [contradiction|].
  rewrite orb_false_r.
  destruct (String.eqb (fst c) "Timestamp").
  - apply to_datetime_values_parsed.
  - destruct (contains numeric_columns (fst c)); [|reflexivity].
    apply forallb_map_true. intros x. apply to_numeric_cell_number.
Qed.

(** X16.  Every column of a result has the type its label calls for:
    the cells of [Timestamp] and [Date] are timestamps or missing, and the
    cells of the numeric fields [Sleep], [Mood], [Energy], [Stress],
    [Soreness] and [Fatigue] are numbers or missing; no text is left in
    them. *)
Theorem X16_columns_are_typed (df out : DataFrame) :
  normalize_dataframe P df = Ok out ->
  forallb typed_column (data out) = true
  /\ (forall c x, In c (data out) -> In (fst c) numeric_columns -> In x (snd c) ->
        x = NA \/ exists q, x = Num q)
  /\ (forall c x, In c (data out) -> fst c = "Timestamp" \/ fst c = "Date" ->
        In x (snd c) -> x = NA \/ exists t, x = Time t).
Proof.
  intros H.
  destruct (NormalizeProperties.normalize_ok_inv P df out H) as [_ ->].
  assert (Hc : forallb typed_column (data (coerced P df)) = true).
  { unfold coerced, coerced_data. cbn [data]. rewrite forallb_app.
    apply andb_true_intro. split.
    - apply forallb_forall. intros c Hin. apply in_map_iff in Hin.
      destruct Hin as [c0 [<- Hin0]]. apply typed_coerce_column.
      intros E. pose proof (no_date_after_rename df) as HD.
      assert (Hl : In "Date" (columns (rename df column_mapping))).
      { unfold columns. rewrite <- E. now apply in_map. }
      apply contains_in in Hl. rewrite contains_occurrences, HD in Hl. discriminate.
    - destruct (contains _ "Timestamp"); [|reflexivity].
      cbn [forallb]. rewrite andb_true_r.
      unfold typed_column. cbn [fst snd].
      replace (String.eqb "Date" "Timestamp" || String.eqb "Date" "Date") with true
        by reflexivity.
      apply forallb_map_true, date_of_cell_parsed. }
  assert (Ht : forallb typed_column (data (normalized P df)) = true).
  { unfold normalized. destruct (sorts df); [|exact Hc].
    unfold take. cbn [data]. apply forallb_forall. intros c Hin.
    apply in_map_iff in Hin. destruct Hin as [c0 [<- Hin0]].
    apply typed_take. rewrite forallb_forall in Hc. now apply Hc. }
  split; [exact Ht|]. rewrite forallb_forall in Ht. split.
  - intros c x Hin Hnum Hx. specialize (Ht c Hin). unfold typed_column in Ht.
    assert (E1 : String.eqb (fst c) "Timestamp" || String.eqb (fst c) "Date" = false).
    { simpl in Hnum. repeat (destruct Hnum as [<-|Hnum]; [reflexivity|]). destruct Hnum. }
    rewrite E1 in Ht. apply contains_in in Hnum. rewrite Hnum in Ht.
    rewrite forallb_forall in Ht. specialize (Ht x Hx).
    destruct x; try discriminate; [now left | right; eauto].
  - intros c x Hin Hl Hx. specialize (Ht c Hin). unfold typed_column in Ht.
    assert (E1 : String.eqb (fst c) "Timestamp" || String.eqb (fst c) "Date" = true)
      by (destruct Hl as [-> | ->]; reflexivity).
    rewrite E1 in Ht. rewrite forallb_forall in Ht. specialize (Ht x Hx).
    destruct x; try discriminate; [now left | right; eauto].
Qed.

End Types.

Lemma X16_columns_are_typed_witness :
  normalize_dataframe sample_parsers raw_export = Ok (normalized sample_parsers raw_export)
  /\ forallb typed_column (data (normalized sample_parsers raw_export)) = true
  /\ forallb typed_column (data (rename raw_export column_mapping)) = false.
Proof.
  assert (H : normalize_dataframe sample_parsers raw_export
              = Ok (normalized sample_parsers raw_export)) by (vm_compute; reflexivity).
  split; [exact H|].
  split; [exact (proj1 (X16_columns_are_typed sample_parsers raw_export _ H))|].
  vm_compute. reflexivity.
Defined.

End ResultTypes.
